(** * Handy-Recon: the investigation pipeline of [OSINTSystem]

    A shallow embedding of [src/Handy-Recon.py] and the properties of its
    four-stage pipeline (pattern analysis, platform scan, intelligence
    gathering, correlation).

    Modelling conventions.
    - Python values that end up in the report dictionaries are terms of
      [pyval]; a [dict] is an insertion-ordered association list with the
      update-in-place behaviour of Python's [d[k] = v].
    - A [str] is a [string]; its characters are the code points below 256,
      so [isdigit] also accepts the three superscript digits of Latin-1.
    - A [float] is an IEEE-754 binary64 value, a [spec_float] of the
      Standard Library with precision 53 and exponent bound 1024.
    - [pyexn] stands for an instance of Python's [Exception].  An
      exception object of a class that derives from [BaseException] only
      ([asyncio.CancelledError] and the like) is a [pybase]; it enters the
      model as what a cancelled probe task ends with, the object that
      [gather] hands back for such a task.
    - The module-level [random] generator and the wall clock are abstract
      state, threaded explicitly; the HTTP session is a read-only oracle.
      The time spent awaiting the requests is not modelled: the clock
      moves only where the code sleeps or reads it.
    - Methods reached through [self] are late-bound in Python: a function
      that calls [self.m] takes [m] as a parameter, and the class's own
      binding is given afterwards.
    - [logging.info] calls are not modelled. *)

From Stdlib Require Import List String Ascii ZArith Lia Bool.
From Stdlib Require Import Floats.SpecFloat.
From Stdlib Require DecimalString.
Import ListNotations.

Local Open Scope Z_scope.
Local Open Scope list_scope.
Local Open Scope string_scope.

(* ================================================================== *)
(** ** Python values, exceptions and dictionaries *)

(** An exception object: its class name and what [str(e)] gives. *)
Record pyexn := mk_exn { exn_class : string; exn_str : string }.

(** An exception object whose class derives from [BaseException] but not
    from [Exception], such as [asyncio.CancelledError]. *)
Record pybase := mk_base { base_class : string; base_str : string }.

#[local] Set Warnings "-register-all".
Inductive pyval :=
| VNone
| VBool (b : bool)
| VInt (z : Z)
| VFloat (f : spec_float)
| VStr (s : string)
| VList (l : list pyval)
| VDict (d : list (string * pyval))
| VExc (e : pyexn)
| VBaseExc (s : pybase).

(** What a call does: it returns a value or raises. *)
Inductive outcome (A : Type) :=
| Returned (a : A)
| Raised (e : pyexn).
Arguments Returned {A} a.
Arguments Raised {A} e.

Definition dict (A : Type) := list (string * A).

Fixpoint dict_get {A} (k : string) (d : dict A) : option A :=
  match d with
  | [] => None
  | (k', v) :: d' => if String.eqb k k' then Some v else dict_get k d'
  end.

(** [d[k] = v]: replaces the value of an existing key where it stands,
    appends a new key at the end. *)
Fixpoint dict_set {A} (d : dict A) (k : string) (v : A) : dict A :=
  match d with
  | [] => [(k, v)]
  | (k', v') :: d' =>
      if String.eqb k k' then (k', v) :: d' else (k', v') :: dict_set d' k v
  end.

Definition dict_keys {A} (d : dict A) : list string := map fst d.
Definition dict_items {A} (d : dict A) : list (string * A) := d.
Definition dict_len {A} (d : dict A) : Z := Z.of_nat (List.length d).

(** A dictionary is well formed when no key occurs twice. *)
Definition dict_wf {A} (d : dict A) : Prop := NoDup (dict_keys d).

(** Field access on a value that should be a dictionary. *)
Definition field (k : string) (v : pyval) : option pyval :=
  match v with
  | VDict d => dict_get k d
  | _ => None
  end.

(* ================================================================== *)
(** ** Floats *)

Definition float := spec_float.
Definition prec : Z := 53.
Definition emax : Z := 1024.

Definition f_0_0 : float := S754_zero false.
Definition f_0_2 : float := S754_finite false 7205759403792794 (-55).
Definition f_0_3 : float := S754_finite false 5404319552844595 (-54).
Definition f_0_5 : float := S754_finite false 4503599627370496 (-53).
Definition f_0_7 : float := S754_finite false 6305039478318694 (-53).
Definition f_0_8 : float := S754_finite false 7205759403792794 (-53).
Definition f_0_95 : float := S754_finite false 8556839292003942 (-53).
Definition f_1_0 : float := S754_finite false 4503599627370496 (-52).
Definition f_3_0 : float := S754_finite false 6755399441055744 (-51).
Definition f_100_0 : float := S754_finite false 7036874417766400 (-46).

(** The binary64 value nearest to the decimal [n/d]. *)
Definition decimal_literal (n d : Z) : float :=
  SFdiv prec emax (binary_normalize prec emax n 0 false)
                  (binary_normalize prec emax d 0 false).

Definition float_lt (x y : float) : bool := SFltb x y.
Definition float_le (x y : float) : bool := SFleb x y.
Definition float_sub (x y : float) : float := SFsub prec emax x y.

Definition is_finite (x : float) : bool :=
  match x with
  | S754_zero _ | S754_finite _ _ _ => true
  | _ => false
  end.

(** [int(x)]: truncation towards zero; NaN and the infinities raise. *)
Definition float_to_int (x : float) : outcome Z :=
  match x with
  | S754_zero _ => Returned 0
  | S754_finite s m e =>
      let a := match e with
               | Zneg p => Z.shiftr (Zpos m) (Zpos p)
               | _ => Z.shiftl (Zpos m) e
               end in
      Returned (if s then - a else a)
  | S754_infinity _ =>
      Raised (mk_exn "OverflowError" "cannot convert float infinity to integer")
  | S754_nan =>
      Raised (mk_exn "ValueError" "cannot convert float NaN to integer")
  end.

(* ================================================================== *)
(** ** Strings *)

Definition str_len (s : string) : Z := Z.of_nat (String.length s).

(** [str(n)] for an [int]. *)
Definition str_of_int (z : Z) : string :=
  DecimalString.NilZero.string_of_int (Z.to_int z).

(** [c.isdigit()] on a code point below 256: the ten ASCII digits and the
    superscripts two, three and one. *)
Definition isdigit (c : ascii) : bool :=
  let n := nat_of_ascii c in
  ((48 <=? n)%nat && (n <=? 57)%nat)
  || (n =? 178)%nat || (n =? 179)%nat || (n =? 185)%nat.

Fixpoint startswith (x s : string) : bool :=
  match x, s with
  | EmptyString, _ => true
  | String a x', String b s' => Ascii.eqb a b && startswith x' s'
  | String _ _, EmptyString => false
  end.

(** [x in s] for two strings: [x] occurs in [s] as a substring. *)
Fixpoint str_in (x s : string) : bool :=
  startswith x s ||
  match s with
  | EmptyString => false
  | String _ s' => str_in x s'
  end.

Definition chars (s : string) : list ascii := list_ascii_of_string s.

(** [any(g)] and [sum(g)] over a generator of booleans. *)
Definition py_any (l : list bool) : bool := existsb (fun b => b) l.
Definition py_sum (l : list bool) : Z :=
  fold_left (fun acc (b : bool) => acc + (if b then 1 else 0)) l 0.

(* ================================================================== *)
(** ** The pattern analyser: the pure part of [brain_analyze] *)

(** The dictionary bound to [features]. *)
Definition brain_features (username : string) : pyval :=
  VDict [ ("length", VInt (str_len username));
          ("has_digits", VBool (py_any (map isdigit (chars username))));
          ("has_underscore", VBool (str_in "_" username));
          ("has_dot", VBool (str_in "." username)) ].

Definition generic_substrings : list string := ["admin"; "test"; "user"].

(** The [if]/[elif] chain that binds [pattern_type]. *)
Definition brain_pattern_type (username : string) : string :=
  if py_any (map (fun x => str_in x username) generic_substrings) then "generic"
  else if (str_len username <? 5)%Z then "short"
  else if (py_sum (map isdigit (chars username)) >? 2)%Z then "numeric"
  else "personal".

(* ================================================================== *)
(** ** [str.format] on a URL template

    The fragment of the format mini-language that a URL template with
    positional slots uses: literal text, the escapes [{{] and [}}], the
    automatic field [{}] and the numbered field [{N}].  A field with any
    other name has no keyword argument to resolve to and raises
    [KeyError]; conversions and format specifications are not modelled. *)

Inductive numbering := NumInit | NumAuto (next : nat) | NumManual.

Definition all_digits (s : string) : bool :=
  forallb (fun c => let n := nat_of_ascii c in (48 <=? n)%nat && (n <=? 57)%nat)
          (chars s).

Definition nat_of_digits (s : string) : nat :=
  fold_left (fun acc c => (10 * acc + (nat_of_ascii c - 48))%nat) (chars s) 0%nat.

Definition positional (args : list string) (i : nat) : outcome string :=
  match nth_error args i with
  | Some a => Returned a
  | None =>
      Raised (mk_exn "IndexError"
        ("Replacement index " ++ str_of_int (Z.of_nat i)
         ++ " out of range for positional args tuple"))
  end.

(** Resolves the field named [name]; gives the text and the new numbering. *)
Definition format_field (name : string) (st : numbering) (args : list string)
  : outcome (string * numbering) :=
  match name with
  | EmptyString =>
      match st with
      | NumManual =>
          Raised (mk_exn "ValueError"
            "cannot switch from manual field specification to automatic field numbering")
      | NumInit =>
          match positional args 0 with
          | Returned a => Returned (a, NumAuto 1)
          | Raised e => Raised e
          end
      | NumAuto i =>
          match positional args i with
          | Returned a => Returned (a, NumAuto (S i))
          | Raised e => Raised e
          end
      end
  | _ =>
      if all_digits name then
        match st with
        | NumAuto _ =>
            Raised (mk_exn "ValueError"
              "cannot switch from automatic field numbering to manual field specification")
        | _ =>
            match positional args (nat_of_digits name) with
            | Returned a => Returned (a, NumManual)
            | Raised e => Raised e
            end
        end
      else Raised (mk_exn "KeyError" ("'" ++ name ++ "'"))
  end.

(** [infield = None]: reading literal text; [infield = Some acc]: inside a
    replacement field whose name read so far is [acc]. *)
Fixpoint format_go (s : string) (infield : option string) (st : numbering)
  (args : list string) {struct s} : outcome string :=
  match infield with
  | None =>
      match s with
      | EmptyString => Returned EmptyString
      | String "{" (String "{" rest) =>
          match format_go rest None st args with
          | Returned r => Returned (String "{" r)
          | Raised e => Raised e
          end
      | String "{" EmptyString =>
          Raised (mk_exn "ValueError" "Single '{' encountered in format string")
      | String "{" rest => format_go rest (Some EmptyString) st args
      | String "}" (String "}" rest) =>
          match format_go rest None st args with
          | Returned r => Returned (String "}" r)
          | Raised e => Raised e
          end
      | String "}" _ =>
          Raised (mk_exn "ValueError" "Single '}' encountered in format string")
      | String c rest =>
          match format_go rest None st args with
          | Returned r => Returned (String c r)
          | Raised e => Raised e
          end
      end
  | Some acc =>
      match s with
      | EmptyString =>
          Raised (mk_exn "ValueError" "expected '}' before end of string")
      | String "}" rest =>
          match format_field acc st args with
          | Returned (a, st') =>
              match format_go rest None st' args with
              | Returned r => Returned (a ++ r)
              | Raised e => Raised e
              end
          | Raised e => Raised e
          end
      | String "{" _ =>
          Raised (mk_exn "ValueError" "unexpected '{' in field name")
      | String c rest => format_go rest (Some (acc ++ String c EmptyString)) st args
      end
  end.

Definition str_format (template : string) (args : list string) : outcome string :=
  format_go template None NumInit args.

(* ================================================================== *)
(** ** The runtime: [random], the clock and the event loop's sleep *)

(** The operations of the [random], [time], [datetime] and [asyncio]
    modules that the pipeline calls.  [rng] is the state of the module
    level generator, [clock] that of the wall clock. *)
Class Runtime := {
  rng : Type;
  clock : Type;
  random_random : rng -> float * rng;
  random_uniform : float -> float -> rng -> float * rng;
  random_randint : Z -> Z -> rng -> outcome Z * rng;
  random_choice : list pyval -> rng -> outcome pyval * rng;
  random_sample : list pyval -> Z -> rng -> outcome (list pyval) * rng;
  time_time : clock -> float * clock;
  datetime_now_isoformat : clock -> string * clock;
  asyncio_sleep : float -> clock -> clock
}.

(** What Python documents of them: [randint], [choice] and [sample] raise
    only on an empty range, an empty sequence and a sample larger than the
    population; [time.time()] is a finite number. *)
Class RuntimeLaws (R : Runtime) : Prop := {
  randint_returns : forall a b g, a <= b ->
    exists n, fst (random_randint a b g) = Returned n /\ a <= n <= b;
  choice_returns : forall l g, l <> [] ->
    exists v, fst (random_choice l g) = Returned v /\ In v l;
  sample_returns : forall l k g, 0 <= k <= Z.of_nat (List.length l) ->
    exists r, fst (random_sample l k g) = Returned r;
  time_time_finite : forall c, is_finite (fst (time_time c)) = true
}.

Record world {R : Runtime} := mk_world { w_rng : rng; w_clock : clock }.
Arguments mk_world {R} w_rng w_clock.

(** A computation: it reads and updates the world, and returns or raises. *)
Definition M {R : Runtime} (A : Type) : Type := world -> outcome A * world.

Definition ret {R : Runtime} {A} (a : A) : M A := fun w => (Returned a, w).

Definition bind {R : Runtime} {A B} (c : M A) (k : A -> M B) : M B :=
  fun w =>
    match c w with
    | (Returned a, w') => k a w'
    | (Raised e, w') => (Raised e, w')
    end.

Definition raise {R : Runtime} {A} (e : pyexn) : M A := fun w => (Raised e, w).

Notation "x <- c ;; k" := (bind c (fun x => k))
  (at level 100, c at next level, right associativity).
Notation "c ;;; k" := (bind c (fun _ => k))
  (at level 100, right associativity).

Definition lift {R : Runtime} {A} (o : outcome A) : M A := fun w => (o, w).

Definition with_rng {R : Runtime} {A} (f : rng -> A * rng) : M A :=
  fun w => let (a, g) := f (w_rng w) in (Returned a, mk_world g (w_clock w)).

Definition with_rng_exc {R : Runtime} {A} (f : rng -> outcome A * rng) : M A :=
  fun w => let (o, g) := f (w_rng w) in (o, mk_world g (w_clock w)).

Definition with_clock {R : Runtime} {A} (f : clock -> A * clock) : M A :=
  fun w => let (a, c) := f (w_clock w) in (Returned a, mk_world (w_rng w) c).

Definition uniform {R : Runtime} (a b : float) : M float :=
  with_rng (random_uniform a b).
Definition random {R : Runtime} : M float := with_rng random_random.
Definition randint {R : Runtime} (a b : Z) : M Z :=
  with_rng_exc (random_randint a b).
Definition choice {R : Runtime} (l : list pyval) : M pyval :=
  with_rng_exc (random_choice l).
Definition sample {R : Runtime} (l : list pyval) (k : Z) : M (list pyval) :=
  with_rng_exc (random_sample l k).
Definition time {R : Runtime} : M float := with_clock time_time.
Definition now_isoformat {R : Runtime} : M string :=
  with_clock datetime_now_isoformat.
Definition sleep {R : Runtime} (d : float) : M unit :=
  fun w => (Returned tt, mk_world (w_rng w) (asyncio_sleep d (w_clock w))).

(* ================================================================== *)
(** ** Stage 1: [brain_analyze] *)

Definition brain_analyze {R : Runtime} (username : string) : M pyval :=
  sleep f_0_5 ;;;
  let features := brain_features username in
  let pattern_type := brain_pattern_type username in
  confidence <- uniform f_0_7 f_0_95 ;;
  timestamp <- now_isoformat ;;
  ret (VDict [ ("pattern_type", VStr pattern_type);
               ("features", features);
               ("confidence", VFloat confidence);
               ("timestamp", VStr timestamp) ]).

(* ================================================================== *)
(** ** Stage 2: [check_platform] and [muscle_scan] *)

Record response := mk_response { resp_status : Z; resp_url : string }.

(** [self.session]: what [get(url, timeout, allow_redirects)] answers, a
    response or a transport failure. *)
Record ClientSession := {
  session_get : string -> Z -> bool -> outcome response
}.

Definition check_platform (session : ClientSession) (platform url : string)
  : outcome pyval :=
  match session_get session url 10 false with
  | Returned response =>
      Returned (VDict
        [ ("status", VStr (if (resp_status response =? 200)%Z
                           then "found" else "not_found"));
          ("status_code", VInt (resp_status response));
          ("url", VStr (resp_url response));
          ("platform", VStr platform) ])
  | Raised e =>
      Returned (VDict [ ("status", VStr "error");
                        ("error", VStr (exn_str e));
                        ("platform", VStr platform) ])
  end.

(** [asyncio.CancelledError(msg)] *)
Definition CancelledError (msg : string) : pybase :=
  mk_base "CancelledError" msg.

(** A probe task: the coroutine that [self.check_platform(...)] creates,
    given by what it ends with once awaited.  It returns a value or raises
    an [Exception] ([Ended]), or it is cancelled while it waits
    ([Cancelled], with the message of the cancellation) and ends with
    [CancelledError], which derives from [BaseException] only, so that no
    [except Exception] clause of the coroutine catches it.
    [KeyboardInterrupt] and [SystemExit] end the event loop, not a task,
    and are outside the model. *)
Inductive task :=
| Ended (o : outcome pyval)
| Cancelled (msg : string).

(** A call that returns or raises an [Exception] is a task that ends so. *)
#[local] Set Warnings "-uniform-inheritance".
Coercion Ended : outcome >-> task.

(** [asyncio.gather] with [return_exceptions=True]: one result per task,
    in the order of the tasks; the exception a task ended with becomes
    its result, and so does the [CancelledError] of a cancelled task. *)
Definition gather_return_exceptions (tasks : list task) : list pyval :=
  map (fun t => match t with
                | Ended (Returned v) => v
                | Ended (Raised e) => VExc e
                | Cancelled msg => VBaseExc (CancelledError msg)
                end) tasks.

(** [isinstance(result, Exception)] *)
Definition isinstance_Exception (v : pyval) : bool :=
  match v with
  | VExc _ => true
  | _ => false
  end.

(** [str(result)] for the values the coordinator applies it to. *)
Definition str_of_result (v : pyval) : string :=
  match v with
  | VExc e => exn_str e
  | VStr s => s
  | _ => EmptyString
  end.

Section MuscleScan.
Context {R : Runtime}.
(** [self.platforms] and the bound method [self.check_platform]. *)
Variable self_platforms : dict string.
Variable self_check_platform : string -> string -> task.

(** The first loop: one task per item of [self.platforms]. *)
Fixpoint scan_tasks (items : list (string * string)) (username : string)
  (tasks : list task) : outcome (list task) :=
  match items with
  | [] => Returned tasks
  | (platform, url) :: items' =>
      match str_format url [username] with
      | Returned u =>
          scan_tasks items' username
            (tasks ++ [self_check_platform platform u])%list
      | Raised e => Raised e
      end
  end.

(** The second loop, over [zip(self.platforms.keys(), platform_results)]. *)
Definition scan_collect (keys : list string) (platform_results : list pyval)
  : dict pyval :=
  fold_left
    (fun results (pr : string * pyval) =>
       let (platform, result) := pr in
       if isinstance_Exception result
       then dict_set results platform
              (VDict [ ("status", VStr "error");
                       ("error", VStr (str_of_result result)) ])
       else dict_set results platform result)
    (combine keys platform_results) [].

Definition muscle_scan (username : string) (brain_data : pyval) : M pyval :=
  tasks <- lift (scan_tasks (dict_items self_platforms) username []) ;;
  let platform_results := gather_return_exceptions tasks in
  let results := scan_collect (dict_keys self_platforms) platform_results in
  scan_duration <- uniform f_1_0 f_3_0 ;;
  ret (VDict [ ("username", VStr username);
               ("platform_results", VDict results);
               ("scan_duration", VFloat scan_duration);
               ("total_checked", VInt (dict_len self_platforms)) ]).
End MuscleScan.

(* ================================================================== *)
(** ** Stage 3: [api_gather_intel] and its two simulated providers *)

Definition breaches : list pyval :=
  [ VDict [ ("breach", VStr "Collection1"); ("date", VStr "2019-01-15");
            ("data_compromised", VStr "emails, passwords") ];
    VDict [ ("breach", VStr "AntiPublic"); ("date", VStr "2017-03-10");
            ("data_compromised", VStr "usernames, IPs") ] ].

Definition simulate_breach_check {R : Runtime} (username : string) : M pyval :=
  breaches_found <- randint 0 2 ;;
  r <- random ;;
  breach_details <-
    (if float_lt f_0_7 r
     then (k <- randint 0 2 ;; sample breaches k)
     else ret []) ;;
  last_checked <- now_isoformat ;;
  ret (VDict [ ("breaches_found", VInt breaches_found);
               ("breach_details", VList breach_details);
               ("last_checked", VStr last_checked) ]).

Definition simulate_social_analysis {R : Runtime} (username : string) : M pyval :=
  activity_level <- choice [VStr "low"; VStr "medium"; VStr "high"] ;;
  account_age <- randint 1 60 ;;
  influence_score <- uniform f_0_0 f_100_0 ;;
  ret (VDict [ ("activity_level", activity_level);
               ("account_age", VInt account_age);
               ("influence_score", VFloat influence_score) ]).

Definition api_gather_intel {R : Runtime} (username : string) (scan_data : pyval)
  : M pyval :=
  sleep f_0_3 ;;;
  breach_data <- simulate_breach_check username ;;
  social_analysis <- simulate_social_analysis username ;;
  reputation_score <- uniform f_0_0 f_1_0 ;;
  ret (VDict [ ("username", VStr username);
               ("breach_data", breach_data);
               ("social_analysis", social_analysis);
               ("reputation_score", VFloat reputation_score) ]).

(* ================================================================== *)
(** ** Stage 4: [correlate_intelligence] *)

(** The conditional expression that gives ['level']. *)
Definition risk_level (risk_score : float) : string :=
  if float_lt risk_score f_0_3 then "low"
  else if float_lt risk_score f_0_7 then "medium"
  else "high".

Fixpoint enumerate {A} (i : Z) (l : list A) : list (Z * A) :=
  match l with
  | [] => []
  | x :: l' => (i, x) :: enumerate (i + 1) l'
  end.

Definition correlate_intelligence {R : Runtime} (username : string)
  (data_sources : list pyval) : M pyval :=
  sleep f_0_2 ;;;
  let all_data :=
    fold_left (fun (d : dict pyval) (p : Z * pyval) =>
                 dict_set d ("source_" ++ str_of_int (fst p)) (snd p))
              (enumerate 0 data_sources) [] in
  risk_score <- uniform f_0_0 f_1_0 ;;
  confidence <- uniform f_0_8 f_0_95 ;;
  ret (VDict
    [ ("risk_assessment",
        VDict [ ("score", VFloat risk_score);
                ("level", VStr (risk_level risk_score));
                ("factors", VList [ VStr "multiple_platforms";
                                    VStr "pattern_analysis";
                                    VStr "breach_data" ]) ]);
      ("confidence", VFloat confidence);
      ("recommendations",
        VList [ VStr "Monitor social media activity";
                VStr "Check for additional aliases";
                VStr "Verify breach exposure details" ]) ]).

(* ================================================================== *)
(** ** The orchestrator: [orchestrate_investigation] *)

Section Orchestrate.
Context {R : Runtime}.
(** The four stage methods, reached through [self]. *)
Variable self_brain_analyze : string -> M pyval.
Variable self_muscle_scan : string -> pyval -> M pyval.
Variable self_api_gather_intel : string -> pyval -> M pyval.
Variable self_correlate_intelligence : string -> list pyval -> M pyval.

Definition orchestrate_investigation (username : string) : M pyval :=
  start_time <- time ;;
  brain_data <- self_brain_analyze username ;;
  scan_data <- self_muscle_scan username brain_data ;;
  api_data <- self_api_gather_intel username scan_data ;;
  final_analysis <-
    self_correlate_intelligence username [brain_data; scan_data; api_data] ;;
  t <- time ;;
  let total_time := float_sub t start_time in
  t_id <- time ;;
  seconds <- lift (float_to_int t_id) ;;
  suffix <- randint 1000 9999 ;;
  timestamp <- now_isoformat ;;
  ret (VDict
    [ ("operation_id",
        VStr ("op_" ++ str_of_int seconds ++ "_" ++ str_of_int suffix));
      ("username", VStr username);
      ("brain_analysis", brain_data);
      ("scan_results", scan_data);
      ("api_intelligence", api_data);
      ("final_analysis", final_analysis);
      ("total_duration", VFloat total_time);
      ("timestamp", VStr timestamp) ]).
End Orchestrate.

(* ================================================================== *)
(** ** The class [OSINTSystem] and its own bindings *)

Record OSINTSystem := {
  self_session : ClientSession;
  self_results : dict pyval;
  self_platforms : dict string
}.

(** [__init__], given the session that [aiohttp.ClientSession()] opens. *)
Definition init (session : ClientSession) : OSINTSystem :=
  {| self_session := session;
     self_results := [];
     self_platforms :=
       [ ("github", "https://github.com/{}");
         ("twitter", "https://twitter.com/{}");
         ("instagram", "https://instagram.com/{}");
         ("reddit", "https://reddit.com/user/{}");
         ("linkedin", "https://linkedin.com/in/{}") ] |}.

(** The prober as the class binds it. *)
Definition probe (self : OSINTSystem) : string -> string -> task :=
  check_platform (self_session self).

(** The scan coordinator as the class binds it. *)
Definition scan {R : Runtime} (self : OSINTSystem) : string -> pyval -> M pyval :=
  muscle_scan (self_platforms self) (probe self).

(** The whole pipeline as the class binds it. *)
Definition investigate {R : Runtime} (self : OSINTSystem) : string -> M pyval :=
  orchestrate_investigation brain_analyze (scan self) api_gather_intel
    correlate_intelligence.

(** The fields an investigation report is assembled with. *)
Definition report_fields : list string :=
  [ "operation_id"; "username"; "brain_analysis"; "scan_results";
    "api_intelligence"; "final_analysis"; "total_duration"; "timestamp" ].

Definition complete_report (v : pyval) : Prop :=
  forall k, In k report_fields -> exists x, field k v = Some x.

(** The three statuses of a probe outcome. *)
Definition probe_statuses : list string := ["found"; "not_found"; "error"].

(* ================================================================== *)
(** ** Specification-side notions *)

(** [x] occurs in [s]. *)
Definition substring (x s : string) : Prop :=
  exists pre post, s = pre ++ x ++ post.

Definition digit_count (s : string) : Z :=
  Z.of_nat (List.length (filter isdigit (chars s))).

Definition has_generic_substring (username : string) : Prop :=
  exists x, In x generic_substrings /\ substring x username.

Definition no_brace (s : string) : bool :=
  forallb (fun c => negb (Ascii.eqb c "{") && negb (Ascii.eqb c "}")) (chars s).

(** A URL template with exactly one substitution slot. *)
Definition one_slot (template : string) : Prop :=
  exists pre post,
    template = pre ++ "{}" ++ post /\ no_brace pre = true /\ no_brace post = true.

(** A platform configuration: a dictionary of one-slot templates. *)
Definition platforms_ok (platforms : dict string) : Prop :=
  dict_wf platforms /\ Forall (fun kv => one_slot (snd kv)) platforms.

(** The URL a template gives for a username. *)
Definition url_for (template username : string) : string :=
  match str_format template [username] with
  | Returned u => u
  | Raised _ => EmptyString
  end.

(** What the coordinator records for one gathered result. *)
Definition recorded (result : pyval) : pyval :=
  if isinstance_Exception result
  then VDict [ ("status", VStr "error"); ("error", VStr (str_of_result result)) ]
  else result.

(** What a task contributes to the gathered list. *)
Definition gathered (t : task) : pyval :=
  match t with
  | Ended (Returned v) => v
  | Ended (Raised e) => VExc e
  | Cancelled msg => VBaseExc (CancelledError msg)
  end.

(** The mapping a scan is expected to build: one entry per platform, in
    the order of the configuration. *)
Definition expected_results (platforms : dict string)
  (check : string -> string -> task) (username : string) : dict pyval :=
  map (fun kv => (fst kv, recorded (gathered (check (fst kv) (url_for (snd kv) username)))))
      platforms.

(** The unit interval of risk scores. *)
Definition in_unit_interval (score : float) : Prop :=
  float_le f_0_0 score = true /\ float_le score f_1_0 = true.

(** The stages of an investigation. *)
Inductive stage := PatternAnalysis | Scanning | IntelligenceGathering | Correlation.

(** The first stage that raises, with what it raises, when the four stages
    run in sequence from the world [w]. *)
Definition first_failure {R : Runtime}
  (brain : string -> M pyval) (muscle : string -> pyval -> M pyval)
  (api : string -> pyval -> M pyval) (correlate : string -> list pyval -> M pyval)
  (username : string) (w : world) : option (stage * pyexn) :=
  match brain username w with
  | (Raised e, _) => Some (PatternAnalysis, e)
  | (Returned b, w1) =>
      match muscle username b w1 with
      | (Raised e, _) => Some (Scanning, e)
      | (Returned s, w2) =>
          match api username s w2 with
          | (Raised e, _) => Some (IntelligenceGathering, e)
          | (Returned a, w3) =>
              match correlate username [b; s; a] w3 with
              | (Raised e, _) => Some (Correlation, e)
              | (Returned _, _) => None
              end
          end
      end
  end.

(* ================================================================== *)
(** ** Test doubles *)

(** A deterministic runtime: every draw is the lower bound of its range,
    [random()] is 0.8, the clock ticks once per call. *)
Definition fixed_runtime : Runtime := {|
  rng := nat;
  clock := Z;
  random_random := fun g => (f_0_8, S g);
  random_uniform := fun a _ g => (a, S g);
  random_randint := fun a b g =>
    (if (a <=? b)%Z then Returned a
     else Raised (mk_exn "ValueError" "empty range for randrange()"), S g);
  random_choice := fun l g =>
    (match l with
     | x :: _ => Returned x
     | [] => Raised (mk_exn "IndexError" "Cannot choose from an empty sequence")
     end, S g);
  random_sample := fun l k g =>
    (if ((0 <=? k)%Z && (k <=? Z.of_nat (List.length l))%Z)%bool
     then Returned (firstn (Z.to_nat k) l)
     else Raised (mk_exn "ValueError" "Sample larger than population or is negative"),
     S g);
  time_time := fun c => (f_100_0, (c + 1)%Z);
  datetime_now_isoformat := fun c => ("2026-01-01T00:00:00", (c + 1)%Z);
  asyncio_sleep := fun _ c => (c + 1)%Z
|}.

Definition w0 : @world fixed_runtime := @mk_world fixed_runtime 0%nat 0%Z.

(** A network outage: every request fails. *)
Definition offline_session : ClientSession :=
  {| session_get := fun _ _ _ =>
       Raised (mk_exn "ClientConnectorError" "Cannot connect to host") |}.

(** Every request is answered with [status]. *)
Definition answering_session (status : Z) : ClientSession :=
  {| session_get := fun url _ _ => Returned (mk_response status url) |}.

Definition boom : pyexn := mk_exn "RuntimeError" "boom".

(** A prober whose task for [github] ends with an exception and which
    behaves as [check_platform] elsewhere. *)
Definition crashing_probe (session : ClientSession) (platform url : string) : task :=
  if String.eqb platform "github" then Raised boom
  else check_platform session platform url.


(** Stage methods that raise. *)
Definition failing_brain {R : Runtime} (username : string) : M pyval :=
  raise boom.
Definition failing_api {R : Runtime} (username : string) (scan_data : pyval)
  : M pyval := raise boom.

(* ================================================================== *)
(** ** Further notions used by the properties of the whole file *)

(** What Python documents of [random.sample]: the result has the size
    asked for and is drawn from the population. *)
Class SampleLaw (R : Runtime) : Prop := {
  sample_is_selection : forall l k g r,
    fst (random_sample l k g) = Returned r ->
    List.length r = Z.to_nat k /\ incl r l
}.

(** A template that [str.format] accepts for this username. *)
Definition formats (username : string) (kv : string * string) : Prop :=
  exists url, str_format (snd kv) [username] = Returned url.

(** A character of a plain field name: a letter, a digit or [_]. *)
Definition name_char (c : ascii) : bool :=
  let n := nat_of_ascii c in
  ((48 <=? n)%nat && (n <=? 57)%nat) || ((65 <=? n)%nat && (n <=? 90)%nat)
  || ((97 <=? n)%nat && (n <=? 122)%nat) || (n =? 95)%nat.

(** The templates on which [str_format] is [str.format]: every replacement
    field is empty, an index of at most 18 digits, or a plain name; no
    field holds a conversion ([!]), a format specification ([:]), an
    attribute ([.]) or an index ([[]]).  Scanning stops where both raise
    the same [ValueError] on an unbalanced brace. *)
Fixpoint plain_fields_go (s : string) (infield : option string) {struct s}
  : bool :=
  match infield with
  | None =>
      match s with
      | EmptyString => true
      | String "{" (String "{" rest) => plain_fields_go rest None
      | String "{" EmptyString => true
      | String "{" rest => plain_fields_go rest (Some EmptyString)
      | String "}" (String "}" rest) => plain_fields_go rest None
      | String "}" _ => true
      | String _ rest => plain_fields_go rest None
      end
  | Some acc =>
      match s with
      | EmptyString => true
      | String "}" rest =>
          (negb (all_digits acc) || (String.length acc <=? 18)%nat)
          && plain_fields_go rest None
      | String "{" _ => true
      | String c rest =>
          name_char c && plain_fields_go rest (Some (acc ++ String c EmptyString))
      end
  end.

Definition plain_fields (template : string) : bool :=
  plain_fields_go template None.

(** The report of a scan, given the mapping and the duration estimate. *)
Definition scan_report (username : string) (results : dict pyval)
  (scan_duration : float) (total_checked : Z) : pyval :=
  VDict [ ("username", VStr username);
          ("platform_results", VDict results);
          ("scan_duration", VFloat scan_duration);
          ("total_checked", VInt total_checked) ].

(** The report of an investigation, given its eight fields. *)
Definition investigation_report (operation_id username : string)
  (brain_data scan_data api_data final_analysis : pyval)
  (total_duration : float) (timestamp : string) : pyval :=
  VDict [ ("operation_id", VStr operation_id);
          ("username", VStr username);
          ("brain_analysis", brain_data);
          ("scan_results", scan_data);
          ("api_intelligence", api_data);
          ("final_analysis", final_analysis);
          ("total_duration", VFloat total_duration);
          ("timestamp", VStr timestamp) ].

(** A configuration with a template that names a keyword field. *)
Definition platforms_with_keyword : dict string :=
  [ ("github", "https://github.com/{}");
    ("mastodon", "https://{instance}/@{}");
    ("reddit", "https://reddit.com/user/{}") ].

(* ================================================================== *)
(** ** The command line: [close], [main] and [cli]

    What the process does to its surroundings is kept as a trace of
    events; what the surroundings answer (the lines of a file, whether a
    write fails, the JSON text of a value) is an oracle.  Text that is
    printed is held with each character beyond Latin-1 (the pictographs
    of the messages) as its UTF-8 bytes. *)

Inductive event :=
| Printed (text : string)
| Prompted (prompt : string)
| Opened (path : string)
| Dumped (path : string) (v : pyval)
| Closed.

(** [host_read_lines path]: [open(path, 'r')] and the lines the file gives
    when iterated.  [host_dump_fails trace path v]: whether
    [open(path, 'w')] followed by [json.dump(v, f, indent=2)] raises, after
    the events of [trace].  [host_json_dumps v]: [json.dumps(v, indent=2)].
    [host_str v]: the text an f-string gives for a value that is not a
    [str]. *)
Record Host := {
  host_read_lines : string -> outcome (list string);
  host_dump_fails : list event -> string -> pyval -> option pyexn;
  host_json_dumps : pyval -> outcome string;
  host_str : pyval -> string
}.

Record proc {R : Runtime} := mk_proc {
  p_world : world;
  p_stdin : list string;
  p_trace : list event
}.
Arguments mk_proc {R} p_world p_stdin p_trace.

Definition IO {R : Runtime} (A : Type) : Type := proc -> outcome A * proc.

Definition io_ret {R : Runtime} {A} (a : A) : IO A := fun p => (Returned a, p).

Definition io_bind {R : Runtime} {A B} (c : IO A) (k : A -> IO B) : IO B :=
  fun p =>
    match c p with
    | (Returned a, p') => k a p'
    | (Raised e, p') => (Raised e, p')
    end.

Notation "x <~ c ;; k" := (io_bind c (fun x => k))
  (at level 100, c at next level, right associativity).
Notation "c ~;; k" := (io_bind c (fun _ => k))
  (at level 100, right associativity).

Definition io_lift {R : Runtime} {A} (o : outcome A) : IO A := fun p => (o, p).

(** Awaiting a computation of the pipeline. *)
Definition io_run {R : Runtime} {A} (c : M A) : IO A :=
  fun p =>
    let (o, w) := c (p_world p) in
    (o, mk_proc w (p_stdin p) (p_trace p)).

Definition emit {R : Runtime} (ev : event) (p : proc) : proc :=
  mk_proc (p_world p) (p_stdin p) (p_trace p ++ [ev])%list.

(** [print(text)] on a standard output whose encoding holds every
    character of the text, as UTF-8 does: the line is written and nothing
    is raised. *)
Definition io_print {R : Runtime} (text : string) : IO unit :=
  fun p => (Returned tt, emit (Printed text) p).

(** [input(prompt)]: the next line of the standard input, [EOFError] when
    there is none. *)
Definition io_input {R : Runtime} (prompt : string) : IO string :=
  fun p =>
    match p_stdin p with
    | line :: rest =>
        (Returned line,
         mk_proc (p_world p) rest (p_trace p ++ [Prompted prompt])%list)
    | [] =>
        (Raised (mk_exn "EOFError" "EOF when reading a line"),
         emit (Prompted prompt) p)
    end.

(** [try: c except Exception as e: handler e] *)
Definition try_except {R : Runtime} {A} (c : IO A) (handler : pyexn -> IO A)
  : IO A :=
  fun p =>
    match c p with
    | (Raised e, p') => handler e p'
    | r => r
    end.

(** [try: c except cls: handler], for a class without subclasses. *)
Definition try_except_class {R : Runtime} {A} (cls : string) (c : IO A)
  (handler : IO A) : IO A :=
  fun p =>
    match c p with
    | (Raised e, p') =>
        if String.eqb (exn_class e) cls then handler p' else (Raised e, p')
    | r => r
    end.

(** [try: c finally: fin] *)
Definition try_finally {R : Runtime} {A} (c : IO A) (fin : IO unit) : IO A :=
  fun p =>
    let (o, p') := c p in
    match fin p' with
    | (Returned _, p'') => (o, p'')
    | (Raised e, p'') => (Raised e, p'')
    end.

Fixpoint io_for {R : Runtime} {A} (l : list A) (body : A -> IO unit) : IO unit :=
  match l with
  | [] => io_ret tt
  | x :: l' => body x ~;; io_for l' body
  end.

(** [v[k]] *)
Definition subscript (v : pyval) (k : string) : outcome pyval :=
  match v with
  | VDict d =>
      match dict_get k d with
      | Some x => Returned x
      | None => Raised (mk_exn "KeyError" ("'" ++ k ++ "'"))
      end
  | _ => Raised (mk_exn "TypeError" "object is not subscriptable")
  end.

Definition nl : string := String "010"%char EmptyString.

(** [c.isspace()] on a code point below 256. *)
Definition isspace (c : ascii) : bool :=
  let n := nat_of_ascii c in
  ((9 <=? n)%nat && (n <=? 13)%nat) || ((28 <=? n)%nat && (n <=? 32)%nat)
  || (n =? 133)%nat || (n =? 160)%nat.

Fixpoint lstrip_chars (l : list ascii) : list ascii :=
  match l with
  | c :: l' => if isspace c then lstrip_chars l' else l
  | [] => []
  end.

(** [s.strip()] *)
Definition strip (s : string) : string :=
  string_of_list_ascii
    (rev (lstrip_chars (rev (lstrip_chars (list_ascii_of_string s))))).

(** [c.lower()] on a code point below 256. *)
Definition lower_char (c : ascii) : ascii :=
  let n := nat_of_ascii c in
  if ((65 <=? n)%nat && (n <=? 90)%nat)
     || ((192 <=? n)%nat && (n <=? 222)%nat && negb (n =? 215)%nat)
  then ascii_of_nat (n + 32) else c.

(** [s.lower()] *)
Definition lower (s : string) : string :=
  string_of_list_ascii (map lower_char (list_ascii_of_string s)).

(** [s * n] *)
Fixpoint str_repeat (s : string) (n : nat) : string :=
  match n with
  | O => EmptyString
  | S n' => s ++ str_repeat s n'
  end.

(** The truth value of a [str]. *)
Definition nonempty (s : string) : bool :=
  match s with
  | EmptyString => false
  | String _ _ => true
  end.

(** The truth value of an attribute that is [None] or a [str]. *)
Definition truthy (o : option string) : bool :=
  match o with
  | Some s => nonempty s
  | None => false
  end.

(** [x in l] for a list of strings. *)
Definition str_in_list (x : string) (l : list string) : bool :=
  existsb (String.eqb x) l.

(** What [parse_args] gives: the positional [username], [--batch] and
    [--output], one of [json] and [text]. *)
Record Namespace := {
  args_username : option string;
  args_batch : option string;
  args_output : string
}.

(** The name [self] inside [cli]: bound neither there nor in the module. *)
Definition global_self : outcome pyval :=
  Raised (mk_exn "NameError" "name 'self' is not defined").

(** The comprehension over the lines of the batch file. *)
Definition batch_usernames (lines : list string) : list string :=
  map strip (filter (fun line => nonempty (strip line)) lines).

Section CommandLine.
Context {R : Runtime}.
Variable H : Host.

(** The text an f-string gives for a value. *)
Definition fstr (v : pyval) : string :=
  match v with
  | VStr s => s
  | _ => host_str H v
  end.

Definition io_open_read (path : string) : IO (list string) :=
  fun p => (host_read_lines H path, emit (Opened path) p).

(** [with open(path, 'w') as f: json.dump(v, f, indent=2)] *)
Definition io_dump (path : string) (v : pyval) : IO unit :=
  fun p =>
    (match host_dump_fails H (p_trace p) path v with
     | Some e => Raised e
     | None => Returned tt
     end, emit (Dumped path v) p).

(** [close]: [await self.session.close()] *)
Definition close (self : OSINTSystem) : IO unit :=
  fun p => (Returned tt, emit Closed p).

(** One round of the loop of [main]. *)
Definition main_iteration (osint_system : OSINTSystem) (username : string)
  : IO unit :=
  try_except
    (results <~ io_run (investigate osint_system username) ;;
     io_print ("✅ Completed: " ++ username) ~;;
     operation_id <~ io_lift (subscript results "operation_id") ;;
     io_dump ("operation_" ++ fstr operation_id ++ ".json") results)
    (fun e =>
       io_print ("❌ Error investigating " ++ username ++ ": " ++ exn_str e)).

Definition main (session : ClientSession) : IO unit :=
  let osint_system := init session in
  try_finally
    (io_print "🔍 Investigating single username..." ~;;
     results <~ io_run (investigate osint_system "example_user") ;;
     io_print "✅ Investigation complete!" ~;;
     operation_id <~ io_lift (subscript results "operation_id") ;;
     io_print ("📊 Results saved to operation_" ++ fstr operation_id ++ ".json") ~;;
     operation_id <~ io_lift (subscript results "operation_id") ;;
     io_dump ("operation_" ++ fstr operation_id ++ ".json") results ~;;
     io_print (nl ++ "🔍 Investigating multiple usernames...") ~;;
     io_for ["test_user"; "admin123"; "john_doe"] (main_iteration osint_system) ~;;
     io_print (nl ++ "🎉 All investigations completed!"))
    (close osint_system).

(** One round of the loop of the batch branch. *)
Definition cli_batch_iteration (system : OSINTSystem) (username : string)
  : IO unit :=
  try_except
    (results <~ io_run (investigate system username) ;;
     final_analysis <~ io_lift (subscript results "final_analysis") ;;
     risk_assessment <~ io_lift (subscript final_analysis "risk_assessment") ;;
     level <~ io_lift (subscript risk_assessment "level") ;;
     io_print ("✅ " ++ username ++ ": " ++ fstr level ++ " risk") ~;;
     operation_id <~ io_lift (subscript results "operation_id") ;;
     let filename :=
       "results/" ++ username ++ "_" ++ fstr operation_id ++ ".json" in
     io_dump filename results)
    (fun e => io_print ("❌ Failed " ++ username ++ ": " ++ exn_str e)).

(** The batch branch of [cli]. *)
Definition cli_batch (system : OSINTSystem) (batch : string) : IO unit :=
  try_except_class "FileNotFoundError"
    (lines <~ io_open_read batch ;;
     let usernames := batch_usernames lines in
     io_print ("🔍 Processing "
               ++ str_of_int (Z.of_nat (List.length usernames))
               ++ " usernames...") ~;;
     io_for usernames (cli_batch_iteration system))
    (io_print ("❌ File not found: " ++ batch)).

(** The single-username branch of [cli]. *)
Definition cli_single (system : OSINTSystem) (username output : string)
  : IO unit :=
  results <~ io_run (investigate system username) ;;
  if String.eqb output "json"
  then (text <~ io_lift (host_json_dumps H results) ;; io_print text)
  else (self <~ io_lift global_self ;; io_ret tt).

(** The body of the [try] inside the interactive loop. *)
Definition cli_interactive_body (system : OSINTSystem) (username : string)
  : IO unit :=
  io_print ("🔍 Investigating " ++ username ++ "...") ~;;
  results <~ io_run (investigate system username) ;;
  self <~ io_lift global_self ;;
  answer <~ io_input "Save results? (y/n): " ;;
  let save := lower answer in
  if startswith "y" save
  then (operation_id <~ io_lift (subscript results "operation_id") ;;
        let filename :=
          "results/" ++ username ++ "_" ++ fstr operation_id ++ ".json" in
        io_dump filename results ~;;
        io_print ("💾 Saved to " ++ filename))
  else io_ret tt.

Definition quit_words : list string := ["quit"; "exit"; "q"].

(** The [while True] loop of the interactive branch; every round reads a
    line, so [fuel] beyond the number of lines left is never used up. *)
Fixpoint cli_interactive_loop (system : OSINTSystem) (fuel : nat) (p : proc)
  : option (outcome unit * proc) :=
  match fuel with
  | O => None
  | S fuel' =>
      match io_input (nl ++ "Enter username to investigate (or 'quit' to exit): ") p with
      | (Raised e, p1) => Some (Raised e, p1)
      | (Returned line, p1) =>
          let username := strip line in
          if str_in_list (lower username) quit_words
          then Some (Returned tt, p1)
          else
            match (if nonempty username
                   then try_except (cli_interactive_body system username)
                          (fun e => io_print ("❌ Investigation failed: "
                                              ++ exn_str e))
                   else io_ret tt) p1 with
            | (Raised e, p2) => Some (Raised e, p2)
            | (Returned _, p2) => cli_interactive_loop system fuel' p2
            end
      end
  end.

(** What the [try] of [cli] runs. *)
Definition cli_body (system : OSINTSystem) (fuel : nat) (args : Namespace)
  (p : proc) : option (outcome unit * proc) :=
  match args_batch args, args_username args with
  | Some (String c batch), _ => Some (cli_batch system (String c batch) p)
  | _, Some (String c username) =>
      Some (cli_single system (String c username) (args_output args) p)
  | _, _ =>
      match (io_print "🌐 World-Class OSINT Tool" ~;;
             io_print (str_repeat "=" 40)) p with
      | (Raised e, p1) => Some (Raised e, p1)
      | (Returned _, p1) => cli_interactive_loop system fuel p1
      end
  end.

(** [cli], after [parse_args]: the branch, then [system.close()]. *)
Definition cli (session : ClientSession) (fuel : nat) (args : Namespace)
  (p : proc) : option (outcome unit * proc) :=
  let system := init session in
  match cli_body system fuel args p with
  | None => None
  | Some (o, p1) =>
      Some (match close system p1 with
            | (Returned _, p2) => (o, p2)
            | (Raised e, p2) => (Raised e, p2)
            end)
  end.
End CommandLine.

(** A host where every file is missing and every write succeeds. *)
Definition bare_host : Host :=
  {| host_read_lines := fun path =>
       Raised (mk_exn "FileNotFoundError"
                 ("[Errno 2] No such file or directory: '" ++ path ++ "'"));
     host_dump_fails := fun _ _ _ => None;
     host_json_dumps := fun _ => Returned "{}";
     host_str := fun _ => "?" |}.

(** A host whose batch file holds three lines, one of them blank, and
    where every write fails for want of the [results] directory. *)
Definition readonly_host : Host :=
  {| host_read_lines := fun _ =>
       Returned ["john_doe" ++ nl; "  " ++ nl; " admin123 " ++ nl];
     host_dump_fails := fun _ path _ =>
       Some (mk_exn "FileNotFoundError"
               ("[Errno 2] No such file or directory: '" ++ path ++ "'"));
     host_json_dumps := fun _ => Returned "{}";
     host_str := fun _ => "?" |}.

(** The lines of that batch file. *)
Definition batch_lines : list string :=
  ["john_doe" ++ nl; "  " ++ nl; " admin123 " ++ nl].

Definition p0 (stdin : list string) : @proc fixed_runtime :=
  @mk_proc fixed_runtime w0 stdin [].

(** The final analysis, given the two draws of the correlator. *)
Definition final_analysis_report (risk_score confidence : float) : pyval :=
  VDict
    [ ("risk_assessment",
        VDict [ ("score", VFloat risk_score);
                ("level", VStr (risk_level risk_score));
                ("factors", VList [ VStr "multiple_platforms";
                                    VStr "pattern_analysis";
                                    VStr "breach_data" ]) ]);
      ("confidence", VFloat confidence);
      ("recommendations",
        VList [ VStr "Monitor social media activity";
                VStr "Check for additional aliases";
                VStr "Verify breach exposure details" ]) ].

(** The events of the trace that are writes. *)
Definition is_dump (ev : event) : bool :=
  match ev with
  | Dumped _ _ => true
  | _ => false
  end.

Definition is_print (ev : event) : bool :=
  match ev with
  | Printed _ => true
  | _ => false
  end.

(** ** Specification-side notions for the command line *)

(** [p'] continues [p]: the trace grew by events that hold no [Closed],
    and no line of input was put back. *)
Definition continues {R : Runtime} (p p' : proc) : Prop :=
  (exists evs, p_trace p' = (p_trace p ++ evs)%list /\ ~ In Closed evs)
  /\ (List.length (p_stdin p') <= List.length (p_stdin p))%nat.

(** A computation that never closes the session nor puts input back. *)
Definition steady {R : Runtime} {A} (c : IO A) : Prop :=
  forall p o p', c p = (o, p') -> continues p p'.

Definition ask_username : string :=
  nl ++ "Enter username to investigate (or 'quit' to exit): ".

Definition self_undefined : pyexn :=
  mk_exn "NameError" "name 'self' is not defined".

(** What the interactive loop does with the lines of the standard input:
    the events, the outcome and the lines left unread. *)
Fixpoint interactive_events (stdin : list string) : list event :=
  match stdin with
  | [] => [Prompted ask_username]
  | line :: rest =>
      Prompted ask_username ::
      (if str_in_list (lower (strip line)) quit_words then []
       else
         (if nonempty (strip line)
          then [ Printed ("🔍 Investigating " ++ strip line ++ "...");
                 Printed ("❌ Investigation failed: " ++ exn_str self_undefined) ]
          else []) ++ interactive_events rest)%list
  end.

Fixpoint interactive_outcome (stdin : list string) : outcome unit :=
  match stdin with
  | [] => Raised (mk_exn "EOFError" "EOF when reading a line")
  | line :: rest =>
      if str_in_list (lower (strip line)) quit_words then Returned tt
      else interactive_outcome rest
  end.

Fixpoint interactive_unread (stdin : list string) : list string :=
  match stdin with
  | [] => []
  | line :: rest =>
      if str_in_list (lower (strip line)) quit_words then rest
      else interactive_unread rest
  end.

(** [results['final_analysis']['risk_assessment']['level']] *)
Definition report_risk_level (report : pyval) : option pyval :=
  match field "final_analysis" report with
  | Some final_analysis =>
      match field "risk_assessment" final_analysis with
      | Some risk_assessment => field "level" risk_assessment
      | None => None
      end
  | None => None
  end.

(** The events of one round of the batch loop: the risk level of the
    report of this username's investigation, the write of that report,
    and the notice of a failed write. *)
Definition batch_round {R : Runtime} (session : ClientSession)
  (username : string) (evs : list event) : Prop :=
  exists w w' level operation_id report tail,
    evs = (Printed ("✅ " ++ username ++ ": " ++ level ++ " risk")
           :: Dumped ("results/" ++ username ++ "_" ++ operation_id ++ ".json")
                report
           :: tail)%list
    /\ investigate (init session) username w = (Returned report, w')
    /\ report_risk_level report = Some (VStr level)
    /\ In level ["low"; "medium"; "high"]
    /\ field "operation_id" report = Some (VStr operation_id)
    /\ (tail = [] \/ exists e, tail = [Printed ("❌ Failed " ++ username ++ ": "
                                               ++ exn_str e)]).

(** What stands behind a write of batch mode, given the events [pre]
    before it: the file is named after one of the usernames and the
    identifier of the report written, the report is what an investigation
    of that username returned, and the last thing before the write was to
    print the risk level of that report. *)
Definition batch_write {R : Runtime} (session : ClientSession)
  (usernames : list string) (pre : list event) (path : string)
  (report : pyval) : Prop :=
  exists username w w' operation_id level pre',
    In username usernames
    /\ investigate (init session) username w = (Returned report, w')
    /\ field "operation_id" report = Some (VStr operation_id)
    /\ path = "results/" ++ username ++ "_" ++ operation_id ++ ".json"
    /\ report_risk_level report = Some (VStr level)
    /\ In level ["low"; "medium"; "high"]
    /\ pre = (pre' ++ [Printed ("✅ " ++ username ++ ": " ++ level ++ " risk")])%list.

(** The events of one round of the loop of [main]. *)
Definition main_round (username : string) (evs : list event) : Prop :=
  exists operation_id report tail,
    evs = (Printed ("✅ Completed: " ++ username)
           :: Dumped ("operation_" ++ operation_id ++ ".json") report
           :: tail)%list
    /\ field "username" report = Some (VStr username)
    /\ field "operation_id" report = Some (VStr operation_id)
    /\ (tail = [] \/ exists e, tail = [Printed ("❌ Error investigating "
                                               ++ username ++ ": " ++ exn_str e)]).

(* ================================================================== *)
(** * Properties *)

(** ** Dictionaries *)

Section DictFacts.
Context {A : Type}.
Implicit Types (d : dict A) (k : string) (v : A).

Lemma dict_set_fresh d k v :
  ~ In k (dict_keys d) -> dict_set d k v = (d ++ [(k, v)])%list.
Proof.
  induction d as [|[k' v'] d IH]; simpl; intros Hk; [reflexivity|].
  destruct (String.eqb_spec k k') as [->|Hne].
  - exfalso; apply Hk; now left.
  - rewrite IH; [reflexivity|]. intros Hin; apply Hk; now right.
Qed.

Lemma dict_keys_app d d' :
  dict_keys (d ++ d')%list = (dict_keys d ++ dict_keys d')%list.
Proof. apply map_app. Qed.

Lemma dict_get_in d k v :
  dict_wf d -> In (k, v) d -> dict_get k d = Some v.
Proof.
  unfold dict_wf, dict_keys.
  induction d as [|[k' v'] d IH]; simpl; intros Hnd Hin; [contradiction|].
  inversion Hnd as [|? ? Hnotin Hnd']; subst.
  destruct Hin as [Heq|Hin].
  - inversion Heq; subst. now rewrite String.eqb_refl.
  - destruct (String.eqb_spec k k') as [->|Hne].
    + exfalso. apply Hnotin. change k' with (fst (k', v)). now apply in_map.
    + now apply IH.
Qed.

Lemma dict_len_keys d : Z.of_nat (List.length (dict_keys d)) = dict_len d.
Proof. unfold dict_keys, dict_len. now rewrite length_map. Qed.
End DictFacts.

(** ** Strings *)

Lemma startswith_spec x s :
  startswith x s = true <-> exists post, s = x ++ post.
Proof.
  revert s; induction x as [|a x IH]; intros s; simpl.
  - split; [intros _; now exists s | reflexivity].
  - destruct s as [|b s].
    + split; [discriminate | intros [post H]; discriminate].
    + rewrite andb_true_iff, IH. split.
      * intros [Hab [post ->]]. apply Ascii.eqb_eq in Hab; subst. now exists post.
      * intros [post H]. inversion H; subst. split; [apply Ascii.eqb_refl | now exists post].
Qed.

Lemma str_in_spec x s : str_in x s = true <-> substring x s.
Proof.
  unfold substring. induction s as [|b s IH].
  - simpl. rewrite orb_false_r, startswith_spec. split.
    + intros [post H]. now exists EmptyString, post.
    + intros [pre [post H]]. destruct pre; simpl in H; [now exists post | discriminate].
  - cbn [str_in]. rewrite orb_true_iff, startswith_spec, IH. split.
    + intros [[post H] | [pre [post H]]].
      * now exists EmptyString, post.
      * exists (String b pre), post. simpl. now rewrite H.
    + intros [pre [post H]]. destruct pre as [|c pre]; simpl in H.
      * left. now exists post.
      * right. inversion H; subst. now exists pre, post.
Qed.

Lemma py_any_true l : py_any l = true <-> In true l.
Proof.
  unfold py_any. rewrite existsb_exists. split.
  - intros [b [Hin Hb]]. now subst.
  - intros Hin. now exists true.
Qed.

Lemma py_sum_count {A} (f : A -> bool) (l : list A) :
  py_sum (map f l) = Z.of_nat (List.length (filter f l)).
Proof.
  unfold py_sum.
  assert (H : forall acc,
    fold_left (fun a (b : bool) => a + (if b then 1 else 0)) (map f l) acc
    = acc + Z.of_nat (List.length (filter f l))).
  { induction l as [|x l IH]; intros acc; simpl; [lia|].
    rewrite IH. destruct (f x); simpl List.length; lia. }
  now rewrite H.
Qed.

Lemma generic_test_spec username :
  py_any (map (fun x => str_in x username) generic_substrings) = true
  <-> has_generic_substring username.
Proof.
  rewrite py_any_true, in_map_iff. unfold has_generic_substring. split.
  - intros [x [Hx Hin]]. exists x. split; [exact Hin | now apply str_in_spec].
  - intros [x [Hin Hsub]]. exists x. split; [now apply str_in_spec | exact Hin].
Qed.

(** ** Pattern analysis *)

Lemma brain_analyze_returns {R : Runtime} username w :
  exists confidence timestamp w',
    brain_analyze username w =
      (Returned (VDict [ ("pattern_type", VStr (brain_pattern_type username));
                         ("features", brain_features username);
                         ("confidence", VFloat confidence);
                         ("timestamp", VStr timestamp) ]), w').
Proof.
  unfold brain_analyze, bind, sleep, uniform, now_isoformat, with_rng, with_clock, ret.
  simpl.
  destruct (random_uniform f_0_7 f_0_95 (w_rng w)) as [c g].
  simpl. destruct (datetime_now_isoformat _) as [t c'].
  now eexists _, _, _.
Qed.

Lemma pattern_type_cases username :
  (has_generic_substring username ->
     brain_pattern_type username = "generic")
  /\ (~ has_generic_substring username -> str_len username < 5 ->
     brain_pattern_type username = "short")
  /\ (~ has_generic_substring username -> 5 <= str_len username ->
     2 < digit_count username -> brain_pattern_type username = "numeric")
  /\ (~ has_generic_substring username -> 5 <= str_len username ->
     digit_count username <= 2 -> brain_pattern_type username = "personal").
Proof.
  pose proof (generic_test_spec username) as Hgen.
  unfold brain_pattern_type, digit_count.
  rewrite py_sum_count.
  destruct (py_any _) eqn:Hany.
  - repeat split; try reflexivity.
    all: intros Hno; exfalso; apply Hno, Hgen; reflexivity.
  - assert (Hno : ~ has_generic_substring username)
      by (intros H; apply Hgen in H; discriminate).
    destruct (Z.ltb_spec (str_len username) 5);
      [|destruct (Z.gtb_spec (Z.of_nat (List.length (filter isdigit (chars username)))) 2)];
      repeat split; try reflexivity;
      intros; first [contradiction | lia].
Qed.

(** C4. The pattern type is decided by the username alone, in this order:
    a generic substring gives [generic]; otherwise a length below 5 gives
    [short]; otherwise more than two digits give [numeric]; otherwise
    [personal].  The four sample usernames classify as stated, and whatever
    the randomness and the clock, the report of [brain_analyze] carries the
    pattern type and the features computed from the username. *)
Theorem pattern_classification (username : string) :
  (has_generic_substring username ->
     brain_pattern_type username = "generic")
  /\ (~ has_generic_substring username -> str_len username < 5 ->
     brain_pattern_type username = "short")
  /\ (~ has_generic_substring username -> 5 <= str_len username ->
     2 < digit_count username -> brain_pattern_type username = "numeric")
  /\ (~ has_generic_substring username -> 5 <= str_len username ->
     digit_count username <= 2 -> brain_pattern_type username = "personal")
  /\ brain_pattern_type "admin123" = "generic"
  /\ brain_pattern_type "ab" = "short"
  /\ brain_pattern_type "a1b2c3d4" = "numeric"
  /\ brain_pattern_type "john_doe" = "personal"
  /\ (forall (R : Runtime) (w1 w2 : world),
        exists r1 r2 w1' w2',
          brain_analyze username w1 = (Returned r1, w1')
          /\ brain_analyze username w2 = (Returned r2, w2')
          /\ field "pattern_type" r1 = Some (VStr (brain_pattern_type username))
          /\ field "pattern_type" r2 = field "pattern_type" r1
          /\ field "features" r1 = Some (brain_features username)
          /\ field "features" r2 = field "features" r1).
Proof.
  destruct (pattern_type_cases username) as (H1 & H2 & H3 & H4).
  repeat (split; [first [assumption | reflexivity]|]).
  intros R w1 w2.
  destruct (brain_analyze_returns username w1) as (c1 & t1 & w1' & E1).
  destruct (brain_analyze_returns username w2) as (c2 & t2 & w2' & E2).
  rewrite E1, E2. now eexists _, _, _, _.
Qed.

Lemma pattern_classification_witness :
  brain_pattern_type "a1b2c3d4" = "numeric".
Proof.
  apply (proj1 (proj2 (proj2 (pattern_classification "a1b2c3d4")))).
  - intros H. apply generic_test_spec in H. discriminate H.
  - vm_compute. discriminate.
  - vm_compute. reflexivity.
Defined.

(** ** URL templates *)

Lemma format_go_text_char c rest st args :
  c <> "{"%char -> c <> "}"%char ->
  format_go (String c rest) None st args =
    match format_go rest None st args with
    | Returned r => Returned (String c r)
    | Raised e => Raised e
    end.
Proof.
  intros Ho Hc.
  destruct c as [[] [] [] [] [] [] [] []];
    solve [ reflexivity | exfalso; apply Ho; reflexivity
          | exfalso; apply Hc; reflexivity ].
Qed.

Lemma no_brace_cons c s :
  no_brace (String c s) = true ->
  c <> "{"%char /\ c <> "}"%char /\ no_brace s = true.
Proof.
  unfold no_brace, chars. simpl. rewrite !andb_true_iff, !negb_true_iff.
  intros [[Ho Hc] Hs]. repeat split; [| |exact Hs].
  - intros ->. discriminate Ho.
  - intros ->. discriminate Hc.
Qed.

Lemma format_go_text pre rest st args :
  no_brace pre = true ->
  format_go (pre ++ rest) None st args =
    match format_go rest None st args with
    | Returned r => Returned (pre ++ r)
    | Raised e => Raised e
    end.
Proof.
  induction pre as [|c pre IH]; intros Hnb.
  - simpl. now destruct (format_go rest None st args).
  - apply no_brace_cons in Hnb as (Ho & Hc & Hnb).
    change (String c pre ++ rest) with (String c (pre ++ rest)).
    rewrite format_go_text_char, IH by assumption.
    now destruct (format_go rest None st args).
Qed.

Lemma format_go_plain post st args :
  no_brace post = true -> format_go post None st args = Returned post.
Proof.
  induction post as [|c post IH]; intros Hnb; [reflexivity|].
  apply no_brace_cons in Hnb as (Ho & Hc & Hnb).
  now rewrite format_go_text_char, IH.
Qed.

(** A one-slot template formats to its text around the username. *)
Lemma str_format_one_slot pre post username :
  no_brace pre = true -> no_brace post = true ->
  str_format (pre ++ "{}" ++ post) [username] = Returned (pre ++ username ++ post).
Proof.
  intros Hpre Hpost. unfold str_format.
  rewrite format_go_text by assumption.
  change ("{}" ++ post) with (String "{" (String "}" post)).
  cbn [format_go format_field positional nth_error].
  now rewrite format_go_plain.
Qed.

Lemma one_slot_formats template username :
  one_slot template ->
  str_format template [username] = Returned (url_for template username).
Proof.
  intros (pre & post & -> & Hpre & Hpost).
  unfold url_for. now rewrite str_format_one_slot.
Qed.

(** ** The platform prober *)

(** C2. For every session, platform and URL, [check_platform] returns an
    outcome and never raises: a response with status code 200 gives status
    [found], any other status code gives [not_found], a transport failure
    gives [error] with the text of the failure; the outcome names the
    platform in all three cases. *)
Theorem check_platform_total (session : ClientSession) (platform url : string) :
  exists o,
    check_platform session platform url = Returned o
    /\ field "platform" o = Some (VStr platform)
    /\ match session_get session url 10 false with
       | Returned response =>
           field "status" o =
             Some (VStr (if (resp_status response =? 200)%Z
                         then "found" else "not_found"))
           /\ field "status_code" o = Some (VInt (resp_status response))
           /\ field "url" o = Some (VStr (resp_url response))
       | Raised e =>
           field "status" o = Some (VStr "error")
           /\ field "error" o = Some (VStr (exn_str e))
       end.
Proof.
  unfold check_platform.
  destruct (session_get session url 10 false) as [response|e];
    eexists; repeat split; reflexivity.
Qed.

Lemma check_platform_shape session platform url :
  exists o status,
    check_platform session platform url = Returned o
    /\ isinstance_Exception o = false
    /\ field "platform" o = Some (VStr platform)
    /\ field "status" o = Some (VStr status)
    /\ In status probe_statuses.
Proof.
  unfold check_platform, probe_statuses.
  destruct (session_get session url 10 false) as [response|e].
  - destruct (resp_status response =? 200)%Z;
      eexists _, _; repeat split; simpl; auto.
  - eexists _, _; repeat split; simpl; auto.
Qed.

(** ** The scan coordinator *)

Section ScanFacts.
Context {R : Runtime}.
Variable platforms : dict string.
Variable check : string -> string -> task.

Lemma scan_tasks_returns items username tasks :
  Forall (fun kv => one_slot (snd kv)) items ->
  scan_tasks check items username tasks =
    Returned (tasks ++ map (fun kv => check (fst kv) (url_for (snd kv) username)) items)%list.
Proof.
  intros Hok. revert tasks.
  induction Hok as [|[platform url] items Hslot _ IH]; intros tasks; simpl.
  - now rewrite app_nil_r.
  - rewrite (one_slot_formats url username Hslot), IH, <- app_assoc.
    reflexivity.
Qed.

Lemma scan_collect_fold keys results acc :
  NoDup (dict_keys acc ++ keys)%list ->
  fold_left
    (fun results (pr : string * pyval) =>
       let (platform, result) := pr in
       if isinstance_Exception result
       then dict_set results platform
              (VDict [ ("status", VStr "error");
                       ("error", VStr (str_of_result result)) ])
       else dict_set results platform result)
    (combine keys results) acc
  = (acc ++ combine keys (map recorded results))%list.
Proof.
  revert results acc.
  induction keys as [|k keys IH]; intros results acc Hnd.
  - simpl. now rewrite app_nil_r.
  - destruct results as [|v results]; [simpl; now rewrite app_nil_r|].
    cbn [combine map fold_left].
    assert (Hfresh : ~ In k (dict_keys acc))
      by (apply NoDup_remove_2 in Hnd; intros Hin; apply Hnd, in_or_app; now left).
    assert (Hstep :
      (if isinstance_Exception v
       then dict_set acc k
              (VDict [ ("status", VStr "error");
                       ("error", VStr (str_of_result v)) ])
       else dict_set acc k v) = (acc ++ [(k, recorded v)])%list).
    { unfold recorded. destruct (isinstance_Exception v);
        now rewrite dict_set_fresh. }
    rewrite Hstep, IH.
    + now rewrite <- app_assoc.
    + rewrite dict_keys_app, <- app_assoc. exact Hnd.
Qed.

Lemma scan_collect_spec keys results :
  NoDup keys -> scan_collect keys results = combine keys (map recorded results).
Proof.
  intros Hnd. unfold scan_collect. now rewrite scan_collect_fold.
Qed.

Lemma combine_gathered (items : dict string) username :
  combine (dict_keys items)
    (map recorded (gather_return_exceptions
       (map (fun kv => check (fst kv) (url_for (snd kv) username)) items)))
  = expected_results items check username.
Proof.
  unfold expected_results, gather_return_exceptions, dict_keys.
  induction items as [|[k u] items IH]; simpl; [reflexivity|].
  now rewrite IH.
Qed.

(** The scan returns, and its report is the expected mapping. *)
Lemma muscle_scan_returns username brain_data w :
  platforms_ok platforms ->
  exists scan_duration w',
    muscle_scan platforms check username brain_data w =
      (Returned (VDict
         [ ("username", VStr username);
           ("platform_results", VDict (expected_results platforms check username));
           ("scan_duration", VFloat scan_duration);
           ("total_checked", VInt (dict_len platforms)) ]), w').
Proof.
  intros [Hwf Hslots].
  unfold muscle_scan, bind, lift, dict_items.
  rewrite scan_tasks_returns by assumption. simpl app.
  rewrite scan_collect_spec, combine_gathered by exact Hwf.
  unfold uniform, with_rng, ret.
  destruct (random_uniform f_1_0 f_3_0 (w_rng w)) as [d g].
  now eexists _, _.
Qed.

Lemma expected_results_keys username :
  dict_keys (expected_results platforms check username) = dict_keys platforms.
Proof.
  unfold expected_results, dict_keys. rewrite map_map. simpl. reflexivity.
Qed.
End ScanFacts.

Lemma init_platforms_ok session : platforms_ok (self_platforms (init session)).
Proof.
  split.
  - unfold dict_wf. simpl.
    repeat (constructor; [simpl; intuition discriminate|]). constructor.
  - simpl. repeat constructor; simpl.
    + now exists "https://github.com/", "".
    + now exists "https://twitter.com/", "".
    + now exists "https://instagram.com/", "".
    + now exists "https://reddit.com/user/", "".
    + now exists "https://linkedin.com/in/", "".
Qed.

Lemma dict_get_some_in {A} (d : dict A) k v :
  dict_get k d = Some v -> In (k, v) d.
Proof.
  induction d as [|[k' v'] d IH]; simpl; [discriminate|].
  destruct (String.eqb_spec k k') as [->|Hne].
  - intros [= ->]. now left.
  - intros H. right. now apply IH.
Qed.

(** C1. For every username and every platform configuration, whatever the
    probe tasks end with, the scan returns a report whose outcome mapping
    has exactly the configured platforms as its keys, each once, and whose
    [total_checked] is the number of configured platforms. *)
Theorem scan_completeness {R : Runtime} (platforms : dict string)
  (check : string -> string -> task) (username : string) (brain_data : pyval)
  (w : world) :
  platforms_ok platforms ->
  exists report results w',
    muscle_scan platforms check username brain_data w = (Returned report, w')
    /\ field "platform_results" report = Some (VDict results)
    /\ dict_keys results = dict_keys platforms
    /\ NoDup (dict_keys results)
    /\ (forall platform, In platform (dict_keys platforms) ->
          exists o, dict_get platform results = Some o)
    /\ dict_len results = dict_len platforms
    /\ field "total_checked" report = Some (VInt (dict_len platforms)).
Proof.
  intros Hok.
  destruct (muscle_scan_returns platforms check username brain_data w Hok)
    as (d & w' & Hrun).
  pose proof (expected_results_keys platforms check username) as Hkeys.
  destruct Hok as [Hwf _].
  eexists; exists (expected_results platforms check username), w'.
  split; [exact Hrun|]. split; [reflexivity|]. split; [exact Hkeys|].
  split; [rewrite Hkeys; exact Hwf|]. split; [|split; [|reflexivity]].
  - intros platform Hin. rewrite <- Hkeys in Hin.
    apply in_map_iff in Hin as [[k o] [Hk Hin]]. simpl in Hk; subst k.
    exists o. apply dict_get_in; [|exact Hin].
    unfold dict_wf. rewrite Hkeys. exact Hwf.
  - rewrite <- !dict_len_keys. now rewrite Hkeys.
Qed.

Lemma scan_completeness_witness :
  exists report results w',
    @muscle_scan fixed_runtime (self_platforms (init offline_session))
      (probe (init offline_session)) "john_doe" VNone w0 = (Returned report, w')
    /\ field "platform_results" report = Some (VDict results)
    /\ dict_keys results = dict_keys (self_platforms (init offline_session))
    /\ NoDup (dict_keys results)
    /\ (forall platform,
          In platform (dict_keys (self_platforms (init offline_session))) ->
          exists o, dict_get platform results = Some o)
    /\ dict_len results = dict_len (self_platforms (init offline_session))
    /\ field "total_checked" report =
         Some (VInt (dict_len (self_platforms (init offline_session)))).
Proof.
  apply (@scan_completeness fixed_runtime).
  split.
  - unfold dict_wf. simpl.
    repeat (constructor; [simpl; intuition discriminate|]). constructor.
  - simpl. repeat constructor; simpl.
    + now exists "https://github.com/", "".
    + now exists "https://twitter.com/", "".
    + now exists "https://instagram.com/", "".
    + now exists "https://reddit.com/user/", "".
    + now exists "https://linkedin.com/in/", "".
Defined.




(** With the class's own prober every entry of the mapping names its
    platform and carries one of the three statuses. *)
Lemma scan_entries_shape {R : Runtime} (platforms : dict string)
  (session : ClientSession) (username : string) (brain_data : pyval) (w : world) :
  platforms_ok platforms ->
  exists report results w',
    muscle_scan platforms (check_platform session) username brain_data w
      = (Returned report, w')
    /\ field "platform_results" report = Some (VDict results)
    /\ (forall platform o,
          dict_get platform results = Some o ->
          field "platform" o = Some (VStr platform)
          /\ exists status,
               field "status" o = Some (VStr status) /\ In status probe_statuses).
Proof.
  intros Hok.
  destruct (muscle_scan_returns platforms (check_platform session) username
              brain_data w Hok) as (d & w' & Hrun).
  eexists; exists (expected_results platforms (check_platform session) username), w'.
  split; [exact Hrun|]. split; [reflexivity|].
  intros platform o Hget. apply dict_get_some_in in Hget.
  unfold expected_results in Hget.
  apply in_map_iff in Hget as [[k template] [Heq Hin]].
  simpl in Heq. inversion Heq; subst; clear Heq.
  destruct (check_platform_shape session platform (url_for template username))
    as (o & status & -> & Hexc & Hplat & Hstat & Hin').
  unfold recorded, gathered. rewrite Hexc.
  split; [exact Hplat|]. now exists status.
Qed.

(** An outcome that the coordinator synthesises has no [platform] field. *)
Lemma recorded_exception_fields e :
  field "status" (recorded (VExc e)) = Some (VStr "error")
  /\ field "error" (recorded (VExc e)) = Some (VStr (exn_str e))
  /\ field "platform" (recorded (VExc e)) = None.
Proof. repeat split. Qed.

(** C7, at the failing input.  The probe task of [github] ends with
    [RuntimeError('boom')]: the entry recorded for [github] has status
    [error] and no [platform] field, whereas the entry of every other
    platform, built by [check_platform], names its platform. *)
Theorem synthesized_outcome_lacks_platform :
  exists report results o o' w',
    @muscle_scan fixed_runtime (self_platforms (init (answering_session 200)))
      (crashing_probe (answering_session 200)) "john_doe" VNone w0
      = (Returned report, w')
    /\ field "platform_results" report = Some (VDict results)
    /\ dict_get "github" results = Some o
    /\ field "status" o = Some (VStr "error")
    /\ field "platform" o = None
    /\ dict_get "twitter" results = Some o'
    /\ field "platform" o' = Some (VStr "twitter").
Proof.
  do 5 eexists.
  split; [vm_compute; reflexivity|].
  repeat split.
Qed.

(** ** Float comparison *)

Lemma SFcompare_antisym (x y : float) :
  SFcompare y x = option_map CompOpp (SFcompare x y).
Proof.
  destruct x as [sx|sx| |sx mx ex], y as [sy|sy| |sy my ey]; simpl;
    try (destruct sx); try (destruct sy); try reflexivity.
  - rewrite (Z.compare_antisym ex ey).
    destruct (ex ?= ey)%Z; simpl; try reflexivity.
    change (Pos.compare_cont Eq my mx) with (Pos.compare my mx).
    change (Pos.compare_cont Eq mx my) with (Pos.compare mx my).
    now rewrite (Pos.compare_antisym mx my).
  - rewrite (Z.compare_antisym ex ey).
    destruct (ex ?= ey)%Z; simpl; try reflexivity.
    change (Pos.compare_cont Eq my mx) with (Pos.compare my mx).
    change (Pos.compare_cont Eq mx my) with (Pos.compare mx my).
    now rewrite (Pos.compare_antisym mx my).
Qed.

Lemma SFcompare_none (x y : float) :
  SFcompare x y = None <-> x = S754_nan \/ y = S754_nan.
Proof.
  destruct x as [sx|sx| |sx mx ex], y as [sy|sy| |sy my ey]; simpl;
    split; intros H; try discriminate; try (destruct H; discriminate); auto.
Qed.

(** Away from NaN, [c <= x] is the negation of [x < c]. *)
Lemma float_le_not_lt (x c : float) :
  x <> S754_nan -> c <> S754_nan ->
  float_le c x = negb (float_lt x c).
Proof.
  intros Hx Hc. unfold float_le, float_lt, SFleb, SFltb.
  rewrite (SFcompare_antisym x c).
  destruct (SFcompare x c) as [[]|] eqn:E; try reflexivity.
  apply SFcompare_none in E. tauto.
Qed.

Lemma in_unit_interval_not_nan score :
  in_unit_interval score -> score <> S754_nan.
Proof. intros [H _] ->. discriminate H. Qed.

(** Below 0.3 is below 0.7. *)
Lemma float_lt_0_3_0_7 (x : float) :
  float_lt x f_0_3 = true -> float_lt x f_0_7 = true.
Proof.
  unfold float_lt, SFltb, f_0_3, f_0_7.
  destruct x as [s|s| |s m e]; unfold SFcompare; try (destruct s);
    try discriminate; auto.
  destruct (Z.compare_spec e (-54)); destruct (Z.compare_spec e (-53));
    try lia; try reflexivity; try discriminate.
Qed.

(** The constants are the binary64 values that the decimal literals of
    the source denote. *)
Lemma float_literals :
  f_0_2 = decimal_literal 2 10 /\ f_0_3 = decimal_literal 3 10
  /\ f_0_5 = decimal_literal 5 10 /\ f_0_7 = decimal_literal 7 10
  /\ f_0_8 = decimal_literal 8 10 /\ f_0_95 = decimal_literal 95 100
  /\ f_1_0 = decimal_literal 1 1 /\ f_3_0 = decimal_literal 3 1
  /\ f_100_0 = decimal_literal 100 1 /\ f_0_0 = decimal_literal 0 1.
Proof. vm_compute. repeat split. Qed.

(** The sample scores of the three buckets. *)
Lemma risk_level_samples :
  risk_level (decimal_literal 1 10) = "low"
  /\ risk_level (decimal_literal 5 10) = "medium"
  /\ risk_level (decimal_literal 9 10) = "high".
Proof. vm_compute. repeat split. Qed.

(** ** The correlator *)

Lemma correlate_intelligence_returns {R : Runtime} username data_sources w :
  exists risk_score confidence w',
    correlate_intelligence username data_sources w =
      (Returned (VDict
         [ ("risk_assessment",
             VDict [ ("score", VFloat risk_score);
                     ("level", VStr (risk_level risk_score));
                     ("factors", VList [ VStr "multiple_platforms";
                                         VStr "pattern_analysis";
                                         VStr "breach_data" ]) ]);
           ("confidence", VFloat confidence);
           ("recommendations",
             VList [ VStr "Monitor social media activity";
                     VStr "Check for additional aliases";
                     VStr "Verify breach exposure details" ]) ]), w').
Proof.
  unfold correlate_intelligence, bind, sleep, uniform, with_rng, ret. simpl.
  destruct (random_uniform f_0_0 f_1_0 (w_rng w)) as [s g]. simpl.
  destruct (random_uniform f_0_8 f_0_95 g) as [c g'].
  now eexists _, _, _.
Qed.

Lemma risk_level_cases (score : float) :
  score <> S754_nan ->
  (risk_level score = "low" <-> float_lt score f_0_3 = true)
  /\ (risk_level score = "medium" <->
        float_le f_0_3 score = true /\ float_lt score f_0_7 = true)
  /\ (risk_level score = "high" <-> float_le f_0_7 score = true).
Proof.
  intros Hnan.
  assert (H3 : float_le f_0_3 score = negb (float_lt score f_0_3))
    by (apply float_le_not_lt; [exact Hnan | discriminate]).
  assert (H7 : float_le f_0_7 score = negb (float_lt score f_0_7))
    by (apply float_le_not_lt; [exact Hnan | discriminate]).
  pose proof (float_lt_0_3_0_7 score) as Hmono.
  rewrite H3, H7. unfold risk_level.
  destruct (float_lt score f_0_3) eqn:E3.
  - rewrite (Hmono eq_refl). cbn [negb].
    repeat split; try reflexivity; try discriminate.
    intros [H _]; discriminate H.
  - destruct (float_lt score f_0_7) eqn:E7; cbn [negb].
    + repeat split; try reflexivity; discriminate.
    + repeat split; try reflexivity; try discriminate.
      intros [_ H]; discriminate H.
Qed.

(** C5. For every score of the unit interval the level is [low] exactly
    when the score is below 0.3, [medium] exactly when it is at least 0.3
    and below 0.7, and [high] exactly when it is at least 0.7; 0.3 itself
    is [medium] and 0.7 itself is [high]; and the report of
    [correlate_intelligence] carries the level of the score it carries. *)
Theorem risk_level_bucketing (score : float) :
  in_unit_interval score ->
  (risk_level score = "low" <-> float_lt score f_0_3 = true)
  /\ (risk_level score = "medium" <->
        float_le f_0_3 score = true /\ float_lt score f_0_7 = true)
  /\ (risk_level score = "high" <-> float_le f_0_7 score = true)
  /\ risk_level f_0_3 = "medium"
  /\ risk_level f_0_7 = "high"
  /\ (forall (R : Runtime) username data_sources (w : world),
        exists report assessment risk_score w',
          correlate_intelligence username data_sources w = (Returned report, w')
          /\ field "risk_assessment" report = Some assessment
          /\ field "score" assessment = Some (VFloat risk_score)
          /\ field "level" assessment = Some (VStr (risk_level risk_score))).
Proof.
  intros Hunit.
  destruct (risk_level_cases score (in_unit_interval_not_nan score Hunit))
    as (Hlow & Hmed & Hhigh).
  split; [exact Hlow|]. split; [exact Hmed|]. split; [exact Hhigh|].
  split; [vm_compute; reflexivity|]. split; [vm_compute; reflexivity|].
  intros R username data_sources w.
  destruct (correlate_intelligence_returns username data_sources w)
    as (s & c & w' & ->).
  now eexists _, _, _, _.
Qed.

Lemma risk_level_bucketing_witness :
  risk_level f_0_5 = "medium" <->
    float_le f_0_3 f_0_5 = true /\ float_lt f_0_5 f_0_7 = true.
Proof.
  apply (fun H => proj1 (proj2 (risk_level_bucketing f_0_5 H))).
  split; vm_compute; reflexivity.
Defined.

(** ** Running the monad *)

Section Run.
Context {R : Runtime}.

Lemma bind_returned {A B} (c : M A) (k : A -> M B) w a w' :
  c w = (Returned a, w') -> bind c k w = k a w'.
Proof. unfold bind. now intros ->. Qed.

Lemma bind_raised {A B} (c : M A) (k : A -> M B) w e w' :
  c w = (Raised e, w') -> bind c k w = (Raised e, w').
Proof. unfold bind. now intros ->. Qed.

Lemma uniform_run a b w : exists x w', uniform a b w = (Returned x, w').
Proof.
  unfold uniform, with_rng. destruct (random_uniform a b (w_rng w)).
  now eexists _, _.
Qed.

Lemma random_run w : exists x w', random w = (Returned x, w').
Proof.
  unfold random, with_rng. destruct (random_random (w_rng w)).
  now eexists _, _.
Qed.

Lemma now_isoformat_run w : exists t w', now_isoformat w = (Returned t, w').
Proof.
  unfold now_isoformat, with_clock. destruct (datetime_now_isoformat (w_clock w)).
  now eexists _, _.
Qed.

Lemma sleep_run d w : exists w', sleep d w = (Returned tt, w').
Proof. unfold sleep. now eexists. Qed.

Context {L : RuntimeLaws R}.

Lemma time_run w :
  exists t w', time w = (Returned t, w') /\ is_finite t = true.
Proof.
  unfold time, with_clock.
  pose proof (time_time_finite (w_clock w)) as Hfin.
  destruct (time_time (w_clock w)) as [t c]. now eexists _, _.
Qed.

Lemma randint_run a b w :
  a <= b -> exists n w', randint a b w = (Returned n, w') /\ a <= n <= b.
Proof.
  intros Hab. unfold randint, with_rng_exc.
  destruct (randint_returns a b (w_rng w) Hab) as (n & Hn & Hrange).
  destruct (random_randint a b (w_rng w)) as [o g]. simpl in Hn; subst o.
  now eexists _, _.
Qed.

Lemma choice_run l w :
  l <> [] -> exists v w', choice l w = (Returned v, w') /\ In v l.
Proof.
  intros Hl. unfold choice, with_rng_exc.
  destruct (choice_returns l (w_rng w) Hl) as (v & Hv & Hin).
  destruct (random_choice l (w_rng w)) as [o g]. simpl in Hv; subst o.
  now eexists _, _.
Qed.

Lemma sample_run l k w :
  0 <= k <= Z.of_nat (List.length l) ->
  exists r w', sample l k w = (Returned r, w').
Proof.
  intros Hk. unfold sample, with_rng_exc.
  destruct (sample_returns l k (w_rng w) Hk) as (r & Hr).
  destruct (random_sample l k (w_rng w)) as [o g]. simpl in Hr; subst o.
  now eexists _, _.
Qed.

Lemma float_to_int_finite t :
  is_finite t = true -> exists n, float_to_int t = Returned n.
Proof. destruct t; simpl; intros H; try discriminate; now eexists. Qed.

(** ** Intelligence gathering *)

Lemma simulate_breach_check_returns username w :
  exists found details checked w',
    simulate_breach_check username w =
      (Returned (VDict [ ("breaches_found", VInt found);
                         ("breach_details", VList details);
                         ("last_checked", VStr checked) ]), w')
    /\ 0 <= found <= 2.
Proof.
  unfold simulate_breach_check.
  destruct (randint_run 0 2 w ltac:(lia)) as (n & w1 & E1 & Hn).
  rewrite (bind_returned _ _ _ _ _ E1).
  destruct (random_run w1) as (r & w2 & E2).
  rewrite (bind_returned _ _ _ _ _ E2).
  assert (Hdetails : exists details w3,
    (if float_lt f_0_7 r
     then (k <- randint 0 2 ;; sample breaches k)
     else ret []) w2 = (Returned details, w3)).
  { destruct (float_lt f_0_7 r).
    - destruct (randint_run 0 2 w2 ltac:(lia)) as (k & w3 & E3 & Hk).
      rewrite (bind_returned _ _ _ _ _ E3).
      apply sample_run. simpl. lia.
    - now eexists _, _. }
  destruct Hdetails as (details & w3 & E3).
  rewrite (bind_returned _ _ _ _ _ E3).
  destruct (now_isoformat_run w3) as (t & w4 & E4).
  rewrite (bind_returned _ _ _ _ _ E4).
  now eexists _, _, _, _.
Qed.

Lemma simulate_social_analysis_returns username w :
  exists v w', simulate_social_analysis username w = (Returned v, w').
Proof.
  unfold simulate_social_analysis.
  destruct (choice_run [VStr "low"; VStr "medium"; VStr "high"] w
              ltac:(discriminate)) as (a & w1 & E1 & _).
  rewrite (bind_returned _ _ _ _ _ E1).
  destruct (randint_run 1 60 w1 ltac:(lia)) as (n & w2 & E2 & _).
  rewrite (bind_returned _ _ _ _ _ E2).
  destruct (uniform_run f_0_0 f_100_0 w2) as (x & w3 & E3).
  rewrite (bind_returned _ _ _ _ _ E3).
  now eexists _, _.
Qed.

Lemma api_gather_intel_returns username scan_data w :
  exists breach_data social_analysis reputation_score w',
    api_gather_intel username scan_data w =
      (Returned (VDict [ ("username", VStr username);
                         ("breach_data", breach_data);
                         ("social_analysis", social_analysis);
                         ("reputation_score", VFloat reputation_score) ]), w').
Proof.
  unfold api_gather_intel.
  destruct (sleep_run f_0_3 w) as (w1 & E1).
  rewrite (bind_returned _ _ _ _ _ E1).
  destruct (simulate_breach_check_returns username w1)
    as (n & d & c & w2 & E2 & _).
  rewrite (bind_returned _ _ _ _ _ E2).
  destruct (simulate_social_analysis_returns username w2) as (s & w3 & E3).
  rewrite (bind_returned _ _ _ _ _ E3).
  destruct (uniform_run f_0_0 f_1_0 w3) as (x & w4 & E4).
  rewrite (bind_returned _ _ _ _ _ E4).
  now eexists _, _, _, _.
Qed.

Lemma api_gather_intel_shape username scan_data w :
  exists found details checked social_analysis reputation_score w',
    api_gather_intel username scan_data w =
      (Returned (VDict [ ("username", VStr username);
                         ("breach_data",
                           VDict [ ("breaches_found", VInt found);
                                   ("breach_details", VList details);
                                   ("last_checked", VStr checked) ]);
                         ("social_analysis", social_analysis);
                         ("reputation_score", VFloat reputation_score) ]), w').
Proof.
  unfold api_gather_intel.
  destruct (sleep_run f_0_3 w) as (w1 & E1).
  rewrite (bind_returned _ _ _ _ _ E1).
  destruct (simulate_breach_check_returns username w1)
    as (n & d & c & w2 & E2 & _).
  rewrite (bind_returned _ _ _ _ _ E2).
  destruct (simulate_social_analysis_returns username w2) as (s & w3 & E3).
  rewrite (bind_returned _ _ _ _ _ E3).
  destruct (uniform_run f_0_0 f_1_0 w3) as (x & w4 & E4).
  rewrite (bind_returned _ _ _ _ _ E4).
  now eexists _, _, _, _, _, _.
Qed.

(** ** The orchestrator *)

Section OrchestrateFacts.
Variable brain : string -> M pyval.
Variable muscle : string -> pyval -> M pyval.
Variable api : string -> pyval -> M pyval.
Variable correlate : string -> list pyval -> M pyval.

(** After the four stages the report is assembled without failure. *)
Lemma orchestrate_assembles username w b w1 s w2 a w3 f w4 :
  brain username (snd (time w)) = (Returned b, w1) ->
  muscle username b w1 = (Returned s, w2) ->
  api username s w2 = (Returned a, w3) ->
  correlate username [b; s; a] w3 = (Returned f, w4) ->
  exists operation_id total_duration timestamp w',
    orchestrate_investigation brain muscle api correlate username w =
      (Returned (VDict
         [ ("operation_id", VStr operation_id);
           ("username", VStr username);
           ("brain_analysis", b);
           ("scan_results", s);
           ("api_intelligence", a);
           ("final_analysis", f);
           ("total_duration", VFloat total_duration);
           ("timestamp", VStr timestamp) ]), w').
Proof.
  intros Eb Es Ea Ef. unfold orchestrate_investigation.
  destruct (time_run w) as (t0 & w0 & E0 & _).
  rewrite E0 in Eb. simpl in Eb.
  rewrite (bind_returned _ _ _ _ _ E0), (bind_returned _ _ _ _ _ Eb),
    (bind_returned _ _ _ _ _ Es), (bind_returned _ _ _ _ _ Ea),
    (bind_returned _ _ _ _ _ Ef).
  destruct (time_run w4) as (t1 & w5 & E5 & _).
  rewrite (bind_returned _ _ _ _ _ E5).
  destruct (time_run w5) as (t2 & w6 & E6 & Hfin).
  rewrite (bind_returned _ _ _ _ _ E6).
  destruct (float_to_int_finite t2 Hfin) as (n & En).
  rewrite (bind_returned _ _ w6 n w6) by (unfold lift; now rewrite En).
  destruct (randint_run 1000 9999 w6 ltac:(lia)) as (r & w7 & E7 & _).
  rewrite (bind_returned _ _ _ _ _ E7).
  destruct (now_isoformat_run w7) as (ts & w8 & E8).
  rewrite (bind_returned _ _ _ _ _ E8).
  now eexists _, _, _, _.
Qed.

(** A stage that raises ends the call with what it raised. *)
Lemma orchestrate_propagates username w st e :
  first_failure brain muscle api correlate username (snd (time w)) = Some (st, e) ->
  exists w', orchestrate_investigation brain muscle api correlate username w
             = (Raised e, w').
Proof.
  unfold first_failure, orchestrate_investigation.
  destruct (time_run w) as (t0 & w0 & E0 & _).
  rewrite E0, (bind_returned _ _ _ _ _ E0). simpl snd.
  destruct (brain username w0) as [[b|eb] w1] eqn:Eb.
  2:{ intros [= <- <-]. rewrite (bind_raised _ _ _ _ _ Eb). now eexists. }
  rewrite (bind_returned _ _ _ _ _ Eb).
  destruct (muscle username b w1) as [[s|es] w2] eqn:Es.
  2:{ intros [= <- <-]. rewrite (bind_raised _ _ _ _ _ Es). now eexists. }
  rewrite (bind_returned _ _ _ _ _ Es).
  destruct (api username s w2) as [[a|ea] w3] eqn:Ea.
  2:{ intros [= <- <-]. rewrite (bind_raised _ _ _ _ _ Ea). now eexists. }
  rewrite (bind_returned _ _ _ _ _ Ea).
  destruct (correlate username [b; s; a] w3) as [[f|ef] w4] eqn:Ef.
  2:{ intros [= <- <-]. rewrite (bind_raised _ _ _ _ _ Ef). now eexists. }
  discriminate.
Qed.

Lemma first_failure_none username w :
  first_failure brain muscle api correlate username w = None ->
  exists b w1 s w2 a w3 f w4,
    brain username w = (Returned b, w1)
    /\ muscle username b w1 = (Returned s, w2)
    /\ api username s w2 = (Returned a, w3)
    /\ correlate username [b; s; a] w3 = (Returned f, w4).
Proof.
  unfold first_failure.
  destruct (brain username w) as [[b|eb] w1] eqn:Eb; [|discriminate].
  destruct (muscle username b w1) as [[s|es] w2] eqn:Es; [|discriminate].
  destruct (api username s w2) as [[a|ea] w3] eqn:Ea; [|discriminate].
  destruct (correlate username [b; s; a] w3) as [[f|ef] w4] eqn:Ef;
    [|discriminate].
  intros _. exists b, w1, s, w2, a, w3, f, w4. auto.
Qed.
End OrchestrateFacts.
End Run.

Lemma complete_report_assembled operation_id username b s a f total_duration timestamp :
  complete_report (VDict
    [ ("operation_id", VStr operation_id);
      ("username", VStr username);
      ("brain_analysis", b);
      ("scan_results", s);
      ("api_intelligence", a);
      ("final_analysis", f);
      ("total_duration", VFloat total_duration);
      ("timestamp", VStr timestamp) ]).
Proof.
  intros k Hin. simpl in Hin.
  repeat (destruct Hin as [<-|Hin]; [eexists; reflexivity|]). contradiction.
Qed.

(** The deterministic runtime obeys the laws. *)
Lemma fixed_runtime_laws : RuntimeLaws fixed_runtime.
Proof.
  split; simpl.
  - intros a b g Hab. exists a.
    destruct (Z.leb_spec a b); [split; [reflexivity | lia] | lia].
  - intros [|v l] g Hl; [congruence|]. exists v. split; [reflexivity | now left].
  - intros l k g [Hk0 Hk]. exists (firstn (Z.to_nat k) l).
    destruct (Z.leb_spec 0 k); [|lia].
    destruct (Z.leb_spec k (Z.of_nat (List.length l))); [reflexivity | lia].
  - reflexivity.
Qed.

(** ** The whole pipeline *)

(** With the class's own stages the investigation returns a complete
    report, whatever the network answers. *)
Lemma investigate_returns {R : Runtime} {L : RuntimeLaws R}
  (session : ClientSession) (username : string) (w : world) :
  exists report brain scan_report w',
    investigate (init session) username w = (Returned report, w')
    /\ complete_report report
    /\ field "username" report = Some (VStr username)
    /\ field "brain_analysis" report = Some brain
    /\ field "pattern_type" brain = Some (VStr (brain_pattern_type username))
    /\ field "features" brain = Some (brain_features username)
    /\ field "scan_results" report = Some scan_report
    /\ field "total_checked" scan_report = Some (VInt 5).
Proof.
  destruct (brain_analyze_returns username (snd (time w)))
    as (c & t & w1 & Eb).
  destruct (muscle_scan_returns (self_platforms (init session))
              (probe (init session)) username
              (VDict [ ("pattern_type", VStr (brain_pattern_type username));
                       ("features", brain_features username);
                       ("confidence", VFloat c);
                       ("timestamp", VStr t) ]) w1 (init_platforms_ok session))
    as (d & w2 & Es).
  match type of Es with _ = (Returned ?s, _) =>
    destruct (api_gather_intel_returns username s w2)
      as (bd & sa & rs & w3 & Ea)
  end.
  match type of Eb with _ = (Returned ?b, _) =>
    match type of Es with _ = (Returned ?s, _) =>
      match type of Ea with _ = (Returned ?a, _) =>
        destruct (correlate_intelligence_returns username [b; s; a] w3)
          as (score & conf & w4 & Ef)
      end
    end
  end.
  destruct (orchestrate_assembles brain_analyze (scan (init session))
              api_gather_intel correlate_intelligence username w
              _ _ _ _ _ _ _ _ Eb Es Ea Ef)
    as (opid & dur & ts & w' & Hrun).
  unfold investigate. rewrite Hrun.
  eexists _, _, _, _. split; [reflexivity|].
  split; [apply complete_report_assembled|].
  repeat split.
Qed.

(** C6, as the code has it.  Whatever the four stage methods do, the
    orchestrator either returns a report with all eight fields, or ends
    with the very exception that its first failing stage raised, and then
    returns no report; with the class's own stages it always returns a
    complete report. *)
Theorem orchestrate_complete_or_propagates {R : Runtime}
  (brain : string -> M pyval) (muscle : string -> pyval -> M pyval)
  (api : string -> pyval -> M pyval) (correlate : string -> list pyval -> M pyval)
  (username : string) (w : world) :
  RuntimeLaws R ->
  match first_failure brain muscle api correlate username (snd (time w)) with
  | None =>
      exists report w',
        orchestrate_investigation brain muscle api correlate username w
          = (Returned report, w')
        /\ complete_report report
  | Some (_, e) =>
      exists w',
        orchestrate_investigation brain muscle api correlate username w
          = (Raised e, w')
  end
  /\ (forall session,
        exists report w',
          investigate (init session) username w = (Returned report, w')
          /\ complete_report report).
Proof.
  intros L. split.
  - destruct (first_failure brain muscle api correlate username (snd (time w)))
      as [[st e]|] eqn:Hff.
    + now apply (orchestrate_propagates brain muscle api correlate username w st e).
    + apply first_failure_none in Hff
        as (b & w1 & s & w2 & a & w3 & f & w4 & Eb & Es & Ea & Ef).
      destruct (orchestrate_assembles brain muscle api correlate username w
                  _ _ _ _ _ _ _ _ Eb Es Ea Ef)
        as (opid & dur & ts & w' & Hrun).
      rewrite Hrun. eexists _, _. split; [reflexivity|].
      apply complete_report_assembled.
  - intros session.
    destruct (investigate_returns session username w)
      as (report & b & s & w' & Hrun & Hcomplete & _).
    now exists report, w'.
Qed.

Lemma orchestrate_complete_or_propagates_witness :
  exists w',
    @orchestrate_investigation fixed_runtime brain_analyze
      (scan (init offline_session)) failing_api correlate_intelligence
      "john_doe" w0 = (Raised boom, w').
Proof.
  exact (proj1 (@orchestrate_complete_or_propagates fixed_runtime brain_analyze
           (scan (init offline_session)) failing_api correlate_intelligence
           "john_doe" w0 fixed_runtime_laws)).
Defined.

(** C6, as stated, fails: the error that ends a failed investigation does
    not tell which stage failed.  The same exception comes out whether the
    pattern analysis or the intelligence gathering raised it, so no reading
    of the error recovers the stage. *)
Lemma orchestrate_error_not_stage_identified :
  ~ exists stage_of : pyexn -> stage,
      forall (brain : string -> @M fixed_runtime pyval)
             (muscle : string -> pyval -> @M fixed_runtime pyval)
             (api : string -> pyval -> @M fixed_runtime pyval)
             (correlate : string -> list pyval -> @M fixed_runtime pyval)
             (username : string) (w : @world fixed_runtime)
             (st : stage) (e x : pyexn) (w' : @world fixed_runtime),
        first_failure brain muscle api correlate username (snd (time w))
          = Some (st, e) ->
        orchestrate_investigation brain muscle api correlate username w
          = (Raised x, w') ->
        stage_of x = st.
Proof.
  intros [stage_of H].
  pose proof (H failing_brain (scan (init offline_session)) api_gather_intel
                correlate_intelligence "john_doe" w0 PatternAnalysis boom boom
                _ eq_refl eq_refl) as H1.
  pose proof (H brain_analyze (scan (init offline_session)) failing_api
                correlate_intelligence "john_doe" w0 IntelligenceGathering
                boom boom _ eq_refl eq_refl) as H2.
  rewrite H1 in H2. discriminate H2.
Qed.

(** C8. For a fixed username and a fixed state of the randomness and the
    clock, [api_gather_intel] produces a report, and it is the same report,
    with the same final state, whatever scan report it is handed. *)
Theorem api_gather_intel_ignores_scan {R : Runtime} (username : string)
  (scan_data1 scan_data2 : pyval) (w : world) :
  RuntimeLaws R ->
  api_gather_intel username scan_data1 w = api_gather_intel username scan_data2 w
  /\ exists report w',
       api_gather_intel username scan_data1 w = (Returned report, w')
       /\ api_gather_intel username scan_data2 w = (Returned report, w')
       /\ field "username" report = Some (VStr username).
Proof.
  intros L. split; [reflexivity|].
  destruct (api_gather_intel_returns username scan_data1 w)
    as (bd & sa & rs & w' & Hrun).
  eexists _, w'. split; [exact Hrun|]. split; [exact Hrun | reflexivity].
Qed.

Lemma api_gather_intel_ignores_scan_witness :
  @api_gather_intel fixed_runtime "john_doe" VNone w0
  = @api_gather_intel fixed_runtime "john_doe"
      (VDict [("total_checked", VInt 5)]) w0.
Proof.
  apply (@api_gather_intel_ignores_scan fixed_runtime "john_doe" VNone
           (VDict [("total_checked", VInt 5)]) w0).
  split; simpl.
  - intros a b g Hab. exists a.
    destruct (Z.leb_spec a b); [split; [reflexivity | lia] | lia].
  - intros [|v l] g Hl; [congruence|]. exists v. split; [reflexivity | now left].
  - intros l k g [Hk0 Hk]. exists (firstn (Z.to_nat k) l).
    destruct (Z.leb_spec 0 k); [|lia].
    destruct (Z.leb_spec k (Z.of_nat (List.length l))); [reflexivity | lia].
  - reflexivity.
Defined.



(* ================================================================== *)
(** * Further properties of the pipeline *)

(** ** Pattern analysis, read backwards *)

Lemma pattern_type_range username :
  In (brain_pattern_type username) ["generic"; "short"; "numeric"; "personal"].
Proof.
  unfold brain_pattern_type.
  destruct (py_any _); [simpl; auto|].
  destruct (str_len username <? 5)%Z; [simpl; auto|].
  destruct (py_sum _ >? 2)%Z; simpl; auto.
Qed.

(** Each pattern type tells what the username looks like: the four cases
    of the classification are exclusive, so every one of them can be read
    from the result back to the username. *)
Theorem pattern_type_inversion (username : string) :
  (brain_pattern_type username = "generic" <-> has_generic_substring username)
  /\ (brain_pattern_type username = "short" <->
        ~ has_generic_substring username /\ str_len username < 5)
  /\ (brain_pattern_type username = "numeric" <->
        ~ has_generic_substring username /\ 5 <= str_len username
        /\ 2 < digit_count username)
  /\ (brain_pattern_type username = "personal" <->
        ~ has_generic_substring username /\ 5 <= str_len username
        /\ digit_count username <= 2).
Proof.
  pose proof (generic_test_spec username) as Hgen.
  unfold brain_pattern_type, digit_count. rewrite py_sum_count.
  destruct (py_any _) eqn:Hany.
  - assert (Hyes : has_generic_substring username) by now apply Hgen.
    repeat split; try discriminate; try tauto.
  - assert (Hno : ~ has_generic_substring username)
      by (intros H; apply Hgen in H; discriminate).
    destruct (Z.ltb_spec (str_len username) 5);
      [|destruct (Z.gtb_spec (Z.of_nat (List.length (filter isdigit (chars username)))) 2)];
      repeat split; try discriminate; try tauto; try lia;
      try (intros H'; exfalso; destruct H' as (_ & H1 & H2); lia);
      try (intros H'; exfalso; destruct H' as (_ & H1); lia).
Qed.

Lemma char_in_spec (c : ascii) (s : string) :
  str_in (String c EmptyString) s = true <-> In c (chars s).
Proof.
  induction s as [|b s IH].
  - simpl. split; [discriminate | contradiction].
  - cbn [str_in startswith chars list_ascii_of_string In].
    rewrite orb_true_iff, IH.
    destruct s; cbn [startswith]; rewrite andb_true_r, Ascii.eqb_eq;
      unfold chars; intuition congruence.
Qed.

(** The features say what they are named after, and agree with the
    pattern type: a [numeric] username has digits, a [short] one has a
    length below 5. *)
Theorem features_characterised (username : string) :
  field "length" (brain_features username)
    = Some (VInt (Z.of_nat (String.length username)))
  /\ (field "has_digits" (brain_features username) = Some (VBool true) <->
        exists c, In c (chars username) /\ isdigit c = true)
  /\ (field "has_underscore" (brain_features username) = Some (VBool true) <->
        In "_"%char (chars username))
  /\ (field "has_dot" (brain_features username) = Some (VBool true) <->
        In "."%char (chars username))
  /\ (brain_pattern_type username = "numeric" ->
        field "has_digits" (brain_features username) = Some (VBool true)).
Proof.
  assert (Hdig : py_any (map isdigit (chars username)) = true <->
                 exists c, In c (chars username) /\ isdigit c = true).
  { rewrite py_any_true, in_map_iff. split; intros [c [H1 H2]]; now exists c. }
  split; [reflexivity|].
  split; [|split; [|split]].
  - simpl. rewrite <- Hdig. split; [now intros [= ->] | now intros ->].
  - simpl. rewrite <- (char_in_spec "_" username).
    split; [now intros [= ->] | now intros ->].
  - simpl. rewrite <- (char_in_spec "." username).
    split; [now intros [= ->] | now intros ->].
  - unfold brain_pattern_type. rewrite py_sum_count.
    destruct (py_any (map (fun x => str_in x username) generic_substrings));
      [discriminate|].
    destruct (str_len username <? 5)%Z; [discriminate|].
    destruct (Z.gtb_spec (Z.of_nat (List.length (filter isdigit (chars username)))) 2)
      as [Hcount|]; [|discriminate].
    intros _. simpl. f_equal. f_equal. apply Hdig.
    destruct (filter isdigit (chars username)) as [|c l] eqn:Hf;
      [simpl in Hcount; lia|].
    exists c. apply filter_In. rewrite Hf. now left.
Qed.

Lemma pattern_type_inversion_witness :
  brain_pattern_type "john_doe" = "personal".
Proof.
  apply (proj2 (proj2 (proj2 (pattern_type_inversion "john_doe")))).
  split; [|split].
  - intros H. apply generic_test_spec in H. discriminate H.
  - vm_compute. discriminate.
  - vm_compute. discriminate.
Defined.

Lemma features_characterised_witness :
  field "has_digits" (brain_features "a1b2c3d4") = Some (VBool true).
Proof.
  apply (proj2 (proj2 (proj2 (proj2 (features_characterised "a1b2c3d4"))))).
  vm_compute. reflexivity.
Defined.

(** ** The scan coordinator, entry by entry *)

Lemma url_for_one_slot pre post username :
  no_brace pre = true -> no_brace post = true ->
  url_for (pre ++ "{}" ++ post) username = pre ++ username ++ post.
Proof.
  intros Hpre Hpost. unfold url_for. now rewrite str_format_one_slot.
Qed.

Lemma expected_results_get (platforms : dict string)
  (check : string -> string -> task) username platform template :
  dict_wf platforms -> In (platform, template) platforms ->
  dict_get platform (expected_results platforms check username)
    = Some (recorded (gathered (check platform (url_for template username)))).
Proof.
  intros Hwf Hin. apply dict_get_in.
  - unfold dict_wf. now rewrite expected_results_keys.
  - unfold expected_results. apply in_map_iff. now exists (platform, template).
Qed.

(** The entry of a platform is what its own probe gave at the URL made of
    the template's text around the username, whatever the username holds,
    braces included. *)
Theorem scan_probes_slot_url {R : Runtime} (platforms : dict string)
  (check : string -> string -> task) (username : string) (brain_data : pyval)
  (w : world) (platform pre post : string) :
  platforms_ok platforms ->
  In (platform, pre ++ "{}" ++ post) platforms ->
  no_brace pre = true -> no_brace post = true ->
  exists report results w',
    muscle_scan platforms check username brain_data w = (Returned report, w')
    /\ field "platform_results" report = Some (VDict results)
    /\ dict_get platform results
       = Some (recorded (gathered (check platform (pre ++ username ++ post)))).
Proof.
  intros Hok Hin Hpre Hpost.
  destruct (muscle_scan_returns platforms check username brain_data w Hok)
    as (d & w' & Hrun).
  eexists; exists (expected_results platforms check username), w'.
  split; [exact Hrun|]. split; [reflexivity|].
  rewrite <- (url_for_one_slot pre post username Hpre Hpost).
  apply expected_results_get; [apply Hok | exact Hin].
Qed.

Lemma scan_probes_slot_url_witness :
  exists report results w',
    @muscle_scan fixed_runtime (self_platforms (init (answering_session 404)))
      (probe (init (answering_session 404))) "{x}" VNone w0 = (Returned report, w')
    /\ field "platform_results" report = Some (VDict results)
    /\ dict_get "reddit" results
       = Some (recorded (gathered (probe (init (answering_session 404)) "reddit"
                 ("https://reddit.com/user/" ++ "{x}" ++ "")))).
Proof.
  apply (@scan_probes_slot_url fixed_runtime).
  - apply init_platforms_ok.
  - simpl. auto 10.
  - reflexivity.
  - reflexivity.
Defined.

(** Failure isolation: the entry of a platform depends on the probe of
    that platform alone.  Two probers that end alike for one platform give
    it the same entry, however they differ on the others. *)
Theorem scan_entry_isolated {R : Runtime} (platforms : dict string)
  (check1 check2 : string -> string -> task) (username : string)
  (brain_data : pyval) (w : world) (platform template : string) :
  platforms_ok platforms ->
  In (platform, template) platforms ->
  check1 platform (url_for template username)
    = check2 platform (url_for template username) ->
  exists report1 report2 results1 results2 o w1 w2,
    muscle_scan platforms check1 username brain_data w = (Returned report1, w1)
    /\ muscle_scan platforms check2 username brain_data w = (Returned report2, w2)
    /\ field "platform_results" report1 = Some (VDict results1)
    /\ field "platform_results" report2 = Some (VDict results2)
    /\ dict_get platform results1 = Some o
    /\ dict_get platform results2 = Some o.
Proof.
  intros Hok Hin Hsame.
  destruct (muscle_scan_returns platforms check1 username brain_data w Hok)
    as (d1 & w1 & Hrun1).
  destruct (muscle_scan_returns platforms check2 username brain_data w Hok)
    as (d2 & w2 & Hrun2).
  eexists _, _, (expected_results platforms check1 username),
    (expected_results platforms check2 username), _, w1, w2.
  split; [exact Hrun1|]. split; [exact Hrun2|].
  split; [reflexivity|]. split; [reflexivity|].
  split.
  - apply expected_results_get; [apply Hok | exact Hin].
  - rewrite Hsame. apply expected_results_get; [apply Hok | exact Hin].
Qed.

Lemma scan_entry_isolated_witness :
  exists report1 report2 results1 results2 o w1 w2,
    @muscle_scan fixed_runtime (self_platforms (init offline_session))
      (crashing_probe offline_session) "john_doe" VNone w0 = (Returned report1, w1)
    /\ @muscle_scan fixed_runtime (self_platforms (init offline_session))
      (check_platform offline_session) "john_doe" VNone w0 = (Returned report2, w2)
    /\ field "platform_results" report1 = Some (VDict results1)
    /\ field "platform_results" report2 = Some (VDict results2)
    /\ dict_get "twitter" results1 = Some o
    /\ dict_get "twitter" results2 = Some o.
Proof.
  apply (@scan_entry_isolated fixed_runtime (self_platforms (init offline_session))
           (crashing_probe offline_session) (check_platform offline_session)
           "john_doe" VNone w0 "twitter" "https://twitter.com/{}").
  - apply init_platforms_ok.
  - simpl. auto.
  - reflexivity.
Defined.

(** With the class's own prober the status of an entry tells what the
    network did for the platform's URL: [found] exactly for a response
    with status code 200, [error] exactly for a transport failure, and
    [not_found] exactly for a response with another status code. *)
Theorem scan_status_reflects_response {R : Runtime} (platforms : dict string)
  (session : ClientSession) (username : string) (brain_data : pyval)
  (w : world) (platform template : string) :
  platforms_ok platforms ->
  In (platform, template) platforms ->
  exists report results o w',
    muscle_scan platforms (check_platform session) username brain_data w
      = (Returned report, w')
    /\ field "platform_results" report = Some (VDict results)
    /\ dict_get platform results = Some o
    /\ (field "status" o = Some (VStr "found") <->
          exists r, session_get session (url_for template username) 10 false
                      = Returned r /\ resp_status r = 200)
    /\ (field "status" o = Some (VStr "not_found") <->
          exists r, session_get session (url_for template username) 10 false
                      = Returned r /\ resp_status r <> 200)
    /\ (field "status" o = Some (VStr "error") <->
          exists e, session_get session (url_for template username) 10 false
                      = Raised e).
Proof.
  intros Hok Hin.
  destruct (muscle_scan_returns platforms (check_platform session) username
              brain_data w Hok) as (d & w' & Hrun).
  eexists; exists (expected_results platforms (check_platform session) username).
  eexists; exists w'.
  split; [exact Hrun|]. split; [reflexivity|].
  split; [apply expected_results_get; [apply Hok | exact Hin]|].
  unfold check_platform.
  destruct (session_get session (url_for template username) 10 false)
    as [r|e] eqn:Hget.
  - unfold gathered, recorded. cbn [isinstance_Exception field dict_get String.eqb].
    simpl. destruct (Z.eqb_spec (resp_status r) 200) as [H200|H200].
    + repeat split; try discriminate; try (intros [x [Hx _]]; discriminate Hx).
      * intros _. now exists r.
      * intros [r' [[= <-] Hne]]. contradiction.
      * intros [x Hx]. discriminate Hx.
    + repeat split; try discriminate; try (intros [x Hx]; discriminate Hx).
      * intros [r' [[= <-] Heq]]. contradiction.
      * intros _. now exists r.
  - unfold gathered, recorded. simpl.
    repeat split; try discriminate; try (intros [x [Hx _]]; discriminate Hx).
    intros _. now exists e.
Qed.

Lemma scan_status_reflects_response_witness :
  exists report results o w',
    @muscle_scan fixed_runtime (self_platforms (init (answering_session 200)))
      (check_platform (answering_session 200)) "john_doe" VNone w0
      = (Returned report, w')
    /\ field "platform_results" report = Some (VDict results)
    /\ dict_get "github" results = Some o
    /\ (field "status" o = Some (VStr "found") <->
          exists r, session_get (answering_session 200)
                      (url_for "https://github.com/{}" "john_doe") 10 false
                      = Returned r /\ resp_status r = 200)
    /\ (field "status" o = Some (VStr "not_found") <->
          exists r, session_get (answering_session 200)
                      (url_for "https://github.com/{}" "john_doe") 10 false
                      = Returned r /\ resp_status r <> 200)
    /\ (field "status" o = Some (VStr "error") <->
          exists e, session_get (answering_session 200)
                      (url_for "https://github.com/{}" "john_doe") 10 false
                      = Raised e).
Proof.
  apply (@scan_status_reflects_response fixed_runtime).
  - apply init_platforms_ok.
  - simpl. auto.
Defined.

Lemma scan_entries_shape_witness :
  exists report results w',
    @muscle_scan fixed_runtime (self_platforms (init offline_session))
      (check_platform offline_session) "john_doe" VNone w0 = (Returned report, w')
    /\ field "platform_results" report = Some (VDict results)
    /\ (forall platform o,
          dict_get platform results = Some o ->
          field "platform" o = Some (VStr platform)
          /\ exists status,
               field "status" o = Some (VStr status) /\ In status probe_statuses).
Proof.
  apply (@scan_entries_shape fixed_runtime). apply init_platforms_ok.
Defined.

(** ** Templates that do not format *)

Lemma scan_tasks_good_prefix (check : string -> string -> task)
  (good rest : list (string * string)) username tasks :
  Forall (formats username) good ->
  scan_tasks check (good ++ rest)%list username tasks =
    scan_tasks check rest username
      (tasks ++ map (fun kv => check (fst kv) (url_for (snd kv) username)) good)%list.
Proof.
  intros Hgood. revert tasks.
  induction Hgood as [|[platform url] good [u Hu] _ IH]; intros tasks; simpl.
  - now rewrite app_nil_r.
  - simpl snd in Hu. rewrite Hu, IH, <- app_assoc.
    cbn [app fst snd]. unfold url_for at 2. now rewrite Hu.
Qed.

Lemma scan_tasks_returned_formats (check : string -> string -> task)
  items username tasks tasks' :
  scan_tasks check items username tasks = Returned tasks' ->
  Forall (formats username) items.
Proof.
  revert tasks. induction items as [|[platform url] items IH]; intros tasks; simpl.
  - constructor.
  - destruct (str_format url [username]) as [u|e] eqn:Hu; [|discriminate].
    intros Hrun. constructor; [now exists u | eapply IH; eassumption].
Qed.

(** A template that [str.format] rejects is not absorbed like a probe
    failure.  For templates whose replacement fields are plain (empty, an
    index or a name, where [str_format] is [str.format]), the scan returns
    a report exactly when every template formats, and otherwise raises the
    error of the first template that does not, before any probe result is
    collected and without drawing a duration. *)
Theorem muscle_scan_template_errors {R : Runtime} (platforms : dict string)
  (check : string -> string -> task) (username : string) (brain_data : pyval)
  (w : world) :
  Forall (fun kv => plain_fields (snd kv) = true) platforms ->
  ((exists report w',
      muscle_scan platforms check username brain_data w = (Returned report, w'))
   <-> Forall (formats username) platforms)
  /\ (forall good platform template bad e,
        platforms = (good ++ (platform, template) :: bad)%list ->
        Forall (formats username) good ->
        str_format template [username] = Raised e ->
        muscle_scan platforms check username brain_data w = (Raised e, w)).
Proof.
  intros _. split; [split|].
  - intros (report & w' & Hrun). unfold muscle_scan, bind, lift, dict_items in Hrun.
    destruct (scan_tasks check platforms username []) as [ts|e] eqn:Hts;
      [|discriminate].
    eapply scan_tasks_returned_formats; eassumption.
  - intros Hall. unfold muscle_scan, bind, lift, dict_items.
    pose proof (scan_tasks_good_prefix check platforms [] username [] Hall)
      as Hts.
    rewrite app_nil_r in Hts. rewrite Hts. simpl scan_tasks.
    unfold uniform, with_rng, ret.
    destruct (random_uniform f_1_0 f_3_0 (w_rng w)) as [d g].
    now eexists _, _.
  - intros good platform template bad e -> Hgood Hbad.
    unfold muscle_scan, bind, lift, dict_items.
    rewrite scan_tasks_good_prefix by assumption. simpl scan_tasks.
    now rewrite Hbad.
Qed.

Lemma muscle_scan_template_errors_witness :
  @muscle_scan fixed_runtime platforms_with_keyword
    (check_platform (answering_session 200)) "john_doe" VNone w0
  = (Raised (mk_exn "KeyError" "'instance'"), w0).
Proof.
  apply (fun Hplain =>
           proj2 (@muscle_scan_template_errors fixed_runtime platforms_with_keyword
                    (check_platform (answering_session 200)) "john_doe" VNone w0
                    Hplain)
           [("github", "https://github.com/{}")] "mastodon"
           "https://{instance}/@{}" [("reddit", "https://reddit.com/user/{}")]).
  - repeat constructor.
  - reflexivity.
  - repeat constructor. now exists "https://github.com/john_doe".
  - reflexivity.
Defined.

(** ** The simulated providers *)

Lemma fixed_runtime_sample_law : SampleLaw fixed_runtime.
Proof.
  split. intros l k g r. simpl.
  destruct (Z.leb_spec 0 k); simpl; [|discriminate].
  destruct (Z.leb_spec k (Z.of_nat (List.length l))); [|discriminate].
  intros [= <-]. split.
  - rewrite length_firstn. lia.
  - intros x Hx. rewrite <- (firstn_skipn (Z.to_nat k) l).
    apply in_or_app. now left.
Qed.

(** The breach summary.  [breaches_found] is the first draw of the call,
    [random.randint(0, 2)] on the generator as the call finds it.  The
    details come from the draws that follow it: [random.random()], and,
    only when that exceeds 0.7, a second [random.randint(0, 2)] giving the
    size of the [random.sample] of the two known breaches; otherwise the
    details are empty and nothing more is drawn.  So the count lies between
    0 and 2, the details are at most two records, each one of the two known
    breaches, and the count is not the number of details. *)
Theorem breach_check_bounds {R : Runtime} (username : string) (w : world) :
  RuntimeLaws R -> SampleLaw R ->
  exists found g1 r g2 details g3 checked w',
    simulate_breach_check username w =
      (Returned (VDict [ ("breaches_found", VInt found);
                         ("breach_details", VList details);
                         ("last_checked", VStr checked) ]), w')
    /\ random_randint 0 2 (w_rng w) = (Returned found, g1)
    /\ random_random g1 = (r, g2)
    /\ (if float_lt f_0_7 r
        then exists k gk,
               random_randint 0 2 g2 = (Returned k, gk)
               /\ random_sample breaches k gk = (Returned details, g3)
               /\ List.length details = Z.to_nat k
        else details = [] /\ g3 = g2)
    /\ w_rng w' = g3
    /\ 0 <= found <= 2
    /\ (List.length details <= 2)%nat
    /\ incl details breaches.
Proof.
  intros L S.
  unfold simulate_breach_check, bind, randint, random, sample, now_isoformat,
    ret, with_rng, with_rng_exc, with_clock.
  destruct (randint_returns 0 2 (w_rng w) ltac:(lia)) as (found & Hf & Hfr).
  destruct (random_randint 0 2 (w_rng w)) as [o g1] eqn:E1.
  cbn [fst] in Hf; subst o. cbn [w_rng w_clock].
  destruct (random_random g1) as [r g2] eqn:E2. cbn [w_rng w_clock].
  destruct (float_lt f_0_7 r) eqn:Hlt.
  - cbv beta. cbn [w_rng w_clock].
    destruct (randint_returns 0 2 g2 ltac:(lia)) as (k & Hk & Hkr).
    destruct (random_randint 0 2 g2) as [o gk] eqn:E3.
    cbn [fst] in Hk; subst o. cbn [w_rng w_clock].
    destruct (sample_returns breaches k gk ltac:(cbn [List.length breaches]; lia))
      as (d & Hd).
    pose proof (sample_is_selection breaches k gk d) as Hsel.
    destruct (random_sample breaches k gk) as [o g3] eqn:E4.
    cbn [fst] in Hd, Hsel; subst o. destruct (Hsel eq_refl) as [Hlen Hincl].
    cbn [w_rng w_clock].
    destruct (datetime_now_isoformat (w_clock w)) as [t c].
    exists found, g1, r, g2, d, g3, t, (mk_world g3 c). rewrite Hlt.
    split; [reflexivity|]. split; [reflexivity|]. split; [exact E2|].
    split; [now exists k, gk|]. split; [reflexivity|].
    split; [exact Hfr|]. split; [lia | exact Hincl].
  - cbv beta. cbn [w_rng w_clock].
    destruct (datetime_now_isoformat (w_clock w)) as [t c].
    exists found, g1, r, g2, [], g2, t, (mk_world g2 c). rewrite Hlt.
    split; [reflexivity|]. split; [reflexivity|]. split; [exact E2|].
    split; [now split|]. split; [reflexivity|].
    split; [exact Hfr|]. split; [cbn [List.length]; lia | intros x []].
Qed.

Lemma breach_check_bounds_witness :
  exists found g1 r g2 details g3 checked w',
    @simulate_breach_check fixed_runtime "john_doe" w0 =
      (Returned (VDict [ ("breaches_found", VInt found);
                         ("breach_details", VList details);
                         ("last_checked", VStr checked) ]), w')
    /\ @random_randint fixed_runtime 0 2 (w_rng w0) = (Returned found, g1)
    /\ @random_random fixed_runtime g1 = (r, g2)
    /\ (if float_lt f_0_7 r
        then exists k gk,
               @random_randint fixed_runtime 0 2 g2 = (Returned k, gk)
               /\ @random_sample fixed_runtime breaches k gk
                  = (Returned details, g3)
               /\ List.length details = Z.to_nat k
        else details = [] /\ g3 = g2)
    /\ w_rng w' = g3
    /\ 0 <= found <= 2
    /\ (List.length details <= 2)%nat
    /\ incl details breaches.
Proof.
  apply (@breach_check_bounds fixed_runtime "john_doe" w0).
  - apply fixed_runtime_laws.
  - apply fixed_runtime_sample_law.
Defined.

(** The social summary: the activity level is one of [low], [medium] and
    [high], and the account age lies between 1 and 60 months. *)
Theorem social_analysis_bounds {R : Runtime} (username : string) (w : world) :
  RuntimeLaws R ->
  exists level age influence w',
    simulate_social_analysis username w =
      (Returned (VDict [ ("activity_level", VStr level);
                         ("account_age", VInt age);
                         ("influence_score", VFloat influence) ]), w')
    /\ In level ["low"; "medium"; "high"]
    /\ 1 <= age <= 60.
Proof.
  intros L. unfold simulate_social_analysis.
  destruct (choice_run [VStr "low"; VStr "medium"; VStr "high"] w
              ltac:(discriminate)) as (a & w1 & E1 & Hin).
  rewrite (bind_returned _ _ _ _ _ E1).
  destruct (randint_run 1 60 w1 ltac:(lia)) as (n & w2 & E2 & Hn).
  rewrite (bind_returned _ _ _ _ _ E2).
  destruct (uniform_run f_0_0 f_100_0 w2) as (x & w3 & E3).
  rewrite (bind_returned _ _ _ _ _ E3).
  simpl in Hin.
  destruct Hin as [<-|[<-|[<-|[]]]]; eexists _, n, x, w3;
    (split; [reflexivity|]); (split; [simpl; auto | exact Hn]).
Qed.

Lemma social_analysis_bounds_witness :
  exists level age influence w',
    @simulate_social_analysis fixed_runtime "john_doe" w0 =
      (Returned (VDict [ ("activity_level", VStr level);
                         ("account_age", VInt age);
                         ("influence_score", VFloat influence) ]), w')
    /\ In level ["low"; "medium"; "high"]
    /\ 1 <= age <= 60.
Proof.
  apply (@social_analysis_bounds fixed_runtime "john_doe" w0).
  apply fixed_runtime_laws.
Defined.

(** ** The correlator reads none of its inputs *)

(** The risk assessment depends on the draws of the generator alone: for
    the same state, any two usernames and any two lists of upstream results
    give the same assessment, with the same three factors and the same
    three recommendations. *)
Theorem correlate_ignores_inputs {R : Runtime} (username1 username2 : string)
  (data_sources1 data_sources2 : list pyval) (w : world) :
  exists report assessment w',
    correlate_intelligence username1 data_sources1 w = (Returned report, w')
    /\ correlate_intelligence username2 data_sources2 w = (Returned report, w')
    /\ field "risk_assessment" report = Some assessment
    /\ field "factors" assessment
       = Some (VList [ VStr "multiple_platforms"; VStr "pattern_analysis";
                       VStr "breach_data" ])
    /\ field "recommendations" report
       = Some (VList [ VStr "Monitor social media activity";
                       VStr "Check for additional aliases";
                       VStr "Verify breach exposure details" ]).
Proof.
  destruct (correlate_intelligence_returns username1 data_sources1 w)
    as (s & c & w' & Hrun).
  eexists _, _, w'. split; [exact Hrun|]. split; [exact Hrun|].
  repeat split.
Qed.

(** ** The report and the network *)

Lemma muscle_scan_two_checks {R : Runtime} (platforms : dict string)
  (check1 check2 : string -> string -> task) username brain_data w :
  platforms_ok platforms ->
  exists d w',
    muscle_scan platforms check1 username brain_data w =
      (Returned (scan_report username (expected_results platforms check1 username)
                   d (dict_len platforms)), w')
    /\ muscle_scan platforms check2 username brain_data w =
      (Returned (scan_report username (expected_results platforms check2 username)
                   d (dict_len platforms)), w').
Proof.
  intros [Hwf Hslots].
  unfold muscle_scan, bind, lift, dict_items.
  rewrite !scan_tasks_returns by assumption. simpl app.
  rewrite !scan_collect_spec, !combine_gathered by exact Hwf.
  unfold uniform, with_rng, ret.
  destruct (random_uniform f_1_0 f_3_0 (w_rng w)) as [d g].
  now eexists _, _.
Qed.

Lemma four_digit_suffix (suffix : Z) :
  1000 <= suffix <= 9999 -> String.length (str_of_int suffix) = 4%nat.
Proof.
  intros Hrange.
  assert (Hall : forallb (fun n => Nat.eqb
            (String.length (str_of_int (1000 + Z.of_nat n))) 4)
            (seq 0 (Z.to_nat 9000)) = true)
    by (vm_compute; reflexivity).
  rewrite forallb_forall in Hall.
  specialize (Hall (Z.to_nat (suffix - 1000))).
  rewrite Z2Nat.id in Hall by lia.
  replace (1000 + (suffix - 1000)) with suffix in Hall by lia.
  apply Nat.eqb_eq, Hall, in_seq. lia.
Qed.

Section TwoScans.
Context {R : Runtime} {L : RuntimeLaws R}.
Variable brain : string -> M pyval.
Variable muscle1 muscle2 : string -> pyval -> M pyval.
Variable api : string -> pyval -> M pyval.
Variable correlate : string -> list pyval -> M pyval.

(** Two runs whose scan stages differ in their result only end with the
    same identifier, duration, timestamp and state. *)
Lemma orchestrate_two_scans username w b w1 s1 s2 w2 a w3 f w4 :
  brain username (snd (time w)) = (Returned b, w1) ->
  muscle1 username b w1 = (Returned s1, w2) ->
  muscle2 username b w1 = (Returned s2, w2) ->
  api username s1 w2 = (Returned a, w3) ->
  api username s2 w2 = (Returned a, w3) ->
  correlate username [b; s1; a] w3 = (Returned f, w4) ->
  correlate username [b; s2; a] w3 = (Returned f, w4) ->
  exists seconds suffix total_duration timestamp w',
    orchestrate_investigation brain muscle1 api correlate username w =
      (Returned (investigation_report
         ("op_" ++ str_of_int seconds ++ "_" ++ str_of_int suffix)
         username b s1 a f total_duration timestamp), w')
    /\ orchestrate_investigation brain muscle2 api correlate username w =
      (Returned (investigation_report
         ("op_" ++ str_of_int seconds ++ "_" ++ str_of_int suffix)
         username b s2 a f total_duration timestamp), w')
    /\ 1000 <= suffix <= 9999.
Proof.
  intros Eb Es1 Es2 Ea1 Ea2 Ef1 Ef2.
  destruct (time_run w) as (t0 & w0 & E0 & _).
  rewrite E0 in Eb. simpl in Eb.
  destruct (time_run w4) as (t1 & w5 & E5 & _).
  destruct (time_run w5) as (t2 & w6 & E6 & Hfin).
  destruct (float_to_int_finite t2 Hfin) as (n & En).
  destruct (randint_run 1000 9999 w6 ltac:(lia)) as (r & w7 & E7 & Hr).
  destruct (now_isoformat_run w7) as (ts & w8 & E8).
  exists n, r, (float_sub t1 t0), ts, w8.
  split; [|split; [|exact Hr]]; unfold orchestrate_investigation.
  - rewrite (bind_returned _ _ _ _ _ E0), (bind_returned _ _ _ _ _ Eb),
      (bind_returned _ _ _ _ _ Es1), (bind_returned _ _ _ _ _ Ea1),
      (bind_returned _ _ _ _ _ Ef1), (bind_returned _ _ _ _ _ E5),
      (bind_returned _ _ _ _ _ E6).
    rewrite (bind_returned _ _ w6 n w6) by (unfold lift; now rewrite En).
    now rewrite (bind_returned _ _ _ _ _ E7), (bind_returned _ _ _ _ _ E8).
  - rewrite (bind_returned _ _ _ _ _ E0), (bind_returned _ _ _ _ _ Eb),
      (bind_returned _ _ _ _ _ Es2), (bind_returned _ _ _ _ _ Ea2),
      (bind_returned _ _ _ _ _ Ef2), (bind_returned _ _ _ _ _ E5),
      (bind_returned _ _ _ _ _ E6).
    rewrite (bind_returned _ _ w6 n w6) by (unfold lift; now rewrite En).
    now rewrite (bind_returned _ _ _ _ _ E7), (bind_returned _ _ _ _ _ E8).
Qed.
End TwoScans.

Lemma investigate_two_sessions_api {R : Runtime} {L : RuntimeLaws R}
  (session1 session2 : ClientSession) (username : string) (w : world) :
  exists seconds suffix b d found details checked sa rs score conf
         total_duration timestamp w',
    let a := VDict [ ("username", VStr username);
                     ("breach_data",
                       VDict [ ("breaches_found", VInt found);
                               ("breach_details", VList details);
                               ("last_checked", VStr checked) ]);
                     ("social_analysis", sa);
                     ("reputation_score", VFloat rs) ] in
    investigate (init session1) username w =
      (Returned (investigation_report
         ("op_" ++ str_of_int seconds ++ "_" ++ str_of_int suffix) username b
         (scan_report username
            (expected_results (self_platforms (init session1))
               (probe (init session1)) username) d 5)
         a (final_analysis_report score conf) total_duration timestamp), w')
    /\ investigate (init session2) username w =
      (Returned (investigation_report
         ("op_" ++ str_of_int seconds ++ "_" ++ str_of_int suffix) username b
         (scan_report username
            (expected_results (self_platforms (init session2))
               (probe (init session2)) username) d 5)
         a (final_analysis_report score conf) total_duration timestamp), w')
    /\ 1000 <= suffix <= 9999.
Proof.
  destruct (brain_analyze_returns username (snd (time w)))
    as (c & t & w1 & Eb).
  match type of Eb with _ = (Returned ?v, _) => set (b := v) in * end.
  destruct (muscle_scan_two_checks (self_platforms (init session1))
              (probe (init session1)) (probe (init session2)) username b w1
              (init_platforms_ok session1)) as (d & w2 & Es1 & Es2).
  match type of Es1 with _ = (Returned ?v, _) => set (s1 := v) in * end.
  match type of Es2 with _ = (Returned ?v, _) => set (s2 := v) in * end.
  destruct (api_gather_intel_shape username s1 w2)
    as (found & details & checked & sa & rs & w3 & Ea).
  match type of Ea with _ = (Returned ?v, _) => set (a := v) in * end.
  destruct (correlate_intelligence_returns username [b; s1; a] w3)
    as (score & conf & w4 & Ef).
  fold (final_analysis_report score conf) in Ef.
  destruct (orchestrate_two_scans brain_analyze (scan (init session1))
              (scan (init session2)) api_gather_intel correlate_intelligence
              username w b w1 s1 s2 w2 a w3 (final_analysis_report score conf)
              w4 Eb Es1 Es2 Ea Ea Ef Ef)
    as (n & r & dur & ts & w' & H1 & H2 & Hr).
  exists n, r, b, d, found, details, checked, sa, rs, score, conf, dur, ts, w'.
  repeat split; assumption || apply Hr.
Qed.

Lemma investigate_two_sessions {R : Runtime} {L : RuntimeLaws R}
  (session1 session2 : ClientSession) (username : string) (w : world) :
  exists seconds suffix b d a score conf total_duration timestamp w',
    investigate (init session1) username w =
      (Returned (investigation_report
         ("op_" ++ str_of_int seconds ++ "_" ++ str_of_int suffix) username b
         (scan_report username
            (expected_results (self_platforms (init session1))
               (probe (init session1)) username) d 5)
         a (final_analysis_report score conf) total_duration timestamp), w')
    /\ investigate (init session2) username w =
      (Returned (investigation_report
         ("op_" ++ str_of_int seconds ++ "_" ++ str_of_int suffix) username b
         (scan_report username
            (expected_results (self_platforms (init session2))
               (probe (init session2)) username) d 5)
         a (final_analysis_report score conf) total_duration timestamp), w')
    /\ 1000 <= suffix <= 9999.
Proof.
  destruct (investigate_two_sessions_api session1 session2 username w)
    as (n & r & b & d & found & details & checked & sa & rs & sc & cf & dur
        & ts & w' & H1 & H2 & Hr).
  cbv zeta in H1, H2.
  eexists n, r, b, d, _, sc, cf, dur, ts, w'.
  split; [exact H1|]. split; [exact H2 | exact Hr].
Qed.

(** What the network answers reaches the report through the outcome
    mapping of the scan, and through the clock.  Two investigations of one
    username from one state, over any two sessions, take the same random
    draws, so their reports agree on the username, the pattern analysis,
    the final analysis and the suffix of the identifier; inside the scan
    results on all but the outcome mapping; and inside the intelligence on
    all but the time of the breach check.  Nothing is said of what is read
    off the clock once the probes have been awaited: the seconds of the
    identifier, the duration and the later timestamps. *)
Theorem investigate_network_independent {R : Runtime}
  (session1 session2 : ClientSession) (username : string) (w : world) :
  RuntimeLaws R ->
  exists report1 report2 w1 w2,
    investigate (init session1) username w = (Returned report1, w1)
    /\ investigate (init session2) username w = (Returned report2, w2)
    /\ (forall k, In k ["username"; "brain_analysis"; "final_analysis"] ->
        field k report1 = field k report2)
    /\ (exists seconds1 seconds2 suffix,
          field "operation_id" report1
            = Some (VStr ("op_" ++ str_of_int seconds1 ++ "_" ++ str_of_int suffix))
          /\ field "operation_id" report2
            = Some (VStr ("op_" ++ str_of_int seconds2 ++ "_" ++ str_of_int suffix)))
    /\ (exists scan1 scan2,
          field "scan_results" report1 = Some scan1
          /\ field "scan_results" report2 = Some scan2
          /\ forall k, k <> "platform_results" -> field k scan1 = field k scan2)
    /\ (exists api1 api2 breach1 breach2,
          field "api_intelligence" report1 = Some api1
          /\ field "api_intelligence" report2 = Some api2
          /\ (forall k, k <> "breach_data" -> field k api1 = field k api2)
          /\ field "breach_data" api1 = Some breach1
          /\ field "breach_data" api2 = Some breach2
          /\ forall k, k <> "last_checked" -> field k breach1 = field k breach2).
Proof.
  intros L.
  destruct (investigate_two_sessions_api session1 session2 username w)
    as (n & r & b & d & found & details & checked & sa & rs & sc & cf & dur
        & ts & w' & H1 & H2 & _).
  cbv zeta in H1, H2.
  eexists _, _, w', w'. split; [exact H1|]. split; [exact H2|].
  split; [|split; [|split]].
  - intros k [<-|[<-|[<-|[]]]]; reflexivity.
  - now exists n, n, r.
  - eexists _, _. split; [reflexivity|]. split; [reflexivity|].
    intros k Hk. unfold scan_report, field. cbn [dict_get].
    repeat match goal with
           | |- context [String.eqb k ?key] =>
               destruct (String.eqb_spec k key); [first [reflexivity | contradiction]|]
           end.
    reflexivity.
  - eexists _, _, _, _. split; [reflexivity|]. split; [reflexivity|].
    split; [reflexivity|]. split; [reflexivity|]. split; reflexivity.
Qed.

Lemma investigate_network_independent_witness :
  exists report1 report2 w1 w2,
    @investigate fixed_runtime (init offline_session) "john_doe" w0
      = (Returned report1, w1)
    /\ @investigate fixed_runtime (init (answering_session 200)) "john_doe" w0
      = (Returned report2, w2)
    /\ (forall k, In k ["username"; "brain_analysis"; "final_analysis"] ->
        field k report1 = field k report2)
    /\ (exists seconds1 seconds2 suffix,
          field "operation_id" report1
            = Some (VStr ("op_" ++ str_of_int seconds1 ++ "_" ++ str_of_int suffix))
          /\ field "operation_id" report2
            = Some (VStr ("op_" ++ str_of_int seconds2 ++ "_" ++ str_of_int suffix)))
    /\ (exists scan1 scan2,
          field "scan_results" report1 = Some scan1
          /\ field "scan_results" report2 = Some scan2
          /\ forall k, k <> "platform_results" -> field k scan1 = field k scan2)
    /\ (exists api1 api2 breach1 breach2,
          field "api_intelligence" report1 = Some api1
          /\ field "api_intelligence" report2 = Some api2
          /\ (forall k, k <> "breach_data" -> field k api1 = field k api2)
          /\ field "breach_data" api1 = Some breach1
          /\ field "breach_data" api2 = Some breach2
          /\ forall k, k <> "last_checked" -> field k breach1 = field k breach2).
Proof.
  apply (@investigate_network_independent fixed_runtime).
  apply fixed_runtime_laws.
Defined.

(** The closing steps of the orchestrator.  Once the four stages have
    returned, [time.time()] is read twice more: the first reading, less the
    one taken before the stages, is [total_duration]; the second, cut to
    whole seconds by [int], is the number in the operation identifier.
    Then [random.randint(1000, 9999)] gives the suffix, of four digits, and
    [datetime.now().isoformat()] the timestamp.  The identifier is [op_],
    those seconds, an underscore and that suffix. *)
Theorem operation_id_format {R : Runtime}
  (brain : string -> M pyval) (muscle api : string -> pyval -> M pyval)
  (correlate : string -> list pyval -> M pyval)
  (username : string) (w u0 u1 u2 u3 u4 : world) (start_time : float)
  (b s a f : pyval) :
  RuntimeLaws R ->
  time w = (Returned start_time, u0) ->
  brain username u0 = (Returned b, u1) ->
  muscle username b u1 = (Returned s, u2) ->
  api username s u2 = (Returned a, u3) ->
  correlate username [b; s; a] u3 = (Returned f, u4) ->
  exists report t u5 t_id u6 seconds suffix u7 timestamp w',
    orchestrate_investigation brain muscle api correlate username w
      = (Returned report, w')
    /\ time u4 = (Returned t, u5)
    /\ time u5 = (Returned t_id, u6)
    /\ float_to_int t_id = Returned seconds
    /\ randint 1000 9999 u6 = (Returned suffix, u7)
    /\ now_isoformat u7 = (Returned timestamp, w')
    /\ field "operation_id" report
       = Some (VStr ("op_" ++ str_of_int seconds ++ "_" ++ str_of_int suffix))
    /\ field "total_duration" report = Some (VFloat (float_sub t start_time))
    /\ field "timestamp" report = Some (VStr timestamp)
    /\ 1000 <= suffix <= 9999
    /\ String.length (str_of_int suffix) = 4%nat.
Proof.
  intros L E0 Eb Es Ea Ef.
  destruct (time_run u4) as (t & u5 & E5 & _).
  destruct (time_run u5) as (t_id & u6 & E6 & Hfin).
  destruct (float_to_int_finite t_id Hfin) as (n & En).
  destruct (randint_run 1000 9999 u6 ltac:(lia)) as (r & u7 & E7 & Hr).
  destruct (now_isoformat_run u7) as (ts & w' & E8).
  eexists _, t, u5, t_id, u6, n, r, u7, ts, w'.
  split.
  { unfold orchestrate_investigation.
    rewrite (bind_returned _ _ _ _ _ E0), (bind_returned _ _ _ _ _ Eb),
      (bind_returned _ _ _ _ _ Es), (bind_returned _ _ _ _ _ Ea),
      (bind_returned _ _ _ _ _ Ef), (bind_returned _ _ _ _ _ E5),
      (bind_returned _ _ _ _ _ E6).
    rewrite (bind_returned _ _ u6 n u6) by (unfold lift; now rewrite En).
    rewrite (bind_returned _ _ _ _ _ E7), (bind_returned _ _ _ _ _ E8).
    reflexivity. }
  repeat (split; [first [assumption | reflexivity]|]).
  now apply four_digit_suffix.
Qed.

Lemma operation_id_format_witness :
  exists start_time u0 b u1 s u2 a u3 f u4,
  exists report t u5 t_id u6 seconds suffix u7 timestamp w',
    @orchestrate_investigation fixed_runtime brain_analyze
      (scan (init offline_session)) api_gather_intel correlate_intelligence
      "john_doe" w0 = (Returned report, w')
    /\ @time fixed_runtime w0 = (Returned start_time, u0)
    /\ brain_analyze "john_doe" u0 = (Returned b, u1)
    /\ scan (init offline_session) "john_doe" b u1 = (Returned s, u2)
    /\ api_gather_intel "john_doe" s u2 = (Returned a, u3)
    /\ correlate_intelligence "john_doe" [b; s; a] u3 = (Returned f, u4)
    /\ time u4 = (Returned t, u5)
    /\ time u5 = (Returned t_id, u6)
    /\ float_to_int t_id = Returned seconds
    /\ randint 1000 9999 u6 = (Returned suffix, u7)
    /\ now_isoformat u7 = (Returned timestamp, w')
    /\ field "operation_id" report
       = Some (VStr ("op_" ++ str_of_int seconds ++ "_" ++ str_of_int suffix))
    /\ field "total_duration" report = Some (VFloat (float_sub t start_time))
    /\ field "timestamp" report = Some (VStr timestamp)
    /\ 1000 <= suffix <= 9999
    /\ String.length (str_of_int suffix) = 4%nat.
Proof.
  eassert (E0 : @time fixed_runtime w0 = (Returned _, _))
    by (vm_compute; reflexivity).
  match type of E0 with
  | _ = (_, ?u0) =>
      eassert (Eb : @brain_analyze fixed_runtime "john_doe" u0 = (Returned _, _))
        by (vm_compute; reflexivity)
  end.
  match type of Eb with
  | _ = (Returned ?b, ?u1) =>
      eassert (Es : @scan fixed_runtime (init offline_session) "john_doe" b u1
                    = (Returned _, _))
        by (vm_compute; reflexivity)
  end.
  match type of Es with
  | _ = (Returned ?s, ?u2) =>
      eassert (Ea : @api_gather_intel fixed_runtime "john_doe" s u2
                    = (Returned _, _))
        by (vm_compute; reflexivity)
  end.
  match type of Eb with
  | _ = (Returned ?b, _) =>
      match type of Es with
      | _ = (Returned ?s, _) =>
          match type of Ea with
          | _ = (Returned ?a, ?u3) =>
              eassert (Ef : @correlate_intelligence fixed_runtime "john_doe"
                              [b; s; a] u3 = (Returned _, _))
                by (vm_compute; reflexivity)
          end
      end
  end.
  destruct (@operation_id_format fixed_runtime brain_analyze
              (scan (init offline_session)) api_gather_intel
              correlate_intelligence "john_doe" w0 _ _ _ _ _ _ _ _ _ _
              fixed_runtime_laws E0 Eb Es Ea Ef)
    as (report & t & u5 & t_id & u6 & n & r & u7 & tsf & w' & Hrun & Hrest).
  eexists _, _, _, _, _, _, _, _, _, _.
  exists report, t, u5, t_id, u6, n, r, u7, tsf, w'.
  split; [exact Hrun|]. split; [exact E0|]. split; [exact Eb|].
  split; [exact Es|]. split; [exact Ea|]. split; [exact Ef|]. exact Hrest.
Defined.

(* ================================================================== *)
(** * The command line *)

Section CommandLineFacts.
Context {R : Runtime}.
Variable H : Host.

Lemma io_bind_returned {A B} (c : IO A) (k : A -> IO B) p a p' :
  c p = (Returned a, p') -> io_bind c k p = k a p'.
Proof. unfold io_bind. now intros ->. Qed.

Lemma io_bind_raised {A B} (c : IO A) (k : A -> IO B) p e p' :
  c p = (Raised e, p') -> io_bind c k p = (Raised e, p').
Proof. unfold io_bind. now intros ->. Qed.

Context {L : RuntimeLaws R}.

(** An investigation awaited by the command line returns its report and
    touches neither the input nor the trace. *)
Lemma io_run_investigate session username p :
  exists seconds suffix b d a score conf total_duration timestamp w',
    io_run (investigate (init session) username) p =
      (Returned (investigation_report
         ("op_" ++ str_of_int seconds ++ "_" ++ str_of_int suffix) username b
         (scan_report username
            (expected_results (self_platforms (init session))
               (probe (init session)) username) d 5)
         a (final_analysis_report score conf) total_duration timestamp),
       mk_proc w' (p_stdin p) (p_trace p)).
Proof.
  destruct (investigate_two_sessions session session username (p_world p))
    as (n & r & b & d & a & sc & cf & dur & ts & w' & H1 & _ & _).
  exists n, r, b, d, a, sc, cf, dur, ts, w'.
  unfold io_run. now rewrite H1.
Qed.
End CommandLineFacts.

(** With [--output text] the command line runs the investigation to its
    end, and only then fails on the name [self]: the call raises
    [NameError] from the state the investigation left, having printed
    nothing and written nothing; the report is lost and the session is
    closed. *)
Theorem cli_text_output_raises {R : Runtime} (H : Host) (session : ClientSession)
  (fuel : nat) (args : Namespace) (p : proc) (c : ascii) (username : string) :
  RuntimeLaws R ->
  truthy (args_batch args) = false ->
  args_username args = Some (String c username) ->
  args_output args <> "json" ->
  exists report w',
    investigate (init session) (String c username) (p_world p)
      = (Returned report, w')
    /\ complete_report report
    /\ cli H session fuel args p =
         Some (Raised (mk_exn "NameError" "name 'self' is not defined"),
               mk_proc w' (p_stdin p) (p_trace p ++ [Closed])%list).
Proof.
  intros L Hbatch Huser Hout.
  destruct (investigate_two_sessions session session (String c username)
              (p_world p))
    as (n & r & b & d & a & sc & cf & dur & ts & w' & Hrun & _ & _).
  eexists _, w'. split; [exact Hrun|].
  split; [apply complete_report_assembled|].
  unfold cli, cli_body. rewrite Huser.
  assert (Hsingle :
    cli_single H (init session) (String c username) (args_output args) p
    = (Raised (mk_exn "NameError" "name 'self' is not defined"),
       mk_proc w' (p_stdin p) (p_trace p))).
  { unfold cli_single, io_bind, io_run. rewrite Hrun.
    destruct (String.eqb_spec (args_output args) "json"); [contradiction|].
    reflexivity. }
  destruct (args_batch args) as [[|c' batch]|]; try discriminate Hbatch;
    rewrite Hsingle; reflexivity.
Qed.

Lemma cli_text_output_raises_witness :
  exists report w',
    @investigate fixed_runtime (init offline_session) "john_doe"
      (p_world (p0 ["unread"])) = (Returned report, w')
    /\ complete_report report
    /\ @cli fixed_runtime bare_host offline_session 0
         {| args_username := Some "john_doe"; args_batch := None;
            args_output := "text" |} (p0 ["unread"]) =
         Some (Raised (mk_exn "NameError" "name 'self' is not defined"),
               mk_proc w' (p_stdin (p0 ["unread"]))
                 (p_trace (p0 ["unread"]) ++ [Closed])%list).
Proof.
  apply (@cli_text_output_raises fixed_runtime bare_host offline_session 0
           {| args_username := Some "john_doe"; args_batch := None;
              args_output := "text" |} (p0 ["unread"]) "j" "ohn_doe").
  - apply fixed_runtime_laws.
  - reflexivity.
  - reflexivity.
  - discriminate.
Defined.

(** With [--output json] the command line prints the JSON text of the
    complete report of the investigation, and nothing else, then closes
    the session; if the report does not serialise, the error of
    [json.dumps] leaves the call, after the session is closed. *)
Theorem cli_json_output {R : Runtime} (H : Host) (session : ClientSession)
  (fuel : nat) (args : Namespace) (p : proc) (c : ascii) (username : string) :
  RuntimeLaws R ->
  truthy (args_batch args) = false ->
  args_username args = Some (String c username) ->
  args_output args = "json" ->
  exists report w',
    investigate (init session) (String c username) (p_world p)
      = (Returned report, w')
    /\ complete_report report
    /\ cli H session fuel args p =
         Some (match host_json_dumps H report with
               | Returned text =>
                   (Returned tt,
                    mk_proc w' (p_stdin p)
                      (p_trace p ++ [Printed text; Closed])%list)
               | Raised e =>
                   (Raised e, mk_proc w' (p_stdin p) (p_trace p ++ [Closed])%list)
               end).
Proof.
  intros L Hbatch Huser Hout.
  destruct (investigate_two_sessions session session (String c username)
              (p_world p))
    as (n & r & b & d & a & sc & cf & dur & ts & w' & Hrun & _ & _).
  eexists _, w'. split; [exact Hrun|].
  split; [apply complete_report_assembled|].
  unfold cli, cli_body. rewrite Huser.
  assert (Hsingle : forall report,
    investigate (init session) (String c username) (p_world p)
      = (Returned report, w') ->
    cli_single H (init session) (String c username) (args_output args) p
    = match host_json_dumps H report with
      | Returned text =>
          (Returned tt, mk_proc w' (p_stdin p) (p_trace p ++ [Printed text])%list)
      | Raised e => (Raised e, mk_proc w' (p_stdin p) (p_trace p))
      end).
  { intros report Hrep. unfold cli_single, io_bind, io_run. rewrite Hrep, Hout.
    simpl. unfold io_lift. destruct (host_json_dumps H report); reflexivity. }
  rewrite (Hsingle _ Hrun).
  destruct (args_batch args) as [[|c' batch]|]; try discriminate Hbatch;
    destruct (host_json_dumps H _); simpl; unfold emit; simpl;
    now rewrite <- ?app_assoc.
Qed.

Lemma cli_json_output_witness :
  exists report w',
    @investigate fixed_runtime (init offline_session) "john_doe"
      (p_world (p0 [])) = (Returned report, w')
    /\ complete_report report
    /\ @cli fixed_runtime bare_host offline_session 0
         {| args_username := Some "john_doe"; args_batch := None;
            args_output := "json" |} (p0 []) =
         Some (match host_json_dumps bare_host report with
               | Returned text =>
                   (Returned tt,
                    mk_proc w' (p_stdin (p0 []))
                      (p_trace (p0 []) ++ [Printed text; Closed])%list)
               | Raised e =>
                   (Raised e,
                    mk_proc w' (p_stdin (p0 [])) (p_trace (p0 []) ++ [Closed])%list)
               end).
Proof.
  apply (@cli_json_output fixed_runtime bare_host offline_session 0
           {| args_username := Some "john_doe"; args_batch := None;
              args_output := "json" |} (p0 []) "j" "ohn_doe").
  - apply fixed_runtime_laws.
  - reflexivity.
  - reflexivity.
  - reflexivity.
Defined.

(** A batch file that cannot be opened.  Nothing is investigated, no line
    of input is read and nothing is written; the session is closed.  An
    error of [open] other than [FileNotFoundError] leaves the call, and
    nothing is printed.  For a missing file the one thing the command line
    may print is the notice that names the file, and it has printed it
    whenever the call returns normally. *)
Theorem cli_batch_unreadable {R : Runtime} (H : Host) (session : ClientSession)
  (fuel : nat) (args : Namespace) (p : proc) (c : ascii) (batch : string)
  (e : pyexn) :
  args_batch args = Some (String c batch) ->
  host_read_lines H (String c batch) = Raised e ->
  exists o p' evs,
    cli H session fuel args p = Some (o, p')
    /\ p_world p' = p_world p
    /\ p_stdin p' = p_stdin p
    /\ p_trace p' = (p_trace p ++ Opened (String c batch) :: evs ++ [Closed])%list
    /\ (exn_class e <> "FileNotFoundError" -> o = Raised e /\ evs = [])
    /\ (exn_class e = "FileNotFoundError" ->
        incl evs [Printed ("❌ File not found: " ++ String c batch)]
        /\ (o = Returned tt ->
            evs = [Printed ("❌ File not found: " ++ String c batch)])).
Proof.
  intros Hbatch Hread. unfold cli, cli_body. rewrite Hbatch.
  unfold cli_batch, try_except_class, io_bind, io_open_read. rewrite Hread.
  destruct (String.eqb_spec (exn_class e) "FileNotFoundError") as [Hcls|Hcls].
  - eexists _, _, [Printed ("❌ File not found: " ++ String c batch)].
    split; [reflexivity|]. split; [reflexivity|]. split; [reflexivity|].
    split; [unfold io_print, close, emit; cbn [p_trace]; now rewrite <- !app_assoc|].
    split; [intros Hne; contradiction|].
    intros _. split; [apply incl_refl | reflexivity].
  - eexists _, _, []. split; [reflexivity|]. split; [reflexivity|].
    split; [reflexivity|].
    split; [unfold close, emit; cbn [p_trace]; now rewrite <- !app_assoc|].
    split; [intros _; now split|]. intros Heq. contradiction.
Qed.

Lemma cli_batch_unreadable_witness :
  exists o p' evs,
    @cli fixed_runtime bare_host offline_session 0
      {| args_username := Some "ignored"; args_batch := Some "names.txt";
         args_output := "json" |} (p0 ["unread"]) = Some (o, p')
    /\ p_world p' = p_world (p0 ["unread"])
    /\ p_stdin p' = p_stdin (p0 ["unread"])
    /\ p_trace p'
       = (p_trace (p0 ["unread"]) ++ Opened "names.txt" :: evs ++ [Closed])%list
    /\ (exn_class (mk_exn "FileNotFoundError"
                     "[Errno 2] No such file or directory: 'names.txt'")
          <> "FileNotFoundError" ->
        o = Raised (mk_exn "FileNotFoundError"
                      "[Errno 2] No such file or directory: 'names.txt'")
        /\ evs = [])
    /\ (exn_class (mk_exn "FileNotFoundError"
                     "[Errno 2] No such file or directory: 'names.txt'")
          = "FileNotFoundError" ->
        incl evs [Printed ("❌ File not found: " ++ "names.txt")]
        /\ (o = Returned tt ->
            evs = [Printed ("❌ File not found: " ++ "names.txt")])).
Proof.
  apply (@cli_batch_unreadable fixed_runtime bare_host offline_session 0
           {| args_username := Some "ignored"; args_batch := Some "names.txt";
              args_output := "json" |} (p0 ["unread"]) "n" "ames.txt"
           (mk_exn "FileNotFoundError"
              "[Errno 2] No such file or directory: 'names.txt'")).
  - reflexivity.
  - reflexivity.
Defined.

(** ** The session is closed on every path *)

Section Steady.
Context {R : Runtime}.
Variable H : Host.

Lemma continues_refl (p : proc) : continues p p.
Proof.
  split; [|lia]. exists []. split; [now rewrite app_nil_r | intros []].
Qed.

Lemma continues_trans (p p1 p2 : proc) :
  continues p p1 -> continues p1 p2 -> continues p p2.
Proof.
  intros [(evs1 & Ht1 & Hc1) Hs1] [(evs2 & Ht2 & Hc2) Hs2]. split; [|lia].
  exists (evs1 ++ evs2)%list. split.
  - now rewrite Ht2, Ht1, app_assoc.
  - intros Hin. apply in_app_or in Hin. tauto.
Qed.

Lemma continues_emit (ev : event) (p : proc) :
  ev <> Closed -> continues p (emit ev p).
Proof.
  intros Hev. split; [|simpl; lia].
  exists [ev]. split; [reflexivity|]. intros [Heq|[]]. congruence.
Qed.

Lemma steady_ret {A} (a : A) : steady (io_ret a).
Proof. intros p o p' [= <- <-]. apply continues_refl. Qed.

Lemma steady_lift {A} (x : outcome A) : steady (io_lift x).
Proof. intros p o p' [= <- <-]. apply continues_refl. Qed.

Lemma steady_print text : steady (io_print text).
Proof. intros p o p' [= <- <-]. now apply continues_emit. Qed.

Lemma steady_run {A} (c : M A) : steady (io_run c).
Proof.
  intros p o p'. unfold io_run. destruct (c (p_world p)) as [x w].
  intros [= <- <-]. split; [|simpl; lia].
  exists []. split; [simpl; now rewrite app_nil_r | intros []].
Qed.

Lemma steady_input prompt : steady (io_input prompt).
Proof.
  intros p o p'. unfold io_input.
  destruct (p_stdin p) as [|line rest] eqn:Hin; intros [= <- <-].
  - now apply continues_emit.
  - split; [|simpl; rewrite Hin; simpl; lia].
    exists [Prompted prompt]. split; [reflexivity|].
    intros [Heq|[]]. discriminate.
Qed.

Lemma steady_dump path v : steady (io_dump H path v).
Proof. intros p o p' [= <- <-]. now apply continues_emit. Qed.

Lemma steady_open_read path : steady (io_open_read H path).
Proof. intros p o p' [= <- <-]. now apply continues_emit. Qed.

Lemma steady_bind {A B} (c : IO A) (k : A -> IO B) :
  steady c -> (forall a, steady (k a)) -> steady (io_bind c k).
Proof.
  intros Hc Hk p o p'. unfold io_bind.
  destruct (c p) as [[a|e] p1] eqn:Ec.
  - intros Ek. eapply continues_trans; [eapply Hc, Ec | eapply Hk, Ek].
  - intros [= <- <-]. eapply Hc, Ec.
Qed.

Lemma steady_try_except {A} (c : IO A) (handler : pyexn -> IO A) :
  steady c -> (forall e, steady (handler e)) -> steady (try_except c handler).
Proof.
  intros Hc Hh p o p'. unfold try_except.
  destruct (c p) as [[a|e] p1] eqn:Ec.
  - intros [= <- <-]. eapply Hc, Ec.
  - intros Eh. eapply continues_trans; [eapply Hc, Ec | eapply Hh, Eh].
Qed.

Lemma steady_try_except_class {A} cls (c : IO A) (handler : IO A) :
  steady c -> steady handler -> steady (try_except_class cls c handler).
Proof.
  intros Hc Hh p o p'. unfold try_except_class.
  destruct (c p) as [[a|e] p1] eqn:Ec.
  - intros [= <- <-]. eapply Hc, Ec.
  - destruct (String.eqb (exn_class e) cls).
    + intros Eh. eapply continues_trans; [eapply Hc, Ec | eapply Hh, Eh].
    + intros [= <- <-]. eapply Hc, Ec.
Qed.

Lemma steady_for {A} (l : list A) (body : A -> IO unit) :
  (forall x, steady (body x)) -> steady (io_for l body).
Proof.
  intros Hbody. induction l as [|x l IH]; simpl.
  - apply steady_ret.
  - apply steady_bind; [apply Hbody | intros _; exact IH].
Qed.

Ltac steady_step :=
  first [ apply steady_ret | apply steady_lift | apply steady_print
        | apply steady_run | apply steady_input | apply steady_dump
        | apply steady_open_read
        | apply steady_try_except_class
        | apply steady_bind; [|intros ?]
        | apply steady_try_except; [|intros ?]
        | apply steady_for; intros ? ].

Lemma steady_cli_batch system batch : steady (cli_batch H system batch).
Proof. unfold cli_batch, cli_batch_iteration. repeat steady_step. Qed.

Lemma steady_cli_single system username output :
  steady (cli_single H system username output).
Proof.
  unfold cli_single. repeat steady_step.
  all: try (destruct (String.eqb output "json"); repeat steady_step).
Qed.

Lemma steady_cli_interactive_body system username :
  steady (cli_interactive_body H system username).
Proof.
  unfold cli_interactive_body. repeat steady_step.
  all: try (match goal with |- steady (if ?b then _ else _) => destruct b end;
            repeat steady_step).
Qed.

(** With more fuel than lines of input the loop ends. *)
Lemma cli_interactive_loop_ends system fuel p :
  (List.length (p_stdin p) < fuel)%nat ->
  exists o p', cli_interactive_loop H system fuel p = Some (o, p')
               /\ continues p p'.
Proof.
  revert p. induction fuel as [|fuel IH]; intros p Hfuel; [lia|].
  cbn [cli_interactive_loop].
  pose proof (steady_input (nl ++ "Enter username to investigate (or 'quit' to exit): ") p)
    as Hinput.
  unfold io_input in *.
  destruct (p_stdin p) as [|line rest] eqn:Hin.
  - eexists _, _. split; [reflexivity|]. eapply Hinput; reflexivity.
  - match goal with
    | |- context [mk_proc (p_world p) rest ?t] =>
        set (p1 := mk_proc (p_world p) rest t) in *
    end.
    assert (H1 : continues p p1) by (eapply Hinput; reflexivity).
    destruct (str_in_list (lower (strip line)) quit_words).
    + now eexists _, _.
    + match goal with
      | |- context [(if ?b then ?c1 else ?c2) p1] =>
          assert (Hbody : steady (if b then c1 else c2))
            by (destruct b;
                [ apply steady_try_except;
                  [apply steady_cli_interactive_body | intros ?; apply steady_print]
                | apply steady_ret ]);
          destruct ((if b then c1 else c2) p1) as [[u|e] p2] eqn:E2
      end.
      * assert (H2 : continues p1 p2) by (eapply Hbody, E2).
        destruct (IH p2) as (o & p' & Hloop & H3).
        { destruct H2 as [_ H2]. subst p1. simpl in H2. simpl in Hfuel. lia. }
        exists o, p'. split; [exact Hloop|].
        eapply continues_trans; [exact H1|].
        eapply continues_trans; [exact H2 | exact H3].
      * eexists _, _. split; [reflexivity|].
        eapply continues_trans; [exact H1 | eapply Hbody, E2].
Qed.

Lemma cli_body_ends session fuel args p :
  (List.length (p_stdin p) < fuel)%nat ->
  exists o p', cli_body H (init session) fuel args p = Some (o, p')
               /\ continues p p'.
Proof.
  intros Hfuel. unfold cli_body.
  assert (Hbatch : forall batch, exists o p',
            Some (cli_batch H (init session) batch p) = Some (o, p')
            /\ continues p p').
  { intros batch. destruct (cli_batch H (init session) batch p) as [o p'] eqn:E.
    exists o, p'. split; [reflexivity | eapply steady_cli_batch, E]. }
  assert (Hsingle : forall username, exists o p',
            Some (cli_single H (init session) username (args_output args) p)
              = Some (o, p') /\ continues p p').
  { intros username.
    destruct (cli_single H (init session) username (args_output args) p)
      as [o p'] eqn:E.
    exists o, p'. split; [reflexivity | eapply steady_cli_single, E]. }
  assert (Hloop : exists o p',
            match (io_print "🌐 World-Class OSINT Tool" ~;;
                   io_print (str_repeat "=" 40)) p with
            | (Raised e, p1) => Some (Raised e, p1)
            | (Returned _, p1) => cli_interactive_loop H (init session) fuel p1
            end = Some (o, p') /\ continues p p').
  { match goal with
    | |- context [match ?c p with _ => _ end] =>
        assert (Hbanner : steady c) by repeat steady_step;
        destruct (c p) as [[u|e] p1] eqn:E1
    end.
    - pose proof (Hbanner _ _ _ E1) as H1.
      destruct (cli_interactive_loop_ends (init session) fuel p1)
        as (o & p' & El & H2).
      { destruct H1 as [_ H1]. lia. }
      exists o, p'. split; [exact El | eapply continues_trans; eassumption].
    - eexists _, _. split; [reflexivity | eapply Hbanner, E1]. }
  destruct (args_batch args) as [[|c batch]|];
    destruct (args_username args) as [[|c' username]|]; auto.
Qed.
End Steady.

(** Whatever the arguments, the input and the surroundings, and whether
    the branch taken returns or raises, [cli] ends with closing the
    session, once, as the last thing it does.  Fuel beyond the number of
    lines of input is enough for the interactive loop to end. *)
Theorem cli_closes_session {R : Runtime} (H : Host) (session : ClientSession)
  (fuel : nat) (args : Namespace) (p : proc) :
  (List.length (p_stdin p) < fuel)%nat ->
  exists o p' evs,
    cli H session fuel args p = Some (o, p')
    /\ p_trace p' = (p_trace p ++ evs ++ [Closed])%list
    /\ ~ In Closed evs.
Proof.
  intros Hfuel.
  destruct (cli_body_ends H session fuel args p Hfuel)
    as (o & p1 & Hbody & [(evs & Htrace & Hnone) _]).
  unfold cli. rewrite Hbody. simpl.
  eexists o, _, evs. split; [reflexivity|]. split; [|exact Hnone].
  simpl. now rewrite Htrace, app_assoc.
Qed.

Lemma cli_closes_session_witness :
  exists o p' evs,
    @cli fixed_runtime readonly_host offline_session 3
      {| args_username := None; args_batch := None; args_output := "json" |}
      (p0 ["john_doe"; "y"]) = Some (o, p')
    /\ p_trace p' = (p_trace (p0 ["john_doe"; "y"]) ++ evs ++ [Closed])%list
    /\ ~ In Closed evs.
Proof.
  apply (@cli_closes_session fixed_runtime readonly_host offline_session 3).
  simpl. lia.
Defined.

(** [main] too ends with closing the session, once and last, whether its
    body returns or a failed write makes it raise. *)
Theorem main_closes_session {R : Runtime} (H : Host) (session : ClientSession)
  (p : proc) :
  exists o p' evs,
    main H session p = (o, p')
    /\ p_trace p' = (p_trace p ++ evs ++ [Closed])%list
    /\ ~ In Closed evs.
Proof.
  unfold main, main_iteration, try_finally.
  match goal with
  | |- context [let (_, _) := ?c p in _] =>
      assert (Hbody : steady c);
      [|destruct (c p) as [o p1] eqn:E1]
  end.
  { repeat first [ apply steady_ret | apply steady_lift | apply steady_print
                 | apply steady_run | apply steady_dump
                 | apply steady_bind; [|intros ?]
                 | apply steady_try_except; [|intros ?]
                 | apply steady_for; intros ? ]. }
  destruct (Hbody _ _ _ E1) as [(evs & Htrace & Hnone) _].
  simpl. eexists o, _, evs. split; [reflexivity|]. split; [|exact Hnone].
  simpl. now rewrite Htrace, app_assoc.
Qed.

(** ** The interactive loop *)

Lemma risk_level_range score :
  In (risk_level score) ["low"; "medium"; "high"].
Proof.
  unfold risk_level. destruct (float_lt score f_0_3); [simpl; auto|].
  destruct (float_lt score f_0_7); simpl; auto.
Qed.

Lemma interactive_events_quiet stdin :
  Forall (fun ev => is_dump ev = false /\ ev <> Prompted "Save results? (y/n): ")
         (interactive_events stdin).
Proof.
  induction stdin as [|line rest IH]; cbn [interactive_events].
  - repeat constructor. discriminate.
  - constructor; [split; [reflexivity | discriminate]|].
    destruct (str_in_list (lower (strip line)) quit_words); [constructor|].
    apply Forall_app. split; [|exact IH].
    destruct (nonempty (strip line)); repeat constructor; discriminate.
Qed.

Section InteractiveFacts.
Context {R : Runtime} {L : RuntimeLaws R}.
Variable H : Host.
Variable session : ClientSession.

(** One investigated username: the announcement, then the failure. *)
Lemma cli_interactive_round username p :
  exists w',
    try_except (cli_interactive_body H (init session) username)
      (fun e => io_print ("❌ Investigation failed: " ++ exn_str e)) p
    = (Returned tt,
       mk_proc w' (p_stdin p)
         (p_trace p ++ [ Printed ("🔍 Investigating " ++ username ++ "...");
                         Printed ("❌ Investigation failed: "
                                  ++ exn_str self_undefined) ])%list).
Proof.
  destruct (io_run_investigate session username
              (emit (Printed ("🔍 Investigating " ++ username ++ "...")) p))
    as (n & r & b & d & a & sc & cf & dur & ts & w' & Hrun).
  exists w'. unfold try_except, cli_interactive_body.
  unfold io_bind at 1. unfold io_print at 1.
  rewrite (io_bind_returned _ _ _ _ _ Hrun).
  unfold io_bind, io_lift, global_self, io_print, emit. simpl.
  now rewrite <- app_assoc.
Qed.

Lemma cli_interactive_loop_run stdin : forall fuel p,
  p_stdin p = stdin ->
  (List.length stdin < fuel)%nat ->
  exists w',
    cli_interactive_loop H (init session) fuel p =
      Some (interactive_outcome stdin,
            mk_proc w' (interactive_unread stdin)
              (p_trace p ++ interactive_events stdin)%list).
Proof.
  induction stdin as [|line rest IH]; intros fuel p Hin Hfuel;
    (destruct fuel as [|fuel]; [simpl in Hfuel; lia|]);
    cbn [cli_interactive_loop]; unfold io_input; rewrite Hin.
  - exists (p_world p). unfold emit. now rewrite Hin.
  - cbn [interactive_events interactive_outcome interactive_unread].
    fold ask_username.
    destruct (str_in_list (lower (strip line)) quit_words); [now eexists|].
    destruct (nonempty (strip line)).
    + match goal with
      | |- context [try_except ?c ?h ?p1] =>
          destruct (cli_interactive_round (strip line) p1) as (w1 & Hround)
      end.
      rewrite Hround.
      match goal with
      | |- context [cli_interactive_loop _ _ fuel ?p2] =>
          destruct (IH fuel p2 eq_refl ltac:(simpl in Hfuel; lia)) as (w' & Hloop)
      end.
      rewrite Hloop. exists w'. simpl. now rewrite <- !app_assoc.
    + unfold io_ret.
      match goal with
      | |- context [cli_interactive_loop _ _ fuel ?p2] =>
          destruct (IH fuel p2 eq_refl ltac:(simpl in Hfuel; lia)) as (w' & Hloop)
      end.
      rewrite Hloop. exists w'. simpl. now rewrite <- !app_assoc.
Qed.

Lemma cli_interactive_run fuel args p :
  truthy (args_batch args) = false ->
  truthy (args_username args) = false ->
  (List.length (p_stdin p) < fuel)%nat ->
  exists w',
    cli H session fuel args p =
      Some (interactive_outcome (p_stdin p),
            mk_proc w' (interactive_unread (p_stdin p))
              (p_trace p
               ++ [ Printed "🌐 World-Class OSINT Tool";
                    Printed (str_repeat "=" 40) ]
               ++ interactive_events (p_stdin p) ++ [Closed])%list).
Proof.
  intros Hbatch Huser Hfuel.
  destruct (cli_interactive_loop_run (p_stdin p) fuel
              (emit (Printed (str_repeat "=" 40))
                 (emit (Printed "🌐 World-Class OSINT Tool") p))
              eq_refl Hfuel) as (w' & Hloop).
  exists w'. unfold cli, cli_body.
  assert (Hbranch :
    match (io_print "🌐 World-Class OSINT Tool" ~;;
           io_print (str_repeat "=" 40)) p with
    | (Raised e, p1) => Some (Raised e, p1)
    | (Returned _, p1) => cli_interactive_loop H (init session) fuel p1
    end = Some (interactive_outcome (p_stdin p),
                mk_proc w' (interactive_unread (p_stdin p))
                  (p_trace p
                   ++ [ Printed "🌐 World-Class OSINT Tool";
                        Printed (str_repeat "=" 40) ]
                   ++ interactive_events (p_stdin p))%list)).
  { unfold io_bind, io_print. rewrite Hloop. unfold emit. cbn [p_trace].
    now rewrite <- !app_assoc. }
  destruct (args_batch args) as [[|c batch]|]; try discriminate Hbatch;
    (destruct (args_username args) as [[|c' username]|]; try discriminate Huser);
    rewrite Hbranch; unfold close, emit; cbn [p_trace p_world p_stdin];
    now rewrite <- !app_assoc.
Qed.
End InteractiveFacts.

Lemma interactive_outcome_quit stdin :
  interactive_outcome stdin = Returned tt ->
  exists before line,
    stdin = (before ++ line :: interactive_unread stdin)%list
    /\ str_in_list (lower (strip line)) quit_words = true
    /\ Forall (fun l => str_in_list (lower (strip l)) quit_words = false) before.
Proof.
  induction stdin as [|l rest IH];
    cbn [interactive_outcome interactive_unread]; [discriminate|].
  destruct (str_in_list (lower (strip l)) quit_words) eqn:Hq.
  - intros _. exists [], l. repeat split; [exact Hq | constructor].
  - intros Hout. destruct (IH Hout) as (before & line & Heq & Hline & Hbefore).
    exists (l :: before), line. split; [cbn [app]; f_equal; exact Heq|].
    split; [exact Hline | now constructor].
Qed.

(** Without a batch file and without a username (none, or the empty
    string) the command line is interactive, and the one way it returns
    normally is a quit word: when the call returns, the lines read are
    those up to the first that is [quit], [exit] or [q], in any case and
    with blanks around; none before it is a quit word, and those after it
    are left unread.  So when the input holds no quit word the call does
    not return normally. *)
Theorem cli_interactive_quits {R : Runtime} (H : Host) (session : ClientSession)
  (fuel : nat) (args : Namespace) (p p' : proc) :
  RuntimeLaws R ->
  truthy (args_batch args) = false ->
  truthy (args_username args) = false ->
  (List.length (p_stdin p) < fuel)%nat ->
  cli H session fuel args p = Some (Returned tt, p') ->
  exists before line,
    p_stdin p = (before ++ line :: p_stdin p')%list
    /\ str_in_list (lower (strip line)) quit_words = true
    /\ Forall (fun l => str_in_list (lower (strip l)) quit_words = false) before.
Proof.
  intros L Hbatch Huser Hfuel Hcli.
  destruct (cli_interactive_run H session fuel args p Hbatch Huser Hfuel)
    as (w' & Hrun).
  rewrite Hrun in Hcli. injection Hcli as Hout Hp'. subst p'.
  cbn [p_stdin]. now apply interactive_outcome_quit.
Qed.

Lemma cli_interactive_quits_witness :
  exists p',
    @cli fixed_runtime bare_host offline_session 5
      {| args_username := Some ""; args_batch := None; args_output := "json" |}
      (p0 [" john_doe "; ""; " Quit "; "left"]) = Some (Returned tt, p')
    /\ exists before line,
         p_stdin (p0 [" john_doe "; ""; " Quit "; "left"])
           = (before ++ line :: p_stdin p')%list
         /\ str_in_list (lower (strip line)) quit_words = true
         /\ Forall (fun l => str_in_list (lower (strip l)) quit_words = false)
              before.
Proof.
  eassert (Hrun : @cli fixed_runtime bare_host offline_session 5
                    {| args_username := Some ""; args_batch := None;
                       args_output := "json" |}
                    (p0 [" john_doe "; ""; " Quit "; "left"])
                  = Some (Returned tt, _))
    by (vm_compute; reflexivity).
  eexists. split; [exact Hrun|].
  apply (@cli_interactive_quits fixed_runtime bare_host offline_session 5
           {| args_username := Some ""; args_batch := None;
              args_output := "json" |}
           (p0 [" john_doe "; ""; " Quit "; "left"]) _
           fixed_runtime_laws eq_refl eq_refl).
  - cbn [p_stdin p0 List.length]. lia.
  - exact Hrun.
Defined.

(** In interactive mode nothing is ever saved: whatever is typed, no file
    is written and the question [Save results?] is never asked. *)
Theorem cli_interactive_never_saves {R : Runtime} (H : Host)
  (session : ClientSession) (fuel : nat) (args : Namespace) (p : proc) :
  RuntimeLaws R ->
  truthy (args_batch args) = false ->
  truthy (args_username args) = false ->
  (List.length (p_stdin p) < fuel)%nat ->
  exists o p' evs,
    cli H session fuel args p = Some (o, p')
    /\ p_trace p' = (p_trace p ++ evs)%list
    /\ (forall path v, ~ In (Dumped path v) evs)
    /\ ~ In (Prompted "Save results? (y/n): ") evs.
Proof.
  intros L Hbatch Huser Hfuel.
  destruct (cli_interactive_run H session fuel args p Hbatch Huser Hfuel)
    as (w' & Hrun).
  rewrite Hrun. eexists _, _, _. split; [reflexivity|]. split; [reflexivity|].
  pose proof (interactive_events_quiet (p_stdin p)) as Hquiet.
  rewrite Forall_forall in Hquiet.
  split.
  - intros path v Hin. cbn [app] in Hin.
    destruct Hin as [Heq|[Heq|Hin]]; try discriminate.
    apply in_app_or in Hin as [Hin|[Heq|[]]]; [|discriminate].
    apply Hquiet in Hin. destruct Hin as [Hd _]. discriminate Hd.
  - intros Hin. cbn [app] in Hin.
    destruct Hin as [Heq|[Heq|Hin]]; try discriminate.
    apply in_app_or in Hin as [Hin|[Heq|[]]]; [|discriminate].
    apply Hquiet in Hin. destruct Hin as [_ Hne]. now apply Hne.
Qed.

Lemma cli_interactive_never_saves_witness :
  exists o p' evs,
    @cli fixed_runtime bare_host offline_session 3
      {| args_username := None; args_batch := Some ""; args_output := "text" |}
      (p0 ["john_doe"; "y"]) = Some (o, p')
    /\ p_trace p' = (p_trace (p0 ["john_doe"; "y"]) ++ evs)%list
    /\ (forall path v, ~ In (Dumped path v) evs)
    /\ ~ In (Prompted "Save results? (y/n): ") evs.
Proof.
  apply (@cli_interactive_never_saves fixed_runtime bare_host offline_session 3).
  - apply fixed_runtime_laws.
  - reflexivity.
  - reflexivity.
  - simpl. lia.
Defined.

(** ** The batch loop and the loop of [main] *)

Lemma batch_usernames_nonempty lines :
  Forall (fun username => username <> "") (batch_usernames lines).
Proof.
  unfold batch_usernames. apply Forall_forall. intros u Hin.
  apply in_map_iff in Hin as (line & <- & Hline).
  apply filter_In in Hline as [_ Hne].
  intros Heq. rewrite Heq in Hne. discriminate Hne.
Qed.

Section LoopFacts.
Context {R : Runtime} {L : RuntimeLaws R}.
Variable H : Host.
Variable session : ClientSession.

Lemma cli_batch_iteration_run username p :
  exists evs w',
    cli_batch_iteration H (init session) username p =
      (Returned tt, mk_proc w' (p_stdin p) (p_trace p ++ evs)%list)
    /\ batch_round session username evs.
Proof.
  destruct (investigate_two_sessions session session username (p_world p))
    as (n & r & b & d & a & sc & cf & dur & ts & w' & Hinv & _ & _).
  unfold cli_batch_iteration, try_except, io_bind, io_run. rewrite Hinv.
  unfold io_lift, io_print, io_dump, emit.
  cbn [subscript investigation_report final_analysis_report dict_get
       String.eqb Ascii.eqb Bool.eqb fstr p_trace p_world p_stdin].
  match goal with
  | |- context [host_dump_fails H ?t ?path ?v] =>
      destruct (host_dump_fails H t path v) as [e|]
  end.
  - eexists _, w'. split.
    + rewrite <- !app_assoc. reflexivity.
    + eexists (p_world p), w', _, _, _, _. split; [reflexivity|].
      split; [exact Hinv|]. split; [reflexivity|].
      split; [apply risk_level_range|]. split; [reflexivity|].
      right. now exists e.
  - eexists _, w'. split.
    + rewrite <- !app_assoc. reflexivity.
    + eexists (p_world p), w', _, _, _, _. split; [reflexivity|].
      split; [exact Hinv|]. split; [reflexivity|].
      split; [apply risk_level_range|]. split; [reflexivity|]. now left.
Qed.

Lemma cli_batch_loop_run usernames : forall p,
  exists rounds w',
    io_for usernames (cli_batch_iteration H (init session)) p =
      (Returned tt, mk_proc w' (p_stdin p) (p_trace p ++ List.concat rounds)%list)
    /\ Forall2 (batch_round session) usernames rounds.
Proof.
  induction usernames as [|u usernames IH]; intros p.
  - exists [], (p_world p). simpl. rewrite app_nil_r.
    split; [now destruct p | constructor].
  - destruct (cli_batch_iteration_run u p) as (evs & w1 & Hround & Hevs).
    cbn [io_for]. rewrite (io_bind_returned _ _ _ _ _ Hround).
    destruct (IH (mk_proc w1 (p_stdin p) (p_trace p ++ evs)%list))
      as (rounds & w' & Hloop & Hrounds).
    exists (evs :: rounds), w'. rewrite Hloop. cbn [p_stdin p_trace List.concat].
    split; [now rewrite <- app_assoc | now constructor].
Qed.

Lemma batch_write_later u usernames front pre path report :
  batch_write session usernames pre path report ->
  batch_write session (u :: usernames) (front ++ pre)%list path report.
Proof.
  intros (username & w & w' & op & level & pre' & Hin & Hinv & Hop & Hpath
          & Hlevel & Hrange & Hpre).
  exists username, w, w', op, level, (front ++ pre')%list.
  split; [now right|]. repeat (split; [assumption|]).
  now rewrite Hpre, app_assoc.
Qed.

(** In the events of the rounds there is one write for each username, and
    each of them is the write of its round. *)
Lemma batch_rounds_writes usernames rounds :
  Forall2 (batch_round session) usernames rounds ->
  List.length (filter is_dump (List.concat rounds)) = List.length usernames
  /\ forall pre path report post,
       List.concat rounds = (pre ++ Dumped path report :: post)%list ->
       batch_write session usernames pre path report.
Proof.
  induction 1 as [|u evs usernames rounds Hround Hrounds [IHn IHw]].
  - split; [reflexivity|]. intros [|x pre] path report post Heq; discriminate Heq.
  - destruct Hround as (w & w' & level & op & report0 & tail & -> & Hinv
                        & Hlevel & Hrange & Hop & Htail).
    split.
    + cbn [List.concat app filter is_dump List.length]. rewrite filter_app, length_app.
      destruct Htail as [->|(e & ->)]; cbn [filter is_dump List.length];
        now rewrite IHn.
    + intros pre path report post Heq. cbn [List.concat app] in Heq.
      destruct pre as [|x [|y pre2]]; cbn [app] in Heq.
      * discriminate Heq.
      * injection Heq as Hx Hpath Hreport _. subst x path report.
        exists u, w, w', op, level, []. split; [now left|].
        repeat (split; [first [assumption | reflexivity]|]). reflexivity.
      * injection Heq as Hx Hy Heq. subst x y.
        destruct Htail as [->|(e & ->)]; cbn [app] in Heq.
        -- apply (batch_write_later u usernames
                    [Printed ("✅ " ++ u ++ ": " ++ level ++ " risk");
                     Dumped ("results/" ++ u ++ "_" ++ op ++ ".json") report0]).
           now apply (IHw pre2 path report post).
        -- destruct pre2 as [|z pre3]; cbn [app] in Heq; [discriminate Heq|].
           injection Heq as Hz Heq. subst z.
           apply (batch_write_later u usernames
                    [Printed ("✅ " ++ u ++ ": " ++ level ++ " risk");
                     Dumped ("results/" ++ u ++ "_" ++ op ++ ".json") report0;
                     Printed ("❌ Failed " ++ u ++ ": " ++ exn_str e)]).
           now apply (IHw pre3 path report post).
Qed.

Lemma main_iteration_run username p :
  exists evs w',
    main_iteration H (init session) username p =
      (Returned tt, mk_proc w' (p_stdin p) (p_trace p ++ evs)%list)
    /\ main_round username evs.
Proof.
  destruct (io_run_investigate session username p)
    as (n & r & b & d & a & sc & cf & dur & ts & w' & Hrun).
  unfold main_iteration, try_except.
  rewrite (io_bind_returned _ _ _ _ _ Hrun).
  unfold io_bind, io_lift, io_print, io_dump, emit.
  cbn [subscript investigation_report dict_get
       String.eqb Ascii.eqb Bool.eqb fstr p_trace p_world p_stdin].
  match goal with
  | |- context [host_dump_fails H ?t ?path ?v] =>
      destruct (host_dump_fails H t path v) as [e|]
  end.
  - eexists _, w'. split.
    + rewrite <- !app_assoc. reflexivity.
    + eexists _, _, _. split; [reflexivity|].
      split; [reflexivity|]. split; [reflexivity|].
      right. now exists e.
  - eexists _, w'. split.
    + rewrite <- !app_assoc. reflexivity.
    + eexists _, _, _. split; [reflexivity|].
      split; [reflexivity|]. split; [reflexivity|]. now left.
Qed.

Lemma main_loop_run usernames : forall p,
  exists rounds w',
    io_for usernames (main_iteration H (init session)) p =
      (Returned tt, mk_proc w' (p_stdin p) (p_trace p ++ List.concat rounds)%list)
    /\ Forall2 main_round usernames rounds.
Proof.
  induction usernames as [|u usernames IH]; intros p.
  - exists [], (p_world p). simpl. rewrite app_nil_r.
    split; [now destruct p | constructor].
  - destruct (main_iteration_run u p) as (evs & w1 & Hround & Hevs).
    cbn [io_for]. rewrite (io_bind_returned _ _ _ _ _ Hround).
    destruct (IH (mk_proc w1 (p_stdin p) (p_trace p ++ evs)%list))
      as (rounds & w' & Hloop & Hrounds).
    exists (evs :: rounds), w'. rewrite Hloop. cbn [p_stdin p_trace List.concat].
    split; [now rewrite <- app_assoc | now constructor].
Qed.

(** What [main] does, by the fate of its first write. *)
Lemma main_run p :
  exists operation_id report w1,
    investigate (init session) "example_user" (p_world p) = (Returned report, w1)
    /\ field "operation_id" report = Some (VStr operation_id)
    /\ let announced :=
         [ Printed "🔍 Investigating single username...";
           Printed "✅ Investigation complete!";
           Printed ("📊 Results saved to operation_" ++ operation_id ++ ".json") ] in
       let path := "operation_" ++ operation_id ++ ".json" in
       match host_dump_fails H (p_trace p ++ announced)%list path report with
       | Some e =>
           main H session p =
             (Raised e,
              mk_proc w1 (p_stdin p)
                (p_trace p ++ announced ++ [Dumped path report; Closed])%list)
       | None =>
           exists rounds w',
             main H session p =
               (Returned tt,
                mk_proc w' (p_stdin p)
                  (p_trace p ++ announced
                   ++ [ Dumped path report;
                        Printed (nl ++ "🔍 Investigating multiple usernames...") ]
                   ++ List.concat rounds
                   ++ [ Printed (nl ++ "🎉 All investigations completed!");
                        Closed ])%list)
             /\ Forall2 main_round ["test_user"; "admin123"; "john_doe"] rounds
       end.
Proof.
  destruct (investigate_two_sessions session session "example_user" (p_world p))
    as (n & r & b & d & a & sc & cf & dur & ts & w1 & Hinv & _ & _).
  eexists _, _, w1. split; [exact Hinv|]. split; [reflexivity|].
  cbv zeta.
  match goal with
  | |- match host_dump_fails H ?t ?path ?v with _ => _ end =>
      destruct (host_dump_fails H t path v) as [e|] eqn:Hd
  end.
  - unfold main, try_finally, io_bind, io_print, io_run, io_lift, io_dump,
      close, emit.
    cbn [p_world p_stdin p_trace]. rewrite Hinv.
    cbn [subscript investigation_report dict_get String.eqb Ascii.eqb Bool.eqb
         fstr p_world p_stdin p_trace].
    rewrite <- ?app_assoc. cbn [app]. rewrite Hd.
    cbn [p_world p_stdin p_trace]. now rewrite <- ?app_assoc.
  - match goal with
    | |- exists rounds w', _ = (_, mk_proc _ _ (_ ++ ?ann ++ ?mid ++ _ ++ _)%list) /\ _ =>
        destruct (main_loop_run ["test_user"; "admin123"; "john_doe"]
                    (mk_proc w1 (p_stdin p) (p_trace p ++ ann ++ mid)%list))
          as (rounds & w' & Hloop & Hrounds)
    end.
    exists rounds, w'. split; [|exact Hrounds].
    unfold main, try_finally, io_bind, io_print, io_run, io_lift, io_dump,
      close, emit.
    cbn [p_world p_stdin p_trace]. rewrite Hinv.
    cbn [subscript investigation_report dict_get String.eqb Ascii.eqb Bool.eqb
         fstr p_world p_stdin p_trace].
    rewrite <- ?app_assoc. cbn [app]. rewrite Hd.
    cbn [p_world p_stdin p_trace]. rewrite <- ?app_assoc. cbn [app].
    cbn [app p_stdin p_trace] in Hloop. rewrite Hloop.
    cbn [p_world p_stdin p_trace]. now rewrite <- ?app_assoc.
Qed.
End LoopFacts.

(** Batch mode with a readable file writes only what it has investigated
    and announced.  No line of input is read and the session is closed.
    Every write is that of the report an investigation of one of the
    usernames (the stripped non-blank lines of the file, none of them
    empty) returned, into [results/], under that username and the
    identifier of that report, and follows at once the line that gives the
    risk level of that very report; there are no more writes than
    usernames.  When the call returns normally the first thing printed was
    the number of usernames. *)
Theorem cli_batch_writes {R : Runtime} (H : Host) (session : ClientSession)
  (fuel : nat) (args : Namespace) (p : proc) (c : ascii) (batch : string)
  (lines : list string) :
  RuntimeLaws R ->
  args_batch args = Some (String c batch) ->
  host_read_lines H (String c batch) = Returned lines ->
  exists o p' evs,
    cli H session fuel args p = Some (o, p')
    /\ p_stdin p' = p_stdin p
    /\ p_trace p' = (p_trace p ++ Opened (String c batch) :: evs ++ [Closed])%list
    /\ (o = Returned tt ->
        exists rest,
          evs = (Printed ("🔍 Processing "
                          ++ str_of_int (Z.of_nat
                               (List.length (batch_usernames lines)))
                          ++ " usernames...") :: rest)%list)
    /\ (List.length (filter is_dump evs)
        <= List.length (batch_usernames lines))%nat
    /\ (forall pre path report post,
          evs = (pre ++ Dumped path report :: post)%list ->
          batch_write session (batch_usernames lines) pre path report)
    /\ Forall (fun username => username <> "") (batch_usernames lines).
Proof.
  intros L Hbatch Hread. unfold cli, cli_body. rewrite Hbatch.
  unfold cli_batch, try_except_class.
  unfold io_bind at 1. unfold io_open_read at 1. rewrite Hread.
  unfold io_bind at 1. unfold io_print at 1.
  match goal with
  | |- context [io_for ?l ?body ?p1] =>
      destruct (cli_batch_loop_run H session l p1)
        as (rounds & w' & Hloop & Hrounds);
      rewrite Hloop
  end.
  destruct (batch_rounds_writes session _ _ Hrounds) as [Hcount Hwrites].
  eexists _, _,
    (Printed ("🔍 Processing "
              ++ str_of_int (Z.of_nat (List.length (batch_usernames lines)))
              ++ " usernames...") :: List.concat rounds)%list.
  split; [reflexivity|]. split; [reflexivity|].
  split; [unfold close, emit; cbn [p_world p_stdin p_trace];
          now rewrite <- !app_assoc|].
  split; [intros _; now eexists|].
  split; [cbn [filter is_dump]; now rewrite Hcount|].
  split; [|apply batch_usernames_nonempty].
  intros [|x pre] path report post Heq; cbn [app] in Heq; [discriminate Heq|].
  injection Heq as Hx Heq. subst x.
  destruct (Hwrites pre path report post Heq)
    as (username & w & w1 & op & level & pre' & Hin & Hinv & Hop & Hpath
        & Hlevel & Hrange & Hpre).
  exists username, w, w1, op, level,
    (Printed ("🔍 Processing "
              ++ str_of_int (Z.of_nat (List.length (batch_usernames lines)))
              ++ " usernames...") :: pre')%list.
  repeat (split; [assumption|]). now rewrite Hpre.
Qed.

Lemma cli_batch_writes_witness :
  exists o p' evs,
    @cli fixed_runtime readonly_host offline_session 0
      {| args_username := None; args_batch := Some "names.txt";
         args_output := "json" |} (p0 ["unread"]) = Some (o, p')
    /\ p_stdin p' = p_stdin (p0 ["unread"])
    /\ p_trace p'
       = (p_trace (p0 ["unread"]) ++ Opened "names.txt" :: evs ++ [Closed])%list
    /\ (o = Returned tt ->
        exists rest,
          evs = (Printed ("🔍 Processing "
                          ++ str_of_int (Z.of_nat
                               (List.length (batch_usernames batch_lines)))
                          ++ " usernames...") :: rest)%list)
    /\ (List.length (filter is_dump evs)
        <= List.length (batch_usernames batch_lines))%nat
    /\ (forall pre path report post,
          evs = (pre ++ Dumped path report :: post)%list ->
          @batch_write fixed_runtime offline_session
            (batch_usernames batch_lines) pre path report)
    /\ Forall (fun username => username <> "") (batch_usernames batch_lines).
Proof.
  apply (@cli_batch_writes fixed_runtime readonly_host offline_session 0
           {| args_username := None; args_batch := Some "names.txt";
              args_output := "json" |} (p0 ["unread"]) "n" "ames.txt").
  - apply fixed_runtime_laws.
  - reflexivity.
  - reflexivity.
Defined.

(** [main] says that the results are saved before it writes them: when
    the first write fails, the message has been printed, the error leaves
    [main], and none of the three other usernames is investigated. *)
Theorem main_first_write_failure {R : Runtime} (H : Host)
  (session : ClientSession) (p : proc) :
  RuntimeLaws R ->
  exists operation_id report w1,
    investigate (init session) "example_user" (p_world p) = (Returned report, w1)
    /\ field "operation_id" report = Some (VStr operation_id)
    /\ forall e,
         host_dump_fails H
           (p_trace p
            ++ [ Printed "🔍 Investigating single username...";
                 Printed "✅ Investigation complete!";
                 Printed ("📊 Results saved to operation_" ++ operation_id
                          ++ ".json") ])%list
           ("operation_" ++ operation_id ++ ".json") report = Some e ->
         main H session p =
           (Raised e,
            mk_proc w1 (p_stdin p)
              (p_trace p
               ++ [ Printed "🔍 Investigating single username...";
                    Printed "✅ Investigation complete!";
                    Printed ("📊 Results saved to operation_" ++ operation_id
                             ++ ".json");
                    Dumped ("operation_" ++ operation_id ++ ".json") report;
                    Closed ])%list).
Proof.
  intros L.
  destruct (main_run H session p) as (opid & report & w1 & Hinv & Hid & Hrun).
  exists opid, report, w1. split; [exact Hinv|]. split; [exact Hid|].
  intros e He. cbv zeta in Hrun. rewrite He in Hrun. exact Hrun.
Qed.

Lemma main_first_write_failure_witness :
  exists w1,
    @main fixed_runtime readonly_host offline_session (p0 []) =
      (Raised (mk_exn "FileNotFoundError"
                 "[Errno 2] No such file or directory: 'operation_op_100_1000.json'"),
       w1).
Proof.
  destruct (@main_first_write_failure fixed_runtime readonly_host offline_session
              (p0 []) fixed_runtime_laws)
    as (opid & report & w1 & Hinv & Hid & Hfail).
  vm_compute in Hinv. inversion Hinv; subst; clear Hinv.
  vm_compute in Hid. inversion Hid; subst; clear Hid.
  eexists. apply Hfail. reflexivity.
Defined.



(** ** What the orchestrator hands on *)

(** When its four stages return, the orchestrator hands each the results
    of the ones before (the correlator gets pattern, scan and intelligence
    in this order) and the report carries the username and the four results
    unchanged. *)
Theorem orchestrate_report_fields {R : Runtime}
  (brain : string -> M pyval) (muscle : string -> pyval -> M pyval)
  (api : string -> pyval -> M pyval) (correlate : string -> list pyval -> M pyval)
  (username : string) (w w1 w2 w3 w4 : world) (b s a f : pyval) :
  RuntimeLaws R ->
  brain username (snd (time w)) = (Returned b, w1) ->
  muscle username b w1 = (Returned s, w2) ->
  api username s w2 = (Returned a, w3) ->
  correlate username [b; s; a] w3 = (Returned f, w4) ->
  exists report w',
    orchestrate_investigation brain muscle api correlate username w
      = (Returned report, w')
    /\ field "username" report = Some (VStr username)
    /\ field "brain_analysis" report = Some b
    /\ field "scan_results" report = Some s
    /\ field "api_intelligence" report = Some a
    /\ field "final_analysis" report = Some f.
Proof.
  intros L Eb Es Ea Ef.
  destruct (orchestrate_two_scans brain muscle muscle api correlate username w
              b w1 s s w2 a w3 f w4 Eb Es Es Ea Ea Ef Ef)
    as (n & r & dur & ts & w' & Hrun & _ & _).
  eexists _, w'. split; [exact Hrun|]. repeat split.
Qed.

Lemma orchestrate_report_fields_witness :
  exists report w',
    @orchestrate_investigation fixed_runtime
      (fun _ => ret (VStr "pattern")) (fun _ _ => ret (VStr "scan"))
      (fun _ _ => ret (VStr "intel")) (fun _ _ => ret (VStr "risk"))
      "john_doe" w0 = (Returned report, w')
    /\ field "username" report = Some (VStr "john_doe")
    /\ field "brain_analysis" report = Some (VStr "pattern")
    /\ field "scan_results" report = Some (VStr "scan")
    /\ field "api_intelligence" report = Some (VStr "intel")
    /\ field "final_analysis" report = Some (VStr "risk").
Proof.
  eapply (@orchestrate_report_fields fixed_runtime
            (fun _ => ret (VStr "pattern")) (fun _ _ => ret (VStr "scan"))
            (fun _ _ => ret (VStr "intel")) (fun _ _ => ret (VStr "risk"))
            "john_doe" w0).
  - apply fixed_runtime_laws.
  - reflexivity.
  - reflexivity.
  - reflexivity.
  - reflexivity.
Defined.
